(** * Path mapping of the PHP debug adapter (src/paths.ts)

    A shallow embedding of [convertDebuggerPathToClient],
    [convertClientPathToDebugger] and [isSameUri], together with models of
    the library functions they call (Node's [path] and [url] modules,
    [urlencode], [file-url] and [relateurl]).

    JavaScript strings are modelled as [string]: a sequence of bytes, the
    UTF-8 encoding of the JavaScript string.  All the delimiters the code
    looks at are ASCII, so every test on a character is a test on a byte. *)

From Stdlib Require Import Bool List Arith Lia Ascii String.
Import ListNotations.
Open Scope string_scope.

(* ------------------------------------------------------------------ *)
(** ** JavaScript string primitives *)

Module JS.

Definition chr_slash : ascii := "/"%char.
Definition chr_backslash : ascii := "\"%char.
Definition chr_colon : ascii := ":"%char.
Definition chr_dot : ascii := "."%char.

Definition is_upper (c : ascii) : bool :=
  let n := nat_of_ascii c in ((65 <=? n) && (n <=? 90))%nat.

Definition is_lower (c : ascii) : bool :=
  let n := nat_of_ascii c in ((97 <=? n) && (n <=? 122))%nat.

Definition is_digit (c : ascii) : bool :=
  let n := nat_of_ascii c in ((48 <=? n) && (n <=? 57))%nat.

(** The character class [[a-zA-Z]]. *)
Definition is_alpha (c : ascii) : bool := is_upper c || is_lower c.

Definition lower_char (c : ascii) : ascii :=
  if is_upper c then ascii_of_nat (nat_of_ascii c + 32) else c.

(** [String.prototype.toLowerCase] on the ASCII letters.  (The case mapping
    of characters outside ASCII is not modelled: their bytes are kept.) *)
Fixpoint toLowerCase (s : string) : string :=
  match s with
  | EmptyString => EmptyString
  | String c r => String (lower_char c) (toLowerCase r)
  end.

(** [s.startsWith(p)]. *)
Fixpoint startsWith (p s : string) : bool :=
  match p, s with
  | EmptyString, _ => true
  | String a p', String b s' => Ascii.eqb a b && startsWith p' s'
  | String _ _, EmptyString => false
  end.

Arguments startsWith : simpl never.

(** The last character of [s], if any. *)
Fixpoint last_char (s : string) : option ascii :=
  match s with
  | EmptyString => None
  | String c EmptyString => Some c
  | String _ r => last_char r
  end.

(** [s.endsWith(c)] for a one-character string [c]. *)
Definition endsWithChar (c : ascii) (s : string) : bool :=
  match last_char s with
  | Some d => Ascii.eqb c d
  | None => false
  end.

(** [s.indexOf(p)]: the first position at which [p] occurs in [s]. *)
Definition indexOf (p s : string) : option nat := String.index 0 p s.

(** [s.indexOf(p) !== 0]. *)
Definition indexOf_ne_0 (p s : string) : bool :=
  match indexOf p s with
  | Some 0 => false
  | _ => true
  end.

(** [s.substr(1)]. *)
Definition substr1 (s : string) : string :=
  match s with
  | EmptyString => EmptyString
  | String _ r => r
  end.

(** [s.split(sep)] for separators that are one character of the class
    [sep]: the maximal pieces between separators, empty pieces included. *)
Fixpoint split (sep : ascii -> bool) (s : string) : list string :=
  match s with
  | EmptyString => [EmptyString]
  | String c r =>
      if sep c then EmptyString :: split sep r
      else match split sep r with
           | h :: t => String c h :: t
           | [] => [String c EmptyString]
           end
  end.

(** [parts.join(sep)]. *)
Fixpoint join (sep : string) (parts : list string) : string :=
  match parts with
  | [] => EmptyString
  | [p] => p
  | p :: rest => p ++ sep ++ join sep rest
  end.

(** [s.replace(/c/g, d)] for characters [c] and [d]. *)
Fixpoint replace_char (c d : ascii) (s : string) : string :=
  match s with
  | EmptyString => EmptyString
  | String x r => String (if Ascii.eqb x c then d else x) (replace_char c d r)
  end.

(** The longest prefix of [s] whose characters satisfy [f], and the rest. *)
Fixpoint span (f : ascii -> bool) (s : string) : string * string :=
  match s with
  | EmptyString => (EmptyString, EmptyString)
  | String c r =>
      if f c then let '(a, b) := span f r in (String c a, b)
      else (EmptyString, s)
  end.

(** [s.slice(n)]. *)
Fixpoint slice_from (n : nat) (s : string) : string :=
  match n, s with
  | S m, String _ r => slice_from m r
  | _, _ => s
  end.

(** [s.slice(0, n)]. *)
Definition slice_to (n : nat) (s : string) : string := substring 0 n s.

(** Whether the character [c] occurs in [s]. *)
Fixpoint mem_char (c : ascii) (s : string) : bool :=
  match s with
  | EmptyString => false
  | String d r => Ascii.eqb c d || mem_char c r
  end.

(** The two hexadecimal digits of a byte, in upper case. *)
Definition hex_digit (n : nat) : ascii :=
  if (n <? 10)%nat then ascii_of_nat (48 + n) else ascii_of_nat (55 + n).

Definition percent_encode (c : ascii) : string :=
  let n := nat_of_ascii c in
  String "%" (String (hex_digit (n / 16)) (String (hex_digit (n mod 16)) EmptyString)).

(** JavaScript truthiness of a string: every string but the empty one. *)
Definition truthy (s : string) : bool :=
  match s with
  | EmptyString => false
  | _ => true
  end.

(** [a || b] on strings. *)
Definition or_else (a b : string) : string := if truthy a then a else b.

End JS.

(* ------------------------------------------------------------------ *)
(** ** Node's [path] module

    Modelled from the spec: the "OS-aware path splitting/joining" helpers
    of section 2 are Node's [path.posix] and [path.win32], which are not
    under src/.  The model follows the array formulation of Node's
    lib/path.js ([normalizeArray] over the pieces of the path), with the
    answer [''] of [relative] for two paths that are the same once
    resolved. *)

Module NodePath.

(** What the path functions read from the process: [process.cwd()] and the
    per-drive working directories that Windows keeps in the environment
    variables [=C:], [=D:], ... *)
Record Process := {
  cwd : string;
  driveCwd : string -> option string
}.

(** [normalizeArray(parts, allowAboveRoot)], with the result kept in
    reverse order in the accumulator [res]. *)
Fixpoint normalizeArray_rev (parts : list string) (allowAboveRoot : bool)
    (res : list string) : list string :=
  match parts with
  | [] => res
  | p :: rest =>
      if (p =? "") || (p =? ".") then normalizeArray_rev rest allowAboveRoot res
      else if p =? ".." then
        match res with
        | top :: below =>
            if negb (top =? "..") then normalizeArray_rev rest allowAboveRoot below
            else if allowAboveRoot
                 then normalizeArray_rev rest allowAboveRoot (".." :: res)
                 else normalizeArray_rev rest allowAboveRoot res
        | [] =>
            if allowAboveRoot
            then normalizeArray_rev rest allowAboveRoot (".." :: res)
            else normalizeArray_rev rest allowAboveRoot res
        end
      else normalizeArray_rev rest allowAboveRoot (p :: res)
  end.

Definition normalizeArray (parts : list string) (allowAboveRoot : bool)
    : list string :=
  rev (normalizeArray_rev parts allowAboveRoot []).

(** [trimArray(arr)]: the array without the empty strings at its two ends. *)
Fixpoint trimFront (l : list string) : list string :=
  match l with
  | p :: rest => if p =? "" then trimFront rest else l
  | [] => []
  end.

Definition trimArray (l : list string) : list string :=
  rev (trimFront (rev (trimFront l))).

(** The number of leading positions at which the two arrays agree
    ([samePartsLength]). *)
Fixpoint samePartsLength (a b : list string) : nat :=
  match a, b with
  | x :: a', y :: b' => if x =? y then S (samePartsLength a' b') else 0
  | _, _ => 0
  end.

Definition isPosixSep (c : ascii) : bool := Ascii.eqb c JS.chr_slash.

Definition isWinSep (c : ascii) : bool :=
  Ascii.eqb c JS.chr_slash || Ascii.eqb c JS.chr_backslash.

(** *** [path.posix] *)

Module posix.

Definition isAbsolute (p : string) : bool :=
  match p with
  | String c _ => isPosixSep c
  | EmptyString => false
  end.

(** The loop of [resolve]: [paths] are the arguments from the last to the
    first, followed by the working directory. *)
Fixpoint resolve_loop (paths : list string) (resolvedPath : string)
    (resolvedAbsolute : bool) : string * bool :=
  match paths with
  | [] => (resolvedPath, resolvedAbsolute)
  | p :: rest =>
      if resolvedAbsolute then (resolvedPath, resolvedAbsolute)
      else if p =? "" then resolve_loop rest resolvedPath resolvedAbsolute
      else resolve_loop rest (p ++ "/" ++ resolvedPath) (isAbsolute p)
  end.

(** Modelled from the spec: [path.posix.resolve(...args)] of Node, which
    is not under src/ (the POSIX path algebra of section 4.1). *)
Definition resolve (pr : Process) (args : list string) : string :=
  let '(resolvedPath, resolvedAbsolute) :=
    resolve_loop (rev args ++ [cwd pr]) "" false in
  let normalized :=
    JS.join "/" (normalizeArray (JS.split isPosixSep resolvedPath)
                                (negb resolvedAbsolute)) in
  JS.or_else ((if resolvedAbsolute then "/" else "") ++ normalized) ".".

(** Modelled from the spec: [path.posix.normalize(p)] of Node, which is
    not under src/ ("collapse [.]/[..] segments, normalize separators",
    section 4.1, step 6). *)
Definition normalize (p : string) : string :=
  let abs := isAbsolute p in
  let trailingSlash := JS.endsWithChar JS.chr_slash p in
  let n := JS.join "/" (normalizeArray (JS.split isPosixSep p) (negb abs)) in
  let n := if negb (JS.truthy n) && negb abs then "." else n in
  let n := if JS.truthy n && trailingSlash then n ++ "/" else n in
  (if abs then "/" else "") ++ n.

(** Modelled from the spec: [path.posix.relative(from, to)] of Node,
    which is not under src/ ("the relative path from [mappedServerPath] to
    [serverPath]" under POSIX rules, section 4.1, step 4). *)
Definition relative (pr : Process) (from to : string) : string :=
  if from =? to then ""
  else
    let fromResolved := resolve pr [from] in
    let toResolved := resolve pr [to] in
    if fromResolved =? toResolved then ""
    else
      let fromParts := trimArray (JS.split isPosixSep (JS.substr1 fromResolved)) in
      let toParts := trimArray (JS.split isPosixSep (JS.substr1 toResolved)) in
      let same := samePartsLength fromParts toParts in
      let ups := repeat ".." (List.length fromParts - same) in
      JS.join "/" (ups ++ skipn same toParts).

End posix.

(** *** [path.win32] *)

Module win32.

Definition notWinSep (c : ascii) : bool := negb (isWinSep c).

(** The alternative [[\\\/]{2}[^\\\/]+[\\\/]+[^\\\/]+] of [splitDeviceRe]:
    the UNC root at the start of [p] and what follows it. *)
Definition uncRoot (p : string) : option (string * string) :=
  match p with
  | String c1 (String c2 r) =>
      if isWinSep c1 && isWinSep c2 then
        let '(server, r1) := JS.span notWinSep r in
        let '(seps, r2) := JS.span isWinSep r1 in
        let '(share, r3) := JS.span notWinSep r2 in
        if JS.truthy server && JS.truthy seps && JS.truthy share
        then Some (String c1 (String c2 (server ++ seps ++ share)), r3)
        else None
      else None
  | _ => None
  end.

(** The first group of [splitDeviceRe]: a drive ([[a-zA-Z]:]) or a UNC
    root, and what follows it. *)
Definition splitDevice (p : string) : string * string :=
  match p with
  | String c (String d r) =>
      if JS.is_alpha c && Ascii.eqb d JS.chr_colon
      then (String c (String d EmptyString), r)
      else match uncRoot p with
           | Some dr => dr
           | None => (EmptyString, p)
           end
  | _ => (EmptyString, p)
  end.

Record Stat := {
  device : string;
  isUnc : bool;
  isAbsolute : bool;
  tail : string
}.

Definition deviceIsUnc (dev : string) : bool :=
  match dev with
  | String _ (String d _) => negb (Ascii.eqb d JS.chr_colon)
  | String _ EmptyString => true
  | EmptyString => false
  end.

(** [win32StatPath(path)]. *)
Definition win32StatPath (p : string) : Stat :=
  let '(dev, r) := splitDevice p in
  let unc := deviceIsUnc dev in
  match r with
  | String c r' =>
      if isWinSep c
      then {| device := dev; isUnc := unc; isAbsolute := true; tail := r' |}
      else {| device := dev; isUnc := unc; isAbsolute := unc; tail := r |}
  | EmptyString =>
      {| device := dev; isUnc := unc; isAbsolute := unc; tail := r |}
  end.

(** [normalizeUNCRoot(device)]: the leading separators removed, every
    other run of separators replaced by one backslash, behind [\\]. *)
Fixpoint squashSeps (s : string) (inRun : bool) : string :=
  match s with
  | EmptyString => EmptyString
  | String c r =>
      if isWinSep c
      then if inRun then squashSeps r true
           else String JS.chr_backslash (squashSeps r true)
      else String c (squashSeps r false)
  end.

Definition normalizeUNCRoot (dev : string) : string :=
  "\\" ++ squashSeps (snd (JS.span isWinSep dev)) false.

Record ResolveState := {
  resolvedDevice : string;
  resolvedTail : string;
  resolvedAbsolute : bool
}.

(** One turn of the loop of [resolve] on the path [p]; the boolean says
    whether the loop breaks. *)
Definition resolve_step (st : ResolveState) (p : string) : ResolveState * bool :=
  if p =? "" then (st, false)
  else
    let r := win32StatPath p in
    if JS.truthy (device r) && JS.truthy (resolvedDevice st)
       && negb (JS.toLowerCase (device r) =? JS.toLowerCase (resolvedDevice st))
    then (st, false)
    else
      let dev := if JS.truthy (resolvedDevice st)
                 then resolvedDevice st else device r in
      let st' :=
        if resolvedAbsolute st
        then {| resolvedDevice := dev;
                resolvedTail := resolvedTail st;
                resolvedAbsolute := true |}
        else {| resolvedDevice := dev;
                resolvedTail := tail r ++ "\" ++ resolvedTail st;
                resolvedAbsolute := isAbsolute r |} in
      (st', JS.truthy dev && resolvedAbsolute st').

Fixpoint resolve_args (paths : list string) (st : ResolveState)
    : ResolveState * bool :=
  match paths with
  | [] => (st, false)
  | p :: rest =>
      let '(st', stop) := resolve_step st p in
      if stop then (st', true) else resolve_args rest st'
  end.

(** The path of the last turn ([i = -1]): the working directory, or, once
    a drive is known, the working directory of that drive
    ([process.env['=C:'] || process.cwd()]), replaced by the root of the
    drive when it does not lie on the drive. *)
Definition resolve_cwd (pr : Process) (dev : string) : string :=
  if negb (JS.truthy dev) then cwd pr
  else
    let p := match driveCwd pr dev with
             | Some p => JS.or_else p (cwd pr)
             | None => cwd pr
             end in
    if negb (JS.toLowerCase (JS.slice_to 3 p) =? JS.toLowerCase dev ++ "\")
    then dev ++ "\" else p.

(** Modelled from the spec: [path.win32.resolve(...args)] of Node, which
    is not under src/ (the Windows path algebra of section 4.1). *)
Definition resolve (pr : Process) (args : list string) : string :=
  let init := {| resolvedDevice := ""; resolvedTail := "";
                 resolvedAbsolute := false |} in
  let '(st, stop) := resolve_args (rev args) init in
  let st := if stop then st
            else fst (resolve_step st (resolve_cwd pr (resolvedDevice st))) in
  let dev := if deviceIsUnc (resolvedDevice st)
             then normalizeUNCRoot (resolvedDevice st)
             else resolvedDevice st in
  let tl := JS.join "\" (normalizeArray (JS.split isWinSep (resolvedTail st))
                                        (negb (resolvedAbsolute st))) in
  JS.or_else (dev ++ (if resolvedAbsolute st then "\" else "") ++ tl) ".".

(** Modelled from the spec: [path.win32.normalize(p)] of Node, which is
    not under src/ (section 4.1, step 6, on a Windows client). *)
Definition normalize (p : string) : string :=
  let r := win32StatPath p in
  let trailingSlash :=
    match JS.last_char (tail r) with
    | Some c => isWinSep c
    | None => false
    end in
  let tl := JS.join "\" (normalizeArray (JS.split isWinSep (tail r))
                                        (negb (isAbsolute r))) in
  let tl := if negb (JS.truthy tl) && negb (isAbsolute r) then "." else tl in
  let tl := if JS.truthy tl && trailingSlash then tl ++ "\" else tl in
  let dev := if isUnc r then normalizeUNCRoot (device r) else device r in
  dev ++ (if isAbsolute r then "\" else "") ++ tl.

Definition isBackslash (c : ascii) : bool := Ascii.eqb c JS.chr_backslash.

(** Modelled from the spec: [path.win32.relative(from, to)] of Node,
    which is not under src/ ("Windows rules if serverIsWindows",
    section 4.1, step 4): the two resolved paths are compared in lower
    case, and a target on another drive is returned as it is. *)
Definition relative (pr : Process) (from to : string) : string :=
  if from =? to then ""
  else
    let fromOrig := resolve pr [from] in
    let toOrig := resolve pr [to] in
    let lowerFrom := JS.toLowerCase fromOrig in
    let lowerTo := JS.toLowerCase toOrig in
    if (fromOrig =? toOrig) || (lowerFrom =? lowerTo) then ""
    else
      let toParts := trimArray (JS.split isBackslash toOrig) in
      let lowerFromParts := trimArray (JS.split isBackslash lowerFrom) in
      let lowerToParts := trimArray (JS.split isBackslash lowerTo) in
      let same := samePartsLength lowerFromParts lowerToParts in
      if (same =? 0)%nat then toOrig
      else
        let ups := repeat ".." (List.length lowerFromParts - same) in
        JS.join "\" (ups ++ skipn same toParts).

End win32.

(** The platform Node runs on decides what [path] itself is. *)
Inductive Platform := Posix | Win32.

Definition relative (pf : Platform) (pr : Process) (from to : string) : string :=
  match pf with
  | Posix => posix.relative pr from to
  | Win32 => win32.relative pr from to
  end.

Definition resolve (pf : Platform) (pr : Process) (args : list string) : string :=
  match pf with
  | Posix => posix.resolve pr args
  | Win32 => win32.resolve pr args
  end.

Definition normalize (pf : Platform) (p : string) : string :=
  match pf with
  | Posix => posix.normalize p
  | Win32 => win32.normalize p
  end.

End NodePath.

(* ------------------------------------------------------------------ *)
(** ** Node's [url] module ([url.parse], [url.format], [url.resolve])

    Modelled from the spec: "standard URI resolution" and the parsing of a
    server file URI (section 4.1, step 1; section 4.2, step 4) are Node's
    legacy [url] functions, which are not under src/.  The model follows
    [Url.prototype.parse], [format] and [resolveObject] of lib/url.js on
    the fields the code reads.  Not modelled: the percent-decoding of
    [auth], the IDNA conversion of a host name that is not ASCII, and the
    parsing of the query string into an object. *)

Module NodeUrl.

Record Url := {
  protocol : option string;
  slashes : bool;
  auth : option string;
  host : option string;
  port : option string;
  hostname : option string;
  hash : option string;
  search : option string;
  pathname : option string
}.

(** A field that is [null] or a string, read where JavaScript wants a
    string: [x || '']. *)
Definition str (o : option string) : string :=
  match o with
  | Some s => s
  | None => EmptyString
  end.

(** Truthiness of a field: neither [null] nor the empty string. *)
Definition truthy (o : option string) : bool := JS.truthy (str o).

Definition nonEmpty (s : string) : option string :=
  if JS.truthy s then Some s else None.

(** The white space that [parse] trims from both ends of its input. *)
Definition isWs (c : ascii) : bool :=
  let n := nat_of_ascii c in
  ((n =? 32) || (n =? 9) || (n =? 13) || (n =? 10) || (n =? 12))%nat.

(** The class [\s] of regular expressions, on ASCII. *)
Definition isSpace (c : ascii) : bool :=
  isWs c || (nat_of_ascii c =? 11)%nat.

Definition trimStart (s : string) : string := snd (JS.span isWs s).

(** [s] without its trailing white space. *)
Fixpoint trimEnd (s : string) : string :=
  match s with
  | EmptyString => EmptyString
  | String c r =>
      match trimEnd r with
      | EmptyString => if isWs c then EmptyString else String c EmptyString
      | r' => String c r'
      end
  end.

Definition isSplit (c : ascii) : bool :=
  Ascii.eqb c "?"%char || Ascii.eqb c "#"%char.

(** Backslashes become slashes until the first [?] or [#]. *)
Fixpoint convertBackslashes (s : string) : string :=
  match s with
  | EmptyString => EmptyString
  | String c r =>
      if isSplit c then s
      else String (if Ascii.eqb c JS.chr_backslash then JS.chr_slash else c)
                  (convertBackslashes r)
  end.

Fixpoint forallb_str (f : ascii -> bool) (s : string) : bool :=
  match s with
  | EmptyString => true
  | String c r => f c && forallb_str f r
  end.

Definition notQuestion (c : ascii) : bool := negb (Ascii.eqb c "?"%char).

(** [simplePathPattern]: a string without white space that starts with one
    slash or with two (not three) is only a path and a query; the query
    starts at the first question mark. *)
Definition simplePath (rest : string) : option (string * string) :=
  match rest with
  | String c1 r1 =>
      if negb (Ascii.eqb c1 JS.chr_slash) then None
      else
        let tripleSlash :=
          match r1 with
          | String c2 (String c3 _) =>
              Ascii.eqb c2 JS.chr_slash && Ascii.eqb c3 JS.chr_slash
          | _ => false
          end in
        if tripleSlash then None
        else if negb (forallb_str (fun c => negb (isSpace c)) rest) then None
        else Some (JS.span notQuestion rest)
  | EmptyString => None
  end.

(** The characters of [protocolPattern], [/^([a-z0-9.+-]+:)/i]. *)
Definition isProtoChar (c : ascii) : bool :=
  JS.is_alpha c || JS.is_digit c || JS.mem_char c ".+-".

(** The protocol at the start of [rest], colon included and as written,
    and what follows it. *)
Definition splitProtocol (rest : string) : option string * string :=
  let '(name, r) := JS.span isProtoChar rest in
  match r with
  | String c r' =>
      if JS.truthy name && Ascii.eqb c JS.chr_colon
      then (Some (name ++ ":"), r')
      else (None, rest)
  | EmptyString => (None, rest)
  end.

Definition hostlessProtocol (p : option string) : bool :=
  match p with
  | Some s => (s =? "javascript") || (s =? "javascript:")
  | None => false
  end.

Definition slashedProtocol (p : option string) : bool :=
  match p with
  | Some s =>
      existsb (String.eqb s)
        ["http"; "http:"; "https"; "https:"; "ftp"; "ftp:";
         "gopher"; "gopher:"; "file"; "file:"]
  | None => false
  end.

Definition unsafeProtocol (p : option string) : bool := hostlessProtocol p.

Definition notAtOrSlash (c : ascii) : bool :=
  negb (Ascii.eqb c "@"%char || Ascii.eqb c JS.chr_slash).

(** [/^\/\/[^@\/]+@[^@\/]+/.test(rest)]. *)
Definition looksLikeAuth (rest : string) : bool :=
  match rest with
  | String c1 (String c2 r) =>
      if Ascii.eqb c1 JS.chr_slash && Ascii.eqb c2 JS.chr_slash then
        let '(user, r1) := JS.span notAtOrSlash r in
        match r1 with
        | String c3 (String c4 _) =>
            JS.truthy user && Ascii.eqb c3 "@"%char && notAtOrSlash c4
        | _ => false
        end
      else false
  | _ => false
  end.

(** Characters that never occur in a host name. *)
Definition isNonHostChar (c : ascii) : bool :=
  let n := nat_of_ascii c in
  existsb (Nat.eqb n) [9; 10; 13; 32; 34; 37; 39; 59; 60; 62; 92; 94; 96; 123; 124; 125].

Definition isHostEndChar (c : ascii) : bool :=
  Ascii.eqb c "#"%char || Ascii.eqb c JS.chr_slash || Ascii.eqb c "?"%char.

Definition orElseNat (o : option nat) (i : nat) : option nat :=
  match o with
  | Some _ => o
  | None => Some i
  end.

(** The scan for the end of the host: the position of the last [@] seen
    and the position [nonHost] at which the host stops. *)
Fixpoint scanHost (s : string) (i : nat) (atSign nonHost : option nat)
    : option nat * option nat :=
  match s with
  | EmptyString => (atSign, nonHost)
  | String c r =>
      if isNonHostChar c then scanHost r (S i) atSign (orElseNat nonHost i)
      else if isHostEndChar c then (atSign, orElseNat nonHost i)
      else if Ascii.eqb c "@"%char then scanHost r (S i) (Some i) None
      else scanHost r (S i) atSign nonHost
  end.

(** [portPattern], [/:[0-9]*$/]: the host without its port, and the port
    ([None] when there is none or when it is empty). *)
Fixpoint splitPort (h : string) : string * option string * bool :=
  match h with
  | EmptyString => (EmptyString, None, false)
  | String c r =>
      if Ascii.eqb c JS.chr_colon && forallb_str JS.is_digit r
      then (EmptyString, nonEmpty r, true)
      else let '(a, p, found) := splitPort r in (String c a, p, found)
  end.

Definition isHostnameChar (c : ascii) : bool :=
  JS.is_alpha c || JS.is_digit c || JS.mem_char c "-+_"
  || (127 <? nat_of_ascii c)%nat.

(** [validateHostname]: the valid prefix of the host name and, when the
    host name is cut, what goes back in front of the rest ([lastPos] is
    undefined until the first dot, so the first label has no limit). *)
Fixpoint validateHostname (h : string) (i : nat) (lastPos : option nat)
    : option nat :=
  match h with
  | EmptyString =>
      match lastPos with
      | Some l => if (63 <? i - l)%nat then Some (l + 63) else None
      | None => None
      end
  | String c r =>
      if Ascii.eqb c JS.chr_dot then
        match lastPos with
        | Some l =>
            if (63 <? i - l)%nat then Some (l + 63)
            else validateHostname r (S i) (Some (S i))
        | None => validateHostname r (S i) (Some (S i))
        end
      else if isHostnameChar c then validateHostname r (S i) lastPos
      else Some i
  end.

(** The characters of [autoEscape], written as percent escapes. *)
Definition isAutoEscape (c : ascii) : bool :=
  let n := nat_of_ascii c in
  existsb (Nat.eqb n) [9; 10; 13; 32; 34; 39; 60; 62; 92; 94; 96; 123; 124; 125].

Fixpoint autoEscapeStr (s : string) : string :=
  match s with
  | EmptyString => EmptyString
  | String c r =>
      if isAutoEscape c then JS.percent_encode c ++ autoEscapeStr r
      else String c (autoEscapeStr r)
  end.

Definition notHash (c : ascii) : bool := negb (Ascii.eqb c "#"%char).

Definition isBracketed (h : string) : bool :=
  match h with
  | String c _ => Ascii.eqb c "["%char && JS.endsWithChar "]"%char h
  | EmptyString => false
  end.

(** The host part of [parse]: from what follows the slashes, the fields
    [auth], [host], [port] and [hostname], and the rest. *)
Definition parseHostPart (rest : string)
    : option string * string * option string * string * string :=
  let '(atSign, nonHost) := scanHost rest 0 None None in
  let au := match atSign with
            | Some a => Some (JS.slice_to a rest)
            | None => None
            end in
  let start := match atSign with Some a => S a | None => 0 end in
  let '(h, rest) :=
    match nonHost with
    | None => (JS.slice_from start rest, EmptyString)
    | Some n => (substring start (n - start) rest, JS.slice_from n rest)
    end in
  let '(hn, po, _) := splitPort h in
  let ipv6 := isBracketed hn in
  let '(hn, rest) :=
    if ipv6 then (hn, rest)
    else match validateHostname hn 0 None with
         | Some k => (JS.slice_to k hn, "/" ++ JS.slice_from k hn ++ rest)
         | None => (hn, rest)
         end in
  let hn := JS.toLowerCase hn in
  let h := hn ++ match po with Some p => ":" ++ p | None => "" end in
  let '(hn, rest) :=
    if ipv6
    then (substring 1 (String.length hn - 2) hn,
          if JS.startsWith "/" rest then rest else "/" ++ rest)
    else (hn, rest) in
  (au, h, po, hn, rest).

(** Modelled from the spec: [url.parse(url, false, slashesDenoteHost)] of
    Node, which is not under src/ ("Parse the URI if given as string;
    extract the path component", section 4.1, step 1). *)
Definition parse (url : string) (slashesDenoteHost : bool) : Url :=
  let rest := convertBackslashes (trimEnd (trimStart url)) in
  let hasHash := JS.mem_char "#"%char url in
  match (if negb slashesDenoteHost && negb hasHash
         then simplePath rest else None) with
  | Some (p, q) =>
      {| protocol := None; slashes := false; auth := None; host := None;
         port := None; hostname := None; hash := None;
         search := nonEmpty q; pathname := Some p |}
  | None =>
      let '(proto, rest) := splitProtocol rest in
      let lowerProto := option_map JS.toLowerCase proto in
      let hasProto := match proto with Some _ => true | None => false end in
      let sl :=
        (slashesDenoteHost || hasProto || looksLikeAuth rest)
        && JS.startsWith "//" rest in
      let strip := sl && negb (hasProto && hostlessProtocol proto) in
      let rest := if strip then JS.slice_from 2 rest else rest in
      let hasHost :=
        negb (hostlessProtocol proto)
        && (sl || (hasProto && negb (slashedProtocol proto))) in
      let '(au, h, po, hn, rest) :=
        if hasHost
        then let '(au, h, po, hn, rest) := parseHostPart rest in
             (au, Some h, po, Some hn, rest)
        else (None, None, None, None, rest) in
      let rest := if unsafeProtocol lowerProto then rest
                  else autoEscapeStr rest in
      let '(beforeHash, hashPart) := JS.span notHash rest in
      let '(path, query) := JS.span notQuestion beforeHash in
      let pn := nonEmpty path in
      let pn := if slashedProtocol lowerProto && truthy hn && negb (truthy pn)
                then Some "/" else pn in
      {| protocol := lowerProto; slashes := strip; auth := au; host := h;
         port := po; hostname := hn; hash := nonEmpty hashPart;
         search := nonEmpty query; pathname := pn |}
  end.

(** [s.replace(c, t)]: the first occurrence of the character [c]
    replaced by [t]. *)
Fixpoint replaceFirst (c : ascii) (t : string) (s : string) : string :=
  match s with
  | EmptyString => EmptyString
  | String d r => if Ascii.eqb c d then t ++ r else String d (replaceFirst c t r)
  end.

(** The escaping of [#] and [?] in the path that [format] does. *)
Fixpoint escapePathname (s : string) : string :=
  match s with
  | EmptyString => EmptyString
  | String c r =>
      if Ascii.eqb c "#"%char then "%23" ++ escapePathname r
      else if Ascii.eqb c "?"%char then "%3F" ++ escapePathname r
      else String c (escapePathname r)
  end.

Definition ensurePrefix (c : ascii) (s : string) : string :=
  match s with
  | EmptyString => EmptyString
  | String d _ => if Ascii.eqb c d then s else String c s
  end.

(** Modelled from the spec: [Url.prototype.format] of Node, which is not
    under src/; it prints the result of a resolution. *)
Definition format (u : Url) : string :=
  let au := if truthy (auth u) then str (auth u) ++ "@" else "" in
  let proto := str (protocol u) in
  let proto := if JS.truthy proto && negb (JS.endsWithChar JS.chr_colon proto)
               then proto ++ ":" else proto in
  let h : option string :=
    if truthy (host u) then Some (au ++ str (host u))
    else if truthy (hostname u) then
      let hn := str (hostname u) in
      Some (au ++ (if JS.mem_char JS.chr_colon hn then "[" ++ hn ++ "]" else hn)
               ++ (if truthy (port u) then ":" ++ str (port u) else ""))
    else None in
  let pn := escapePathname (str (pathname u)) in
  let hasHost := match h with Some _ => true | None => false end in
  let withSlashes :=
    slashes u
    || ((negb (JS.truthy proto) || slashedProtocol (Some proto)) && hasHost) in
  let h' := if withSlashes then "//" ++ str h else str h in
  let pn := if withSlashes then ensurePrefix JS.chr_slash pn else pn in
  let se := ensurePrefix "?"%char (replaceFirst "#"%char "%23" (str (search u))) in
  let ha := ensurePrefix "#"%char (str (hash u)) in
  proto ++ h' ++ pn ++ se ++ ha.

(** The strip of single dots and the resolution of double dots: the parts
    are visited from the last to the first, [up] counts the parts still
    to be removed, [acc] holds the parts that are kept. *)
Fixpoint stripDots (revParts : list string) (up : nat) (acc : list string)
    : list string * nat :=
  match revParts with
  | [] => (acc, up)
  | p :: rest =>
      if p =? "." then stripDots rest up acc
      else if p =? ".." then stripDots rest (S up) acc
      else match up with
           | S up' => stripDots rest up' acc
           | O => stripDots rest O (p :: acc)
           end
  end.

Definition splitPath (pn : option string) : list string :=
  if truthy pn then JS.split NodePath.isPosixSep (str pn) else [].

Definition startsWithSlash (o : option string) : bool :=
  JS.startsWith "/" (str o).

Definition headIs (l : list string) (s : string) : bool :=
  match l with
  | x :: _ => x =? s
  | [] => false
  end.

Definition pop (l : list string) : list string := removelast l.

(** Putting a host in front of a path array: it takes the place of an
    empty first part. *)
Definition unshiftHost (h : string) (l : list string) : list string :=
  match l with
  | x :: r => if x =? "" then h :: r else h :: l
  | [] => [h]
  end.

(** The parts of the path of a reference whose protocol is slashed but
    which has no host: the first part that is not empty becomes the host. *)
Fixpoint shiftHost (l : list string) (last : option string)
    : option string * list string :=
  match l with
  | [] => (last, [])
  | x :: r => if JS.truthy x then (Some x, r) else shiftHost r (Some x)
  end.

Definition isFileProtocol (p : option string) : bool :=
  match p with
  | Some s => (s =? "file") || (s =? "file:")
  | None => false
  end.

Definition optEq (a b : option string) : bool :=
  match a, b with
  | Some x, Some y => x =? y
  | None, None => true
  | _, _ => false
  end.

Definition isSome (o : option string) : bool :=
  match o with
  | Some _ => true
  | None => false
  end.

(** The host and the auth of a host field of the shape [auth@host]. *)
Definition authInHost (h : string) : option (string * string) :=
  match JS.indexOf "@" h with
  | Some (S _) =>
      match JS.split (Ascii.eqb "@"%char) h with
      | a :: b :: _ => Some (a, b)
      | _ => None
      end
  | _ => None
  end.

(** The end of [resolveObject], once the path array [srcPath] of the
    result is known: the dots are resolved, the path is made absolute
    where it must be, and the fields are put together. *)
Definition finishResolve (base rel : Url)
    (psychotic mustEndAbs removeAllDots : bool) (relHost : option string)
    (resAuth resHost resPort resHostname resSearch : option string)
    (srcPath : list string) : Url :=
  match srcPath with
  | [] =>
      {| protocol := protocol base; slashes := slashes base;
         auth := resAuth; host := resHost; port := resPort;
         hostname := resHostname; hash := hash rel; search := resSearch;
         pathname := None |}
  | _ =>
      let last := List.last srcPath "" in
      let hasTrailingSlash :=
        ((truthy resHost || truthy relHost || (1 <? List.length srcPath)%nat)
         && ((last =? ".") || (last =? "..")))
        || (last =? "") in
      let '(srcPath, up) := stripDots (rev srcPath) 0 [] in
      let srcPath := if negb mustEndAbs && negb removeAllDots
                     then (repeat ".." up ++ srcPath)%list else srcPath in
      let srcPath :=
        match srcPath with
        | x :: _ =>
            if mustEndAbs && negb (x =? "") && negb (JS.startsWith "/" x)
            then "" :: srcPath else srcPath
        | [] => if mustEndAbs then [""] else []
        end in
      let srcPath :=
        if hasTrailingSlash
           && negb (JS.endsWithChar JS.chr_slash (JS.join "/" srcPath))
        then (srcPath ++ [""])%list else srcPath in
      let isAbsolute :=
        match srcPath with
        | x :: _ => (x =? "") || JS.startsWith "/" x
        | [] => false
        end in
      let '(resAuth, resHost, resHostname, srcPath) :=
        if psychotic then
          let '(h, srcPath) :=
            if isAbsolute then ("", srcPath)
            else match srcPath with
                 | x :: r => (x, r)
                 | [] => ("", [])
                 end in
          match authInHost h with
          | Some (a, h') => (Some a, Some h', Some h', srcPath)
          | None => (resAuth, Some h, Some h, srcPath)
          end
        else (resAuth, resHost, resHostname, srcPath) in
      let mustEndAbs :=
        mustEndAbs
        || (truthy resHost && negb (Nat.eqb (List.length srcPath) 0)) in
      let srcPath := if mustEndAbs && negb isAbsolute
                     then "" :: srcPath else srcPath in
      {| protocol := protocol base;
         slashes := slashes base || slashes rel;
         auth := if truthy (auth rel) then auth rel else resAuth;
         host := resHost; port := resPort; hostname := resHostname;
         hash := hash rel; search := resSearch;
         pathname := match srcPath with
                     | [] => None
                     | _ => Some (JS.join "/" srcPath)
                     end |}
  end.

(** Modelled from the spec: [Url.prototype.resolveObject] of Node, which
    is not under src/ ("standard URI resolution", section 4.2, step 4),
    given the reference already parsed. *)
Definition resolveObject (base rel : Url) : Url :=
  let result :=
    {| protocol := protocol base; slashes := slashes base; auth := auth base;
       host := host base; port := port base; hostname := hostname base;
       hash := hash rel; search := search base; pathname := pathname base |} in
  if format rel =? "" then result
  else if slashes rel && negb (truthy (protocol rel)) then
    (* a reference of the shape //host/path keeps only the protocol *)
    let pn := if slashedProtocol (protocol base) && truthy (hostname rel)
                 && negb (truthy (pathname rel))
              then Some "/" else pathname rel in
    {| protocol := protocol base; slashes := slashes rel; auth := auth rel;
       host := host rel; port := port rel; hostname := hostname rel;
       hash := hash rel; search := search rel; pathname := pn |}
  else if truthy (protocol rel) && negb (optEq (protocol rel) (protocol base)) then
    if negb (slashedProtocol (protocol rel)) then rel
    else
      let '(relHost, relHostname, pn) :=
        if negb (truthy (host rel)) && negb (isFileProtocol (protocol rel))
           && negb (hostlessProtocol (protocol rel))
        then
          let '(h, relPath) := shiftHost (JS.split NodePath.isPosixSep
                                           (str (pathname rel))) None in
          let h := if truthy h then h else Some "" in
          let hn := if truthy (hostname rel) then hostname rel else Some "" in
          let relPath := if headIs relPath "" then relPath else "" :: relPath in
          let relPath := if (List.length relPath <? 2)%nat
                         then "" :: relPath else relPath in
          (h, hn, Some (JS.join "/" relPath))
        else (host rel, hostname rel, pathname rel) in
      {| protocol := protocol rel;
         slashes := slashes base || slashes rel;
         auth := auth rel;
         host := Some (str relHost);
         port := port rel;
         hostname := if truthy relHostname then relHostname else relHost;
         hash := hash rel; search := search rel; pathname := pn |}
  else
    let isSourceAbs := startsWithSlash (pathname base) in
    let isRelAbs := truthy (host rel) || startsWithSlash (pathname rel) in
    let mustEndAbs :=
      isRelAbs || isSourceAbs || (truthy (host base) && truthy (pathname rel)) in
    let removeAllDots := mustEndAbs in
    let srcPath := splitPath (pathname base) in
    let relPath := splitPath (pathname rel) in
    let psychotic :=
      truthy (protocol base) && negb (slashedProtocol (protocol base)) in
    (* a protocol without slashes: the host moves into the path *)
    let srcPath := if psychotic && truthy (host base)
                   then unshiftHost (str (host base)) srcPath else srcPath in
    let resHost := if psychotic then Some "" else host base in
    let resHostname := if psychotic then Some "" else hostname base in
    let resPort := if psychotic then None else port base in
    let relHasProto := psychotic && truthy (protocol rel) in
    let resAuth := if relHasProto then None else auth base in
    let relPath := if relHasProto && truthy (host rel)
                   then unshiftHost (str (host rel)) relPath else relPath in
    let relHost := if relHasProto then None else host rel in
    let relHostname := if relHasProto then None else hostname rel in
    let relPort := if relHasProto then None else port rel in
    let mustEndAbs :=
      if psychotic
      then mustEndAbs && (headIs relPath "" || headIs srcPath "")
      else mustEndAbs in
    let finish :=
      finishResolve base rel psychotic mustEndAbs removeAllDots relHost in
    if isRelAbs then
      let hostGiven := isSome relHost in
      let hostnameGiven := isSome relHostname in
      let resAuth := if hostGiven && negb (optEq resHost relHost)
                     then None else resAuth in
      let resAuth := if hostnameGiven && negb (optEq resHostname relHostname)
                     then None else resAuth in
      finish resAuth
             (if hostGiven then relHost else resHost)
             (if hostGiven then relPort else resPort)
             (if hostnameGiven then relHostname else resHostname)
             (search rel) relPath
    else match relPath with
    | _ :: _ =>
        finish resAuth resHost resPort resHostname (search rel)
               (pop srcPath ++ relPath)%list
    | [] =>
        if isSome (search rel) then
          (* only the query changes *)
          let '(resAuth, resHost, resHostname) :=
            if psychotic then
              let h := match srcPath with x :: _ => x | [] => "" end in
              match authInHost h with
              | Some (a, h') => (Some a, Some h', Some h')
              | None => (resAuth, Some h, Some h)
              end
            else (resAuth, resHost, resHostname) in
          {| protocol := protocol base; slashes := slashes base;
             auth := resAuth; host := resHost; port := resPort;
             hostname := resHostname; hash := hash rel; search := search rel;
             pathname := pathname base |}
        else finish resAuth resHost resPort resHostname (search base) srcPath
    end.

(** Modelled from the spec: [url.resolve(source, relative)] of Node, which
    is not under src/ ("Resolve that relative reference against the
    server-source URI", section 4.2, step 4). *)
Definition resolve (source relative : string) : string :=
  format (resolveObject (parse source true) (parse relative true)).

End NodeUrl.

(* ------------------------------------------------------------------ *)
(** ** [urlencode]: [decode]

    Modelled from the spec: the percent-decoding of section 4.1, step 2 is
    [decode] of the package urlencode, which is not under src/; for the
    default charset it is [decodeURIComponent].  [None] stands for the
    [URIError] that a malformed escape raises.  The model follows the
    abstract operation Decode of ECMAScript: an escape is [%] and two
    hexadecimal digits, and the escapes of a character outside ASCII must
    spell its UTF-8 encoding. *)

Module Urlencode.

Definition hexValue (c : ascii) : option nat :=
  let n := nat_of_ascii c in
  if JS.is_digit c then Some (n - 48)
  else if ((65 <=? n) && (n <=? 70))%nat then Some (n - 55)
  else if ((97 <=? n) && (n <=? 102))%nat then Some (n - 87)
  else None.

(** Where the decoder stands: between characters, in front of the
    continuation bytes of a character ([k] of them, the next one between
    [lo] and [hi]), behind a percent sign, or behind the first digit. *)
Inductive DecState :=
| Normal
| Expect (k lo hi : nat)
| Pct (ctx : option (nat * nat * nat))
| Hex1 (ctx : option (nat * nat * nat)) (d : nat).

(** The state after the first byte [b] of a character. *)
Definition afterLead (b : nat) : option DecState :=
  if (b <? 128)%nat then Some Normal
  else if ((194 <=? b) && (b <=? 223))%nat then Some (Expect 1 128 191)
  else if (b =? 224)%nat then Some (Expect 2 160 191)
  else if (b =? 237)%nat then Some (Expect 2 128 159)
  else if ((225 <=? b) && (b <=? 239))%nat then Some (Expect 2 128 191)
  else if (b =? 240)%nat then Some (Expect 3 144 191)
  else if ((241 <=? b) && (b <=? 243))%nat then Some (Expect 3 128 191)
  else if (b =? 244)%nat then Some (Expect 3 128 143)
  else None.

(** The state after the byte [b] of an escape. *)
Definition afterByte (ctx : option (nat * nat * nat)) (b : nat)
    : option DecState :=
  match ctx with
  | None => afterLead b
  | Some (k, lo, hi) =>
      if ((lo <=? b) && (b <=? hi))%nat
      then Some (match k with
                 | S (S k') => Expect (S k') 128 191
                 | _ => Normal
                 end)
      else None
  end.

Fixpoint decode_from (st : DecState) (s : string) : option string :=
  match s with
  | EmptyString =>
      match st with
      | Normal => Some EmptyString
      | _ => None
      end
  | String c r =>
      match st with
      | Normal =>
          if Ascii.eqb c "%"%char then decode_from (Pct None) r
          else option_map (String c) (decode_from Normal r)
      | Expect k lo hi =>
          if Ascii.eqb c "%"%char then decode_from (Pct (Some (k, lo, hi))) r
          else None
      | Pct ctx =>
          match hexValue c with
          | Some d => decode_from (Hex1 ctx d) r
          | None => None
          end
      | Hex1 ctx d =>
          match hexValue c with
          | Some e =>
              let b := 16 * d + e in
              match afterByte ctx b with
              | Some st' =>
                  option_map (String (ascii_of_nat b)) (decode_from st' r)
              | None => None
              end
          | None => None
          end
      end
  end.

(** [decodeURIComponent(s)]. *)
Definition decodeURIComponent (s : string) : option string :=
  decode_from Normal s.

(** Modelled from the spec: [decode(s)] of urlencode, which is not under
    src/ ("Percent-decode the path component", section 4.1, step 2), for
    the default charset. *)
Definition decode (s : string) : option string := decodeURIComponent s.

End Urlencode.

(* ------------------------------------------------------------------ *)
(** ** [file-url]

    Modelled from the spec: the conversion of a local path "into a
    [file://] URI without resolving it against any base" (section 4.2,
    step 2) is the package file-url with the option [resolve: false],
    which is not under src/: backslashes become slashes, a path that does
    not start with a slash gets one, and the result goes through
    [encodeURI]. *)

Module FileUrl.

(** The characters that [encodeURI] leaves as they are. *)
Definition isUriUnescaped (c : ascii) : bool :=
  JS.is_alpha c || JS.is_digit c || JS.mem_char c "-_.!~*'();/?:@&=+$,#".

Fixpoint encodeURI (s : string) : string :=
  match s with
  | EmptyString => EmptyString
  | String c r =>
      if isUriUnescaped c then String c (encodeURI r)
      else JS.percent_encode c ++ encodeURI r
  end.

(** Modelled from the spec: [fileUrl(filePath, { resolve: false })] of
    file-url, which is not under src/ (section 4.2, step 2). *)
Definition fileUrl (filePath : string) : string :=
  let pathName := JS.replace_char JS.chr_backslash JS.chr_slash filePath in
  let pathName := if JS.startsWith "/" pathName then pathName
                  else "/" ++ pathName in
  encodeURI ("file://" ++ pathName).

End FileUrl.

(* ------------------------------------------------------------------ *)
(** ** [relateurl]

    Modelled from the spec: the relativization helper of section 4.3 is
    [RelateUrl.relate] of the package relateurl, which is not under src/
    (src/paths.ts only fixes its options).  The model follows the steps of
    the package: parse both URLs, find how far they agree (scheme, auth,
    host, port, path, resource, query, hash), relate the two directory
    arrays, and print what differs.  The options that src/paths.ts leaves
    at their defaults are taken at their defaults; the query is kept as it
    is written (the package prints it anew from the parsed query); the
    ports of [defaultPorts] are the ones passed in the options.  [None]
    stands for the exceptions of [relate]. *)

Module RelateUrl.

Inductive Output := ABSOLUTE | PATH_RELATIVE | ROOT_RELATIVE | SHORTEST.

Definition Output_eqb (a b : Output) : bool :=
  match a, b with
  | ABSOLUTE, ABSOLUTE | PATH_RELATIVE, PATH_RELATIVE
  | ROOT_RELATIVE, ROOT_RELATIVE | SHORTEST, SHORTEST => true
  | _, _ => false
  end.

Record Options := {
  output : Output;
  removeRootTrailingSlash : bool;
  defaultPorts : list (string * string)
}.

Definition rejectedSchemes : list string := ["data"; "javascript"; "mailto"].
Definition directoryIndexes : list string := ["index.html"].

Record UrlObj := {
  scheme : option string;
  auth : option string;
  hostFull : option string;
  port : option string;
  portIsDefault : bool;
  pathString : option string;
  pathArray : option (list string);
  relativeArray : list string;
  resource : option string;
  resourceIsIndex : bool;
  queryFull : string;
  separatorOnlyQuery : bool;
  hash : option string
}.

Definition validScheme (url : string) : bool :=
  forallb (fun sch => negb (JS.startsWith (sch ++ ":") url)) rejectedSchemes.

(** [splitPath]: the directories of a path, without the empty pieces. *)
Definition splitPath (p : string) : list string :=
  filter JS.truthy (JS.split NodePath.isPosixSep p).

(** [joinPath]. *)
Definition joinPath (dirs : list string) : string :=
  match dirs with
  | [] => EmptyString
  | _ => JS.join "/" dirs ++ "/"
  end.

Fixpoint resolveDots (dirs : list string) (revAcc : list string) : list string :=
  match dirs with
  | [] => rev revAcc
  | d :: rest =>
      if d =? ".." then resolveDots rest (tl revAcc)
      else if d =? "." then resolveDots rest revAcc
      else resolveDots rest (d :: revAcc)
  end.

(** [resolveDotSegments]. *)
Definition resolveDotSegments (dirs : list string) : list string :=
  resolveDots dirs [].

Definition isDirectoryIndex (res : option string) : bool :=
  match res with
  | Some r => existsb (String.eqb r) directoryIndexes
  | None => false
  end.

(** What follows the last slash of [p], and [p] up to that slash. *)
Fixpoint splitLastSlash (p : string) : option (string * string) :=
  match p with
  | EmptyString => None
  | String c r =>
      match splitLastSlash r with
      | Some (dir, res) => Some (String c dir, res)
      | None =>
          if Ascii.eqb c JS.chr_slash then Some (String c EmptyString, r)
          else None
      end
  end.

(** [parsePath]: the path string, the directories and the resource. *)
Definition parsePath (pn : option string)
    : option string * option (list string) * option string :=
  match pn with
  | None => (None, None, None)
  | Some EmptyString => (pn, None, None)
  | Some p =>
      match splitLastSlash p with
      | Some (dir, res) =>
          if negb (JS.truthy res) then (Some p, Some (splitPath p), None)
          else if (res =? ".") || (res =? "..")
          then (Some (p ++ "/"), Some (splitPath (p ++ "/")), None)
          else (Some dir, Some (splitPath dir), Some res)
      | None =>
          if (p =? ".") || (p =? "..")
          then (Some (p ++ "/"), Some (splitPath (p ++ "/")), None)
          else (None, None, Some p)
      end
  end.

Definition stripColon (p : string) : string :=
  if JS.endsWithChar JS.chr_colon p
  then JS.slice_to (String.length p - 1) p else p.

Definition lookupPort (sch : option string) (ports : list (string * string))
    : option string :=
  match sch with
  | Some s =>
      match find (fun kv => fst kv =? s) ports with
      | Some kv => Some (snd kv)
      | None => None
      end
  | None => None
  end.

(** [parseUrl]: Node's [url.parse] and then the host, port, path and query
    steps of the package. *)
Definition parseUrl (url : string) (opts : Options) : UrlObj :=
  let u := NodeUrl.parse url true in
  let sch := option_map stripColon (NodeUrl.protocol u) in
  let '(ps, pa, res) := parsePath (NodeUrl.pathname u) in
  let '(po, isDefault) :=
    match lookupPort sch (defaultPorts opts) with
    | Some d =>
        let po := match NodeUrl.port u with
                  | Some p => Some p
                  | None => Some d
                  end in
        (po, NodeUrl.optEq po (Some d))
    | None => (NodeUrl.port u, false)
    end in
  let se := NodeUrl.str (NodeUrl.search u) in
  {| scheme := sch;
     auth := NodeUrl.auth u;
     hostFull := NodeUrl.hostname u;
     port := po;
     portIsDefault := isDefault;
     pathString := ps;
     pathArray := pa;
     relativeArray := [];
     resource := res;
     resourceIsIndex := isDirectoryIndex res;
     queryFull := if se =? "?" then "" else se;
     separatorOnlyQuery := se =? "?";
     hash := NodeUrl.hash u |}.

Definition minimumPathOnly (u : UrlObj) : bool :=
  negb (NodeUrl.truthy (scheme u)) && negb (NodeUrl.truthy (auth u))
  && negb (NodeUrl.truthy (hostFull u)) && negb (NodeUrl.truthy (port u)).

Definition minimumResourceOnly (u : UrlObj) : bool :=
  minimumPathOnly u && negb (NodeUrl.truthy (pathString u)).

Definition minimumQueryOnly (u : UrlObj) : bool :=
  minimumResourceOnly u && negb (NodeUrl.truthy (resource u)).

Definition minimumHashOnly (u : UrlObj) : bool :=
  minimumQueryOnly u && negb (JS.truthy (queryFull u)).

Definition isEmpty (u : UrlObj) : bool :=
  minimumHashOnly u && negb (NodeUrl.truthy (hash u)).

(** [parseUrl.from]: the site URL, its dot segments resolved.  A site URL
    without a path array makes the package fail. *)
Definition parseFrom (url : string) (opts : Options) : option UrlObj :=
  if negb (validScheme url) then None
  else
    let u := parseUrl url opts in
    match pathArray u with
    | None => None
    | Some dirs =>
        let dirs := resolveDotSegments dirs in
        Some {| scheme := scheme u; auth := auth u; hostFull := hostFull u;
                port := port u; portIsDefault := portIsDefault u;
                pathString := Some ("/" ++ joinPath dirs);
                pathArray := Some dirs;
                relativeArray := [];
                resource := resource u;
                resourceIsIndex := resourceIsIndex u;
                queryFull := queryFull u;
                separatorOnlyQuery := separatorOnlyQuery u;
                hash := hash u |}
    end.

(** How far a URL agrees with the site URL. *)
Record Relation := {
  minimumScheme : bool;
  minimumAuth : bool;
  minimumHost : bool;
  minimumPort : bool;
  minimumPath : bool;
  minimumResource : bool;
  minimumQuery : bool;
  minimumHash : bool;
  overridesQuery : bool
}.

Definition maximumHost (r : Relation) : bool := negb (minimumPort r).
Definition maximumPath (r : Relation) : bool := negb (minimumResource r).

(** [relatePath]: one [..] for every directory of the site that the URL
    does not share, then the directories of the URL that the site does not
    share. *)
Definition relatePath (absolutePath siteAbsolutePath : list string)
    : list string :=
  let same := NodePath.samePartsLength siteAbsolutePath absolutePath in
  (repeat ".." (List.length siteAbsolutePath - same)
   ++ skipn same absolutePath)%list.

(** [absolutize] and [relativize]: the URL completed from the site URL,
    its path related to the path of the site, and its relation to it. *)
Definition relateUrl (fromU toU : UrlObj) : UrlObj * Relation :=
  let pathOnly := minimumPathOnly toU in
  let minScheme :=
    NodeUrl.optEq (scheme toU) (scheme fromU)
    || negb (NodeUrl.truthy (scheme toU)) in
  let minAuth :=
    minScheme && (NodeUrl.optEq (auth toU) (auth fromU) || pathOnly) in
  let minHost :=
    minAuth && (NodeUrl.optEq (hostFull toU) (hostFull fromU) || pathOnly) in
  let minPort :=
    minHost && (NodeUrl.optEq (port toU) (port fromU) || pathOnly) in
  let fromDirs := match pathArray fromU with Some d => d | None => [] end in
  (* copyPath *)
  let '(ps, pa) :=
    if minScheme then
      if negb minPort || negb (minimumResourceOnly toU) then
        match pathArray toU with
        | Some dirs =>
            let dirs :=
              if pathOnly
                 && negb (JS.startsWith "/" (NodeUrl.str (pathString toU)))
              then (fromDirs ++ dirs)%list else dirs in
            let dirs := resolveDotSegments dirs in
            (Some ("/" ++ joinPath dirs), Some dirs)
        | None => (Some "/", Some [])
        end
      else (pathString fromU, pathArray fromU)
    else (pathString toU, pathArray toU) in
  (* findRelation.pathOn *)
  let minPath := minPort && NodeUrl.optEq ps (pathString fromU) in
  let matchingResource :=
    NodeUrl.optEq (resource toU) (resource fromU)
    || (negb (NodeUrl.truthy (resource toU)) && resourceIsIndex fromU) in
  let minResource :=
    minPath && (matchingResource || minimumQueryOnly toU
                || minimumHashOnly toU || isEmpty toU) in
  let minQuery :=
    (minResource && JS.truthy (queryFull toU)
     && (queryFull toU =? queryFull fromU))
    || ((minimumHashOnly toU || isEmpty toU)
        && negb (separatorOnlyQuery toU)) in
  let minHash := minQuery && NodeUrl.optEq (hash toU) (hash fromU) in
  let rel :=
    {| minimumScheme := minScheme; minimumAuth := minAuth;
       minimumHost := minHost; minimumPort := minPort;
       minimumPath := minPath; minimumResource := minResource;
       minimumQuery := minQuery; minimumHash := minHash;
       overridesQuery :=
         minPath && negb minQuery && JS.truthy (queryFull fromU) |} in
  let dirs := match pa with Some d => d | None => [] end in
  ({| scheme := if minScheme then scheme fromU else scheme toU;
      auth := if minAuth then auth fromU else auth toU;
      hostFull := if minHost then hostFull fromU else hostFull toU;
      port := if minPort then port fromU else port toU;
      portIsDefault :=
        if minPort then portIsDefault fromU else portIsDefault toU;
      pathString := ps;
      pathArray := pa;
      relativeArray := if minScheme then relatePath dirs fromDirs else [];
      resource := if minResource then resource fromU else resource toU;
      resourceIsIndex :=
        if minResource then resourceIsIndex fromU else resourceIsIndex toU;
      queryFull := if minQuery then queryFull fromU else queryFull toU;
      separatorOnlyQuery := separatorOnlyQuery toU;
      hash := if minHash then hash fromU else hash toU |}, rel).

(** [formatUrl]: what of the URL is printed, given its relation to the
    site. *)
Definition formatUrl (u : UrlObj) (r : Relation) (opts : Options) : string :=
  let abs := Output_eqb (output opts) ABSOLUTE in
  let rootRel := Output_eqb (output opts) ROOT_RELATIVE in
  let maxHost := maximumHost r in
  let schemeS :=
    if maxHost || abs
    then if negb (minimumScheme r) || abs
         then NodeUrl.str (scheme u) ++ "://" else "//"
    else "" in
  let authS :=
    if NodeUrl.truthy (auth u) && (maxHost || abs)
    then NodeUrl.str (auth u) ++ "@" else "" in
  let hostS :=
    if NodeUrl.truthy (hostFull u) && (maxHost || abs)
    then NodeUrl.str (hostFull u) else "" in
  let portS :=
    if NodeUrl.truthy (port u) && negb (portIsDefault u) && (maxHost || abs)
    then ":" ++ NodeUrl.str (port u) else "" in
  let showResource :=
    NodeUrl.truthy (resource u)
    && negb (minimumResource r && negb abs && negb rootRel
             && negb (overridesQuery r)) in
  let showQuery := negb (minimumQuery r) || abs || rootRel in
  let absolutePath := NodeUrl.str (pathString u) in
  let relativePath := joinPath (relativeArray u) in
  let pathS :=
    if maxHost || abs || rootRel then absolutePath
    else if ((String.length relativePath <=? String.length absolutePath)%nat
             && Output_eqb (output opts) SHORTEST)
            || Output_eqb (output opts) PATH_RELATIVE
    then
      if relativePath =? "" then
        if maximumPath r && negb showResource then "./"
        else if overridesQuery r && negb showResource
                && negb (showQuery && JS.truthy (queryFull u))
        then "./"
        else ""
      else relativePath
    else absolutePath in
  let pathS :=
    if (pathS =? "/") && negb showResource && removeRootTrailingSlash opts
       && (negb (minimumPort r) || abs)
    then "" else pathS in
  schemeS ++ authS ++ hostS ++ portS ++ pathS
  ++ (if showResource then NodeUrl.str (resource u) else "")
  ++ (if showQuery then queryFull u else "")
  ++ NodeUrl.str (hash u).

(** Modelled from the spec: [RelateUrl.relate(from, to, options)] of
    relateurl, which is not under src/ (the relativization helper of
    section 4.3). *)
Definition relate (from to : string) (opts : Options) : option string :=
  if negb (JS.truthy to) then None
  else if NodeUrl.format (NodeUrl.parse from true) =? "" then None
  else
    match parseFrom from opts with
    | None => None
    | Some fromU =>
        if minimumPathOnly fromU then None
        else if negb (validScheme to) then Some to
        else
          let '(u, r) := relateUrl fromU (parseUrl to opts) in
          Some (formatUrl u r opts)
    end.

End RelateUrl.

(* ------------------------------------------------------------------ *)
(** ** src/paths.ts *)

(** The functions that src/paths.ts imports, as the module sees them. *)
Record Runtime := {
  (** [url.parse] *)
  url_parse : string -> NodeUrl.Url;
  (** [decode] of urlencode; [None] is the exception it raises *)
  decode : string -> option string;
  (** [path.posix.relative] *)
  posix_relative : string -> string -> string;
  (** [path.win32.relative] *)
  win32_relative : string -> string -> string;
  (** [path.relative], [path.resolve] and [path.normalize] of the platform *)
  path_relative : string -> string -> string;
  path_resolve : list string -> string;
  path_normalize : string -> string;
  (** [fileUrl(p, { resolve: false })] *)
  fileUrl : string -> string;
  (** [RelateUrl.relate]; [None] is the exception it raises *)
  RelateUrl_relate : string -> string -> RelateUrl.Options -> option string;
  (** [url.resolve] *)
  url_resolve : string -> string -> string
}.

(** Node on the platform [pf], in the process [pr]. *)
Definition node (pf : NodePath.Platform) (pr : NodePath.Process) : Runtime :=
  {| url_parse := fun s => NodeUrl.parse s false;
     decode := Urlencode.decode;
     posix_relative := NodePath.posix.relative pr;
     win32_relative := NodePath.win32.relative pr;
     path_relative := NodePath.relative pf pr;
     path_resolve := NodePath.resolve pf pr;
     path_normalize := NodePath.normalize pf;
     fileUrl := FileUrl.fileUrl;
     RelateUrl_relate := RelateUrl.relate;
     url_resolve := NodeUrl.resolve |}.

(** The argument [fileUri: string | url.Url]. *)
Inductive FileUri :=
| UriString (s : string)
| UriParsed (u : NodeUrl.Url).

(** The argument [pathMapping]: the entries of the object in the order of
    [Object.keys], each key with the value the object holds for it; the
    keys of an object are distinct.  An absent mapping is [None]. *)
Definition PathMapping := list (string * string).

(** The two variables [serverSourceRoot] and [localSourceRoot], which stay
    undefined until an entry matches. *)
Record SourceRoots := {
  serverSourceRoot : string;
  localSourceRoot : string
}.

Definition RELATE_URL_OPTIONS : RelateUrl.Options :=
  {| RelateUrl.output := RelateUrl.PATH_RELATIVE;
     RelateUrl.removeRootTrailingSlash := false;
     RelateUrl.defaultPorts := [] |}.

Definition relativeUrl (rt : Runtime) (from to : string) : option string :=
  RelateUrl_relate rt from to RELATE_URL_OPTIONS.

(** The test [/^\/[a-zA-Z]:\//] on the server path. *)
Definition serverIsWindowsTest (serverPath : string) : bool :=
  match serverPath with
  | String c1 (String c2 (String c3 (String c4 _))) =>
      Ascii.eqb c1 JS.chr_slash && JS.is_alpha c2
      && Ascii.eqb c3 JS.chr_colon && Ascii.eqb c4 JS.chr_slash
  | _ => false
  end.

(** The loop over [Object.keys(pathMapping)]: [relativeTo root] is the
    relative path from a root to the path that is converted, [side] picks
    the root that is tried (the key or the value of the entry). *)
Fixpoint findSourceRoot (relativeTo : string -> string)
    (side : string * string -> string) (entries : PathMapping)
    : option SourceRoots :=
  match entries with
  | [] => None
  | entry :: rest =>
      if JS.indexOf_ne_0 ".." (relativeTo (side entry))
      then Some {| serverSourceRoot := fst entry;
                   localSourceRoot := snd entry |}
      else findSourceRoot relativeTo side rest
  end.

(** [if (pathMapping) { for ... }]. *)
Definition searchMapping (relativeTo : string -> string)
    (side : string * string -> string) (pathMapping : option PathMapping)
    : option SourceRoots :=
  match pathMapping with
  | Some entries => findSourceRoot relativeTo side entries
  | None => None
  end.

(** [serverSourceRoot && localSourceRoot]: both are defined and neither is
    the empty string. *)
Definition bothRoots (found : option SourceRoots) : option SourceRoots :=
  match found with
  | Some r =>
      if JS.truthy (serverSourceRoot r) && JS.truthy (localSourceRoot r)
      then Some r else None
  | None => None
  end.

(** [fileUri.pathname!] as [decode] reads it: a [null] becomes the string
    of that name. *)
Definition pathnameString (u : NodeUrl.Url) : string :=
  match NodeUrl.pathname u with
  | Some p => p
  | None => "null"
  end.

(** [if (typeof fileUri === 'string') { fileUri = url.parse(fileUri) }]. *)
Definition parsedUri (rt : Runtime) (fileUri : FileUri) : NodeUrl.Url :=
  match fileUri with
  | UriString s => url_parse rt s
  | UriParsed u => u
  end.

(** [convertDebuggerPathToClient(fileUri, pathMapping)]; [None] is the
    exception of [decode]. *)
Definition convertDebuggerPathToClient (rt : Runtime) (fileUri : FileUri)
    (pathMapping : option PathMapping) : option string :=
  let fileUri := parsedUri rt fileUri in
  match decode rt (pathnameString fileUri) with
  | None => None
  | Some serverPath =>
      let serverIsWindows := serverIsWindowsTest serverPath in
      let serverPath := if serverIsWindows then JS.substr1 serverPath
                        else serverPath in
      let relative := if serverIsWindows then win32_relative rt
                      else posix_relative rt in
      let found :=
        searchMapping (fun mappedServerPath => relative mappedServerPath serverPath)
                      fst pathMapping in
      match bothRoots found with
      | Some r =>
          let pathRelativeToSourceRoot :=
            relative (serverSourceRoot r) serverPath in
          Some (path_resolve rt [localSourceRoot r; pathRelativeToSourceRoot])
      | None => Some (path_normalize rt serverPath)
      end
  end.

(** [s.replace(/^[A-Z]:\\/, match => match.toLowerCase())]. *)
Definition lowerDriveLetter (s : string) : string :=
  match s with
  | String c (String c2 (String c3 r)) =>
      if JS.is_upper c && Ascii.eqb c2 JS.chr_colon
         && Ascii.eqb c3 JS.chr_backslash
      then String (JS.lower_char c) (String c2 (String c3 r))
      else s
  | _ => s
  end.

(** [if (!u.endsWith('/')) { u += '/' }]. *)
Definition withTrailingSlash (u : string) : string :=
  if JS.endsWithChar JS.chr_slash u then u else u ++ "/".

(** [convertClientPathToDebugger(localPath, pathMapping)]; [None] is the
    exception of [RelateUrl.relate]. *)
Definition convertClientPathToDebugger (rt : Runtime) (localPath : string)
    (pathMapping : option PathMapping) : option string :=
  let localFileUri := fileUrl rt (lowerDriveLetter localPath) in
  let found :=
    searchMapping (fun mappedLocalSource => path_relative rt mappedLocalSource localPath)
                  snd pathMapping in
  let found :=
    option_map (fun r =>
      {| serverSourceRoot := lowerDriveLetter (serverSourceRoot r);
         localSourceRoot := lowerDriveLetter (localSourceRoot r) |}) found in
  match bothRoots found with
  | Some r =>
      let localSourceRootUrl := withTrailingSlash (fileUrl rt (localSourceRoot r)) in
      let serverSourceRootUrl := withTrailingSlash (fileUrl rt (serverSourceRoot r)) in
      match relativeUrl rt localSourceRootUrl localFileUri with
      | Some urlRelativeToSourceRoot =>
          Some (url_resolve rt serverSourceRootUrl urlRelativeToSourceRoot)
      | None => None
      end
  | None => Some localFileUri
  end.

(** The test [/^file:\/\/\/[a-zA-Z]:\//]. *)
Definition isWindowsUri (path : string) : bool :=
  if JS.startsWith "file:///" path then
    match JS.slice_from 8 path with
    | String c (String c2 (String c3 _)) =>
        JS.is_alpha c && Ascii.eqb c2 JS.chr_colon && Ascii.eqb c3 JS.chr_slash
    | _ => false
    end
  else false.

Definition isSameUri (clientUri debuggerUri : string) : bool :=
  if isWindowsUri clientUri || isWindowsUri debuggerUri
  then JS.toLowerCase debuggerUri =? JS.toLowerCase clientUri
  else debuggerUri =? clientUri.

(* ------------------------------------------------------------------ *)
(** ** The specification's side *)

(** A client on a POSIX system and two clients on Windows, for the
    examples. *)
Definition posixProcess : NodePath.Process :=
  {| NodePath.cwd := "/home/user"; NodePath.driveCwd := fun _ => None |}.

Definition windowsProcess : NodePath.Process :=
  {| NodePath.cwd := "C:\Users\me"; NodePath.driveCwd := fun _ => None |}.

Definition windowsProcessD : NodePath.Process :=
  {| NodePath.cwd := "D:\work"; NodePath.driveCwd := fun _ => None |}.

(** The Windows-file-URI pattern of section 4.4, [^file:\/\/\/[A-Za-z]:\/],
    as a property of a string. *)
Definition WindowsFileUriPattern (s : string) : Prop :=
  exists c rest,
    JS.is_alpha c = true
    /\ s = "file:///" ++ String c (String ":" (String "/" rest)).

(** "The first key whose relative path does not start with [..]", in the
    given order. *)
Definition firstMatchingEntry (relativeTo : string -> string)
    (side : string * string -> string) (entries : PathMapping)
    : option (string * string) :=
  find (fun e => negb (JS.startsWith ".." (relativeTo (side e)))) entries.

Definition rootsOf (e : string * string) : SourceRoots :=
  {| serverSourceRoot := fst e; localSourceRoot := snd e |}.

(** The server path that is matched against the mapping: the decoded path
    without its leading slash when it names a Windows drive. *)
Definition serverPathOf (decoded : string) : string :=
  if serverIsWindowsTest decoded then JS.substr1 decoded else decoded.

(** The path algebra of the server: Windows rules when the decoded path
    names a Windows drive, POSIX rules otherwise. *)
Definition serverRelative (rt : Runtime) (decoded : string)
    : string -> string -> string :=
  if serverIsWindowsTest decoded then win32_relative rt else posix_relative rt.

(** ServerToClient as section 4.1 words it, given the decoded path: the
    first entry, in the given order, whose key is not left by a relative
    path that starts with [..] is the root, if neither its key nor its
    value is empty. *)
Definition serverToClientByFirstMatch (rt : Runtime) (decoded : string)
    (entries : PathMapping) : string :=
  let serverPath := serverPathOf decoded in
  let relative := serverRelative rt decoded in
  match firstMatchingEntry (fun k => relative k serverPath) fst entries with
  | Some (k, v) =>
      if JS.truthy k && JS.truthy v
      then path_resolve rt [v; relative k serverPath]
      else path_normalize rt serverPath
  | None => path_normalize rt serverPath
  end.

(** ClientToServer as section 4.2 words it: the first entry, in the given
    order, whose value is not left by a relative path that starts with
    [..] is the root, if neither its key nor its value is empty; the drive
    letters of the path and of the two roots are put in lower case before
    their URIs are built. *)
Definition clientToServerByFirstMatch (rt : Runtime) (localPath : string)
    (entries : PathMapping) : option string :=
  let localFileUri := fileUrl rt (lowerDriveLetter localPath) in
  match firstMatchingEntry (fun v => path_relative rt v localPath) snd entries with
  | Some (k, v) =>
      if JS.truthy k && JS.truthy v
      then option_map
             (url_resolve rt (withTrailingSlash (fileUrl rt (lowerDriveLetter k))))
             (relativeUrl rt (withTrailingSlash (fileUrl rt (lowerDriveLetter v)))
                          localFileUri)
      else Some localFileUri
  | None => Some localFileUri
  end.

Fixpoint isPrefixOf (a b : list string) : bool :=
  match a, b with
  | [], _ => true
  | x :: a', y :: b' => (x =? y) && isPrefixOf a' b'
  | _ :: _, [] => false
  end.

(** The directories and the file that an absolute POSIX path names, from
    the root down. *)
Definition posixSegments (p : string) : list string :=
  NodePath.normalizeArray (JS.split NodePath.isPosixSep p) false.

(** "[path] is at or below [root] in the directory tree" (section 4.1,
    step 4), for absolute POSIX paths. *)
Definition posixAtOrBelow (root path : string) : bool :=
  isPrefixOf (posixSegments root) (posixSegments path).


(** The characters of a plain path segment: the unreserved characters of a
    URI and the percent sign of an escape. *)
Definition isPlainChar (c : ascii) : bool :=
  JS.is_alpha c || JS.is_digit c || JS.mem_char c "-_.~%".

(** A plain segment: not empty, neither [.] nor [..], plain characters. *)
Definition isPlainSegment (s : string) : bool :=
  JS.truthy s && negb (s =? ".") && negb (s =? "..")
  && NodeUrl.forallb_str isPlainChar s.

(** What comes after the last slash of a URI: nothing (the URI names a
    directory) or a plain segment. *)
Definition isPlainResource (s : string) : bool :=
  negb (JS.truthy s) || isPlainSegment s.

(** The directories [dirs] as a path: every directory with the slash that
    follows it. *)
Fixpoint dirsString (dirs : list string) : string :=
  match dirs with
  | [] => EmptyString
  | d :: rest => d ++ "/" ++ dirsString rest
  end.

(** The file URI, with an empty authority, of the directories [dirs] and
    the resource [res]. *)
Definition fileUriOf (dirs : list string) (res : string) : string :=
  "file:///" ++ dirsString dirs ++ res.

(** A character of a plain path: a plain character or a slash. *)
Definition isPathChar (c : ascii) : bool :=
  isPlainChar c || Ascii.eqb c JS.chr_slash.

(** A character that [url.parse] does not trim, and one that it does not
    turn into a slash. *)
Definition notWs (c : ascii) : bool := negb (NodeUrl.isWs c).

Definition notBackslash (c : ascii) : bool :=
  negb (Ascii.eqb c JS.chr_backslash).

(** The URL of a plain path behind [file://]. *)
Definition fileUrlRecord (p : string) : NodeUrl.Url :=
  {| NodeUrl.protocol := Some "file:"; NodeUrl.slashes := true;
     NodeUrl.auth := None; NodeUrl.host := Some ""; NodeUrl.port := None;
     NodeUrl.hostname := Some ""; NodeUrl.hash := None;
     NodeUrl.search := None; NodeUrl.pathname := Some ("/" ++ p) |}.

(** A reference that is only a path. *)
Definition pathOnlyRecord (r : string) : NodeUrl.Url :=
  {| NodeUrl.protocol := None; NodeUrl.slashes := false;
     NodeUrl.auth := None; NodeUrl.host := None; NodeUrl.port := None;
     NodeUrl.hostname := None; NodeUrl.hash := None;
     NodeUrl.search := None; NodeUrl.pathname := NodeUrl.nonEmpty r |}.

(** The segments the related paths are made of: plain segments and [..]. *)
Definition isRefSegment (s : string) : bool :=
  isPlainSegment s || (s =? "..").

(** What relateurl reads in the file URI of plain directories and a plain
    resource. *)
Definition fileUrlObj (dirs : list string) (res : string) : RelateUrl.UrlObj :=
  {| RelateUrl.scheme := Some "file";
     RelateUrl.auth := None;
     RelateUrl.hostFull := Some "";
     RelateUrl.port := None;
     RelateUrl.portIsDefault := false;
     RelateUrl.pathString := Some ("/" ++ dirsString dirs);
     RelateUrl.pathArray := Some dirs;
     RelateUrl.relativeArray := [];
     RelateUrl.resource := NodeUrl.nonEmpty res;
     RelateUrl.resourceIsIndex :=
       RelateUrl.isDirectoryIndex (NodeUrl.nonEmpty res);
     RelateUrl.queryFull := "";
     RelateUrl.separatorOnlyQuery := false;
     RelateUrl.hash := None |}.

(** The segments of the plain POSIX path of the directories [dirs] and the
    resource [res]. *)
Definition segmentsOf (dirs : list string) (res : string) : list string :=
  (dirs ++ (if JS.truthy res then [res] else []))%list.

(** The absolute POSIX path of the directories [dirs] and the resource
    [res]: [/d1/.../dn/res]. *)
Definition posixPathOf (dirs : list string) (res : string) : string :=
  "/" ++ dirsString dirs ++ res.

(** Whether the first of the segments [below] starts with two dots. *)
Definition firstStartsWithDots (below : list string) : bool :=
  match below with
  | x :: _ => JS.startsWith ".." x
  | [] => false
  end.

(** A part of a path that [url.resolve] keeps as it is. *)
Definition notDot (s : string) : bool :=
  negb (s =? ".") && negb (s =? "..").

(** The path that [fileUrl] puts behind [file://]: slashes for
    backslashes, and a slash in front if there is none. *)
Definition fileUrlPath (filePath : string) : string :=
  let pathName := JS.replace_char JS.chr_backslash JS.chr_slash filePath in
  if JS.startsWith "/" pathName then pathName else "/" ++ pathName.

(** A character of ASCII. *)
Definition isAscii (c : ascii) : bool := (nat_of_ascii c <? 128)%nat.

(** A character of ASCII that does not end the path of a URI. *)
Definition isAsciiPathChar (c : ascii) : bool :=
  isAscii c && negb (NodeUrl.isSplit c).

(** The characters of a file name that [encodeURI] and [decode] leave as
    they are. *)
Definition isNameChar (c : ascii) : bool :=
  JS.is_alpha c || JS.is_digit c || JS.mem_char c "-_.~".

(** A name: not empty, neither [.] nor [..], name characters. *)
Definition isNameSegment (s : string) : bool :=
  JS.truthy s && negb (s =? ".") && negb (s =? "..")
  && NodeUrl.forallb_str isNameChar s.

(** Nothing or a name. *)
Definition isNameResource (s : string) : bool :=
  negb (JS.truthy s) || isNameSegment s.

(** No selected entry: every relative path starts with [..]. *)
Definition noneSelected (relativeTo : string -> string)
    (side : string * string -> string) (entries : PathMapping) : bool :=
  forallb (fun e => JS.startsWith ".." (relativeTo (side e))) entries.

(** A character of a path made of names. *)
Definition isNamePathChar (c : ascii) : bool :=
  isNameChar c || Ascii.eqb c JS.chr_slash.

(** A Windows path on a drive: the drive letter, a colon, and the names
    behind and between separators [sep]. *)
Definition drivePath (sep drive : ascii) (segs : list string) : string :=
  String drive (String ":" (String sep (JS.join (String sep "") segs))).

(** A character of such a path written with slashes. *)
Definition isDrivePathChar (c : ascii) : bool :=
  isNameChar c || Ascii.eqb c JS.chr_slash || Ascii.eqb c JS.chr_colon.





(* ------------------------------------------------------------------ *)
(** ** Properties of the string primitives *)

Lemma startsWith_cons (a b : ascii) (p s : string) :
  JS.startsWith (String a p) (String b s) = Ascii.eqb a b && JS.startsWith p s.
Proof. reflexivity. Qed.

Lemma startsWith_prefix (p s : string) :
  JS.startsWith p s = String.prefix p s.
Proof.
  revert s. induction p as [|a p IH]; intros [|b s]; try reflexivity.
  rewrite startsWith_cons, IH. simpl.
  destruct (Ascii.ascii_dec a b) as [->|Hne].
  - rewrite Ascii.eqb_refl. reflexivity.
  - apply Ascii.eqb_neq in Hne. rewrite Hne. reflexivity.
Qed.

Lemma indexOf_ne_0_startsWith (p s : string) :
  JS.indexOf_ne_0 p s = negb (JS.startsWith p s).
Proof.
  rewrite startsWith_prefix.
  unfold JS.indexOf_ne_0, JS.indexOf.
  destruct s as [|c s]; simpl.
  - destruct p; reflexivity.
  - destruct p as [|a p]; [reflexivity|].
    destruct (Ascii.ascii_dec a c) as [->|Hne].
    + destruct (String.prefix p s); simpl; [reflexivity|].
      destruct (String.index 0 (String c p) s); reflexivity.
    + destruct (String.index 0 (String a p) s); reflexivity.
Qed.

Lemma truthy_lowerDriveLetter (s : string) :
  JS.truthy (lowerDriveLetter s) = JS.truthy s.
Proof.
  unfold lowerDriveLetter.
  destruct s as [|c [|c2 [|c3 r]]]; try reflexivity.
  destruct (JS.is_upper c && Ascii.eqb c2 JS.chr_colon
            && Ascii.eqb c3 JS.chr_backslash); reflexivity.
Qed.

(** The loop over the entries is a search for the first entry, in the
    order of the list, whose relative path does not start with [..]. *)
Lemma findSourceRoot_first (relativeTo : string -> string)
    (side : string * string -> string) (entries : PathMapping) :
  findSourceRoot relativeTo side entries
  = option_map rootsOf (firstMatchingEntry relativeTo side entries).
Proof.
  unfold firstMatchingEntry.
  induction entries as [|e rest IH]; [reflexivity|].
  cbn [findSourceRoot find].
  rewrite indexOf_ne_0_startsWith.
  destruct (negb (JS.startsWith ".." (relativeTo (side e)))); [reflexivity|].
  exact IH.
Qed.

(** The entries behind the one that is selected are never looked at. *)
Lemma findSourceRoot_stops (relativeTo : string -> string)
    (side : string * string -> string) (before after after' : PathMapping)
    (e : string * string) :
  JS.startsWith ".." (relativeTo (side e)) = false ->
  findSourceRoot relativeTo side (before ++ e :: after)%list
  = findSourceRoot relativeTo side (before ++ e :: after')%list.
Proof.
  intros He.
  induction before as [|b before IH]; cbn [app findSourceRoot].
  - rewrite indexOf_ne_0_startsWith, He. reflexivity.
  - destruct (JS.indexOf_ne_0 ".." (relativeTo (side b))); [reflexivity|].
    exact IH.
Qed.

Lemma convertDebuggerPathToClient_first (rt : Runtime) (fileUri : FileUri)
    (entries : PathMapping) :
  convertDebuggerPathToClient rt fileUri (Some entries)
  = option_map (fun decoded => serverToClientByFirstMatch rt decoded entries)
               (decode rt (pathnameString (parsedUri rt fileUri))).
Proof.
  unfold convertDebuggerPathToClient, serverToClientByFirstMatch,
    serverPathOf, serverRelative, searchMapping.
  destruct (decode rt (pathnameString (parsedUri rt fileUri))) as [decoded|];
    [simpl|reflexivity].
  rewrite findSourceRoot_first.
  destruct (firstMatchingEntry _ fst entries) as [[k v]|]; simpl; [|reflexivity].
  destruct (JS.truthy k && JS.truthy v); reflexivity.
Qed.

Lemma convertClientPathToDebugger_first (rt : Runtime) (localPath : string)
    (entries : PathMapping) :
  convertClientPathToDebugger rt localPath (Some entries)
  = clientToServerByFirstMatch rt localPath entries.
Proof.
  unfold convertClientPathToDebugger, clientToServerByFirstMatch, searchMapping.
  rewrite findSourceRoot_first.
  destruct (firstMatchingEntry _ snd entries) as [[k v]|]; simpl; [|reflexivity].
  rewrite !truthy_lowerDriveLetter.
  destruct (JS.truthy k && JS.truthy v); [|reflexivity].
  destruct (relativeUrl rt _ _); reflexivity.
Qed.

(* ------------------------------------------------------------------ *)
(** ** Round trips through a mapped root *)

(** C1.  With the mapping [{"/var/www": "/home/user/project"}], on a POSIX
    client in any working directory, [convertDebuggerPathToClient] turns
    the server URI [file:///var/www/src/a.php] into the client path
    [/home/user/project/src/a.php]. *)
Theorem C1_server_to_client_through_mapped_root (pr : NodePath.Process) :
  convertDebuggerPathToClient (node NodePath.Posix pr)
    (UriString "file:///var/www/src/a.php")
    (Some [("/var/www", "/home/user/project")])
  = Some "/home/user/project/src/a.php".
Proof. vm_compute. reflexivity. Qed.

(** The same conversion on a Windows client resolves the local root
    against the current drive. *)
Lemma server_to_client_through_mapped_root_on_windows :
  convertDebuggerPathToClient (node NodePath.Win32 windowsProcess)
    (UriString "file:///var/www/src/a.php")
    (Some [("/var/www", "/home/user/project")])
  = Some "C:\home\user\project\src\a.php".
Proof. vm_compute. reflexivity. Qed.

(** C2.  With the mapping [{"/var/www": "/home/user/project"}], on a POSIX
    client in any working directory, [convertClientPathToDebugger] turns
    the local path [/home/user/project/src/a.php] into exactly the server
    URI [file:///var/www/src/a.php]. *)
Theorem C2_client_to_server_through_mapped_root (pr : NodePath.Process) :
  convertClientPathToDebugger (node NodePath.Posix pr)
    "/home/user/project/src/a.php"
    (Some [("/var/www", "/home/user/project")])
  = Some "file:///var/www/src/a.php".
Proof. vm_compute. reflexivity. Qed.

(* ------------------------------------------------------------------ *)
(** ** Equality of URIs *)

Lemma isWindowsUri_pattern (s : string) :
  isWindowsUri s = true <-> WindowsFileUriPattern s.
Proof.
  unfold isWindowsUri, WindowsFileUriPattern.
  split.
  - destruct (JS.startsWith "file:///" s) eqn:Hp; [|discriminate].
    rewrite startsWith_prefix in Hp.
    apply String.prefix_correct in Hp.
    simpl in Hp.
    destruct s as [|a1 [|a2 [|a3 [|a4 [|a5 [|a6 [|a7 [|a8 t]]]]]]]];
      try discriminate.
    injection Hp as -> -> -> -> -> -> -> ->.
    simpl.
    destruct t as [|c [|c2 [|c3 rest]]]; try discriminate.
    intros Hm.
    apply andb_true_iff in Hm as [H12 H3].
    apply andb_true_iff in H12 as [H1 H2].
    apply Ascii.eqb_eq in H2, H3. subst c2 c3.
    exists c, rest. split; [exact H1|reflexivity].
  - intros (c & rest & Hc & ->).
    change (JS.startsWith "file:///" ("file:///" ++ String c (String ":" (String "/" rest))))
      with true.
    simpl. rewrite Hc. reflexivity.
Qed.

(** C3.  [isSameUri] compares the two strings in lower case when at least
    one of them matches the Windows-file-URI pattern, and compares them as
    they are otherwise; [file:///C:/Foo/Bar.php] and
    [file:///c:/foo/bar.php] are the same URI, [file:///home/Foo.php] and
    [file:///home/foo.php] are not. *)
Theorem C3_isSameUri_case_rule :
  (forall clientUri debuggerUri : string,
      (WindowsFileUriPattern clientUri \/ WindowsFileUriPattern debuggerUri ->
       isSameUri clientUri debuggerUri
       = (JS.toLowerCase debuggerUri =? JS.toLowerCase clientUri))
      /\ (~ (WindowsFileUriPattern clientUri \/ WindowsFileUriPattern debuggerUri) ->
          isSameUri clientUri debuggerUri = (debuggerUri =? clientUri)))
  /\ isSameUri "file:///C:/Foo/Bar.php" "file:///c:/foo/bar.php" = true
  /\ isSameUri "file:///home/Foo.php" "file:///home/foo.php" = false.
Proof.
  split; [|split; reflexivity].
  intros a b. unfold isSameUri. split.
  - intros [H|H]; apply isWindowsUri_pattern in H; rewrite H.
    + reflexivity.
    + rewrite orb_true_r. reflexivity.
  - intros H.
    destruct (isWindowsUri a) eqn:Ha.
    + exfalso. apply H. left. apply isWindowsUri_pattern. exact Ha.
    + destruct (isWindowsUri b) eqn:Hb; [|reflexivity].
      exfalso. apply H. right. apply isWindowsUri_pattern. exact Hb.
Qed.

Lemma C3_witness :
  (WindowsFileUriPattern "file:///C:/Foo/Bar.php"
   \/ WindowsFileUriPattern "file:///c:/foo/bar.php")
  /\ isSameUri "file:///C:/Foo/Bar.php" "file:///c:/foo/bar.php"
     = (JS.toLowerCase "file:///c:/foo/bar.php"
        =? JS.toLowerCase "file:///C:/Foo/Bar.php").
Proof.
  assert (H : WindowsFileUriPattern "file:///C:/Foo/Bar.php"
              \/ WindowsFileUriPattern "file:///c:/foo/bar.php").
  { left. exists "C"%char, "Foo/Bar.php". split; reflexivity. }
  split; [exact H|].
  exact (proj1 (proj1 C3_isSameUri_case_rule
                  "file:///C:/Foo/Bar.php" "file:///c:/foo/bar.php") H).
Defined.

(* ------------------------------------------------------------------ *)
(** ** The order of the mapping *)

(** C4.  Both conversions go through the entries in the order given and
    take the first whose relative path does not start with [..]; what
    comes behind that entry is not looked at.  With the keys
    [/var/www/sub] and [/var/www] in this order, [/var/www/sub/x.php] is
    mapped through the first entry; in the other order it is mapped
    through [/var/www], as nothing is sorted. *)
Theorem C4_first_match_wins :
  (forall rt fileUri entries,
      convertDebuggerPathToClient rt fileUri (Some entries)
      = option_map (fun decoded => serverToClientByFirstMatch rt decoded entries)
                   (decode rt (pathnameString (parsedUri rt fileUri))))
  /\ (forall rt localPath entries,
         convertClientPathToDebugger rt localPath (Some entries)
         = clientToServerByFirstMatch rt localPath entries)
  /\ (forall relativeTo side before e after after',
         JS.startsWith ".." (relativeTo (side e)) = false ->
         findSourceRoot relativeTo side (before ++ e :: after)%list
         = findSourceRoot relativeTo side (before ++ e :: after')%list)
  /\ (forall pr,
         convertDebuggerPathToClient (node NodePath.Posix pr)
           (UriString "file:///var/www/sub/x.php")
           (Some [("/var/www/sub", "/local/sub"); ("/var/www", "/local/www")])
         = Some "/local/sub/x.php")
  /\ (forall pr,
         convertDebuggerPathToClient (node NodePath.Posix pr)
           (UriString "file:///var/www/sub/x.php")
           (Some [("/var/www", "/local/www"); ("/var/www/sub", "/local/sub")])
         = Some "/local/www/sub/x.php")
  /\ (forall pr,
         convertClientPathToDebugger (node NodePath.Posix pr)
           "/local/www/sub/x.php"
           (Some [("/var/sub", "/local/www/sub"); ("/var/www", "/local/www")])
         = Some "file:///var/sub/x.php").
Proof.
  split; [exact convertDebuggerPathToClient_first|].
  split; [exact convertClientPathToDebugger_first|].
  split; [intros; apply findSourceRoot_stops; assumption|].
  repeat split; intros pr; vm_compute; reflexivity.
Qed.

Lemma C4_witness :
  JS.startsWith ".."
    (NodePath.posix.relative posixProcess "/var/www/sub" "/var/www/sub/x.php")
  = false
  /\ findSourceRoot
       (fun k => NodePath.posix.relative posixProcess k "/var/www/sub/x.php")
       fst [("/var/www/sub", "/local/sub"); ("/var/www", "/local/www")]
     = findSourceRoot
         (fun k => NodePath.posix.relative posixProcess k "/var/www/sub/x.php")
         fst [("/var/www/sub", "/local/sub")].
Proof.
  split; [reflexivity|].
  exact (proj1 (proj2 (proj2 C4_first_match_wins))
           (fun k => NodePath.posix.relative posixProcess k "/var/www/sub/x.php")
           fst [] ("/var/www/sub", "/local/sub")
           [("/var/www", "/local/www")] [] eq_refl).
Defined.

(* ------------------------------------------------------------------ *)
(** ** A path that is a mapped root *)

(** From the server to the client, the mapped server root itself becomes
    the client root. *)
Lemma server_root_maps_to_client_root (pr : NodePath.Process) :
  convertDebuggerPathToClient (node NodePath.Posix pr)
    (UriString "file:///var/www")
    (Some [("/var/www", "/home/user/project")])
  = Some "/home/user/project".
Proof. vm_compute. reflexivity. Qed.

(** From the client to the server, a local root that is written with its
    trailing slash becomes the server root. *)
Lemma client_root_with_slash_maps_to_server_root (pr : NodePath.Process) :
  convertClientPathToDebugger (node NodePath.Posix pr)
    "/home/user/project/"
    (Some [("/var/www", "/home/user/project")])
  = Some "file:///var/www/".
Proof. vm_compute. reflexivity. Qed.

(** C5.  What the code does when [localPath] is the mapped local root
    [/home/user/project] itself: the URI of the path has no trailing
    slash, the URI of the root gets one, the relative reference between
    them is [../project], and the result is [file:///var/project], a
    sibling of the server root [file:///var/www/]. *)
Theorem C5_client_root_leaves_server_root (pr : NodePath.Process) :
  relativeUrl (node NodePath.Posix pr)
    "file:///home/user/project/" "file:///home/user/project"
  = Some "../project"
  /\ convertClientPathToDebugger (node NodePath.Posix pr)
       "/home/user/project"
       (Some [("/var/www", "/home/user/project")])
     = Some "file:///var/project".
Proof. split; vm_compute; reflexivity. Qed.

(* ------------------------------------------------------------------ *)
(** ** The test that selects a root *)

(** C6.  A server path below the root whose first name under the root
    starts with two dots: [/var/www/..cache/a.php] lies below [/var/www],
    its relative path [..cache/a.php] starts with [..], the entry is not
    selected and the path is returned unmapped. *)
Theorem C6_name_with_two_dots_is_not_selected (pr : NodePath.Process) :
  posixAtOrBelow "/var/www" "/var/www/..cache/a.php" = true
  /\ NodePath.posix.relative pr "/var/www" "/var/www/..cache/a.php"
     = "..cache/a.php"
  /\ JS.indexOf_ne_0 ".."
       (NodePath.posix.relative pr "/var/www" "/var/www/..cache/a.php")
     = false
  /\ convertDebuggerPathToClient (node NodePath.Posix pr)
       (UriString "file:///var/www/..cache/a.php")
       (Some [("/var/www", "/home/user/project")])
     = Some "/var/www/..cache/a.php".
Proof. repeat split; vm_compute; reflexivity. Qed.

(** A server path on another drive than the root: the relative path is
    the absolute path of the server file, it does not start with [..],
    and the entry is selected although the file is not below the root. *)
Lemma other_drive_is_selected (pr : NodePath.Process) :
  NodePath.win32.relative pr "D:\site" "C:/inetpub/x.php" = "C:\inetpub\x.php"
  /\ convertDebuggerPathToClient (node NodePath.Win32 pr)
       (UriString "file:///C:/inetpub/x.php")
       (Some [("D:\site", "E:\local")])
     = Some "C:\inetpub\x.php".
Proof. split; vm_compute; reflexivity. Qed.

(* ------------------------------------------------------------------ *)
(** ** Windows drives *)

(** C7, as the specification states it: with the key [/C:/inetpub] the
    file is not mapped below [C:\wamp\www].  On a Windows client the key
    is resolved against the current drive ([C:\C:\inetpub]), and the
    result is the server path itself, whatever the current drive; on a
    POSIX client the key matches, and the local root is resolved against
    the working directory. *)
Lemma C7_key_with_leading_slash_counterexample :
  convertDebuggerPathToClient (node NodePath.Win32 windowsProcess)
    (UriString "file:///C:/inetpub/site/index.php")
    (Some [("/C:/inetpub", "C:\wamp\www")])
  = Some "C:\inetpub\site\index.php"
  /\ convertDebuggerPathToClient (node NodePath.Win32 windowsProcessD)
       (UriString "file:///C:/inetpub/site/index.php")
       (Some [("/C:/inetpub", "C:\wamp\www")])
     = Some "C:\inetpub\site\index.php"
  /\ JS.startsWith "C:\wamp\www" "C:\inetpub\site\index.php" = false
  /\ convertDebuggerPathToClient (node NodePath.Posix posixProcess)
       (UriString "file:///C:/inetpub/site/index.php")
       (Some [("/C:/inetpub", "C:\wamp\www")])
     = Some "/home/user/C:\wamp\www/site\index.php".
Proof. repeat split; vm_compute; reflexivity. Qed.

(** C7, amended.  With the key written as the Windows path [C:/inetpub]
    (no leading slash), a Windows client in any working directory maps
    [file:///C:/inetpub/site/index.php] to [C:\wamp\www\site\index.php];
    the match does not depend on the case of the drive letter or of the
    directories; and whenever the decoded server path matches the
    drive-letter pattern, the path without its leading slash is matched
    with [path.win32.relative]. *)
Theorem C7_windows_drive_mapping :
  (forall pr,
      convertDebuggerPathToClient (node NodePath.Win32 pr)
        (UriString "file:///C:/inetpub/site/index.php")
        (Some [("C:/inetpub", "C:\wamp\www")])
      = Some "C:\wamp\www\site\index.php")
  /\ (forall pr,
         convertDebuggerPathToClient (node NodePath.Win32 pr)
           (UriString "file:///c:/INETPUB/site/index.php")
           (Some [("C:\inetpub", "C:\wamp\www")])
         = Some "C:\wamp\www\site\index.php")
  /\ (forall rt fileUri entries decoded,
         decode rt (pathnameString (parsedUri rt fileUri)) = Some decoded ->
         serverIsWindowsTest decoded = true ->
         convertDebuggerPathToClient rt fileUri (Some entries)
         = Some
             match firstMatchingEntry
                     (fun k => win32_relative rt k (JS.substr1 decoded))
                     fst entries with
             | Some (k, v) =>
                 if JS.truthy k && JS.truthy v
                 then path_resolve rt
                        [v; win32_relative rt k (JS.substr1 decoded)]
                 else path_normalize rt (JS.substr1 decoded)
             | None => path_normalize rt (JS.substr1 decoded)
             end).
Proof.
  split; [intros pr; vm_compute; reflexivity|].
  split; [intros pr; vm_compute; reflexivity|].
  intros rt fileUri entries decoded Hd Hw.
  rewrite convertDebuggerPathToClient_first, Hd. simpl.
  unfold serverToClientByFirstMatch, serverPathOf, serverRelative.
  rewrite Hw. reflexivity.
Qed.

Lemma C7_witness :
  (decode (node NodePath.Win32 windowsProcess)
     (pathnameString
        (parsedUri (node NodePath.Win32 windowsProcess)
           (UriString "file:///C:/inetpub/site/index.php")))
   = Some "/C:/inetpub/site/index.php"
   /\ serverIsWindowsTest "/C:/inetpub/site/index.php" = true)
  /\ convertDebuggerPathToClient (node NodePath.Win32 windowsProcess)
       (UriString "file:///C:/inetpub/site/index.php")
       (Some [("C:/inetpub", "C:\wamp\www")])
     = Some "C:\wamp\www\site\index.php".
Proof.
  split; [split; reflexivity|].
  exact (proj2 (proj2 C7_windows_drive_mapping)
           (node NodePath.Win32 windowsProcess)
           (UriString "file:///C:/inetpub/site/index.php")
           [("C:/inetpub", "C:\wamp\www")]
           "/C:/inetpub/site/index.php" eq_refl eq_refl).
Defined.

(* ------------------------------------------------------------------ *)
(** ** Drive letters in lower case *)

Lemma lowerDriveLetter_upper (c : ascii) (rest : string) :
  JS.is_upper c = true ->
  lowerDriveLetter (String c (String ":" (String "\" rest)))
  = String (JS.lower_char c) (String ":" (String "\" rest)).
Proof. intros Hc. simpl. rewrite Hc. reflexivity. Qed.

(** C8.  [convertClientPathToDebugger] puts the drive letter of a prefix
    [X:\] in lower case before it builds a URI: on [localPath], so that
    [C:\Users\me\index.php] without a mapping gives
    [file:///c:/Users/me/index.php]; and, when an entry matches, on the
    local root and on the server root of that entry. *)
Theorem C8_drive_letters_in_lower_case :
  (forall c rest,
      JS.is_upper c = true ->
      lowerDriveLetter (String c (String ":" (String "\" rest)))
      = String (JS.lower_char c) (String ":" (String "\" rest)))
  /\ (forall rt localPath,
         convertClientPathToDebugger rt localPath None
         = Some (fileUrl rt (lowerDriveLetter localPath)))
  /\ (forall pf pr,
         convertClientPathToDebugger (node pf pr) "C:\Users\me\index.php" None
         = Some "file:///c:/Users/me/index.php")
  /\ (forall rt localPath entries k v,
         firstMatchingEntry (fun v => path_relative rt v localPath) snd entries
         = Some (k, v) ->
         JS.truthy k && JS.truthy v = true ->
         convertClientPathToDebugger rt localPath (Some entries)
         = option_map
             (url_resolve rt
                (withTrailingSlash (fileUrl rt (lowerDriveLetter k))))
             (relativeUrl rt
                (withTrailingSlash (fileUrl rt (lowerDriveLetter v)))
                (fileUrl rt (lowerDriveLetter localPath))))
  /\ (forall pr,
         convertClientPathToDebugger (node NodePath.Win32 pr)
           "C:\Users\me\site\index.php"
           (Some [("C:\inetpub", "C:\Users\me")])
         = Some "file:///c:/inetpub/site/index.php").
Proof.
  split; [exact lowerDriveLetter_upper|].
  split; [reflexivity|].
  split; [intros pf pr; vm_compute; reflexivity|].
  split; [|intros pr; vm_compute; reflexivity].
  intros rt localPath entries k v Hfirst Htruthy.
  rewrite convertClientPathToDebugger_first.
  unfold clientToServerByFirstMatch.
  rewrite Hfirst, Htruthy. reflexivity.
Qed.

Lemma C8_witness :
  (JS.is_upper "C" = true
   /\ firstMatchingEntry
        (fun v => path_relative (node NodePath.Win32 windowsProcess) v
                    "C:\Users\me\site\index.php")
        snd [("C:\inetpub", "C:\Users\me")]
      = Some ("C:\inetpub", "C:\Users\me")
   /\ JS.truthy "C:\inetpub" && JS.truthy "C:\Users\me" = true)
  /\ lowerDriveLetter "C:\Users\me\index.php" = "c:\Users\me\index.php"
  /\ convertClientPathToDebugger (node NodePath.Win32 windowsProcess)
       "C:\Users\me\site\index.php"
       (Some [("C:\inetpub", "C:\Users\me")])
     = Some "file:///c:/inetpub/site/index.php".
Proof.
  split; [repeat split; reflexivity|].
  split.
  - exact (proj1 C8_drive_letters_in_lower_case
             "C"%char "Users\me\index.php" eq_refl).
  - exact (proj1 (proj2 (proj2 (proj2 C8_drive_letters_in_lower_case)))
             (node NodePath.Win32 windowsProcess)
             "C:\Users\me\site\index.php"
             [("C:\inetpub", "C:\Users\me")]
             "C:\inetpub" "C:\Users\me" eq_refl eq_refl).
Defined.

(* ------------------------------------------------------------------ *)
(** ** The relativization helper *)

(** ** Plain characters and plain paths *)

Lemma isPathChar_facts (c : ascii) :
  isPathChar c = true ->
  NodeUrl.isWs c = false
  /\ Ascii.eqb c JS.chr_backslash = false
  /\ NodeUrl.isSplit c = false
  /\ Ascii.eqb c JS.chr_colon = false
  /\ NodeUrl.isAutoEscape c = false
  /\ NodeUrl.notHash c = true
  /\ NodeUrl.notQuestion c = true
  /\ Ascii.eqb c "#"%char = false
  /\ Ascii.eqb c "?"%char = false.
Proof.
  destruct c as [[] [] [] [] [] [] [] []]; vm_compute; intros H;
    try discriminate H; repeat split.
Qed.

Lemma isPlainChar_not_slash (c : ascii) :
  isPlainChar c = true -> NodePath.isPosixSep c = false.
Proof.
  destruct c as [[] [] [] [] [] [] [] []]; vm_compute; intros H;
    try discriminate H; reflexivity.
Qed.

Lemma isPlainChar_isPathChar (c : ascii) :
  isPlainChar c = true -> isPathChar c = true.
Proof. intros H. unfold isPathChar. rewrite H. reflexivity. Qed.

Lemma forallb_str_app (f : ascii -> bool) (a b : string) :
  NodeUrl.forallb_str f (a ++ b)
  = NodeUrl.forallb_str f a && NodeUrl.forallb_str f b.
Proof.
  induction a as [|c a IH]; simpl; [reflexivity|].
  rewrite IH, andb_assoc. reflexivity.
Qed.

Lemma forallb_str_impl (f g : ascii -> bool) (s : string) :
  (forall c, f c = true -> g c = true) ->
  NodeUrl.forallb_str f s = true -> NodeUrl.forallb_str g s = true.
Proof.
  intros Hfg. induction s as [|c s IH]; simpl; [reflexivity|].
  intros H. apply andb_true_iff in H as [Hc Hs].
  rewrite (Hfg c Hc), (IH Hs). reflexivity.
Qed.

Lemma append_nil_r (s : string) : s ++ "" = s.
Proof. induction s as [|c s IH]; simpl; [reflexivity|]. rewrite IH. reflexivity. Qed.

Lemma append_assoc (a b c : string) : (a ++ b) ++ c = a ++ (b ++ c).
Proof. induction a as [|x a IH]; simpl; [reflexivity|]. rewrite IH. reflexivity. Qed.

Lemma trimEnd_id (s : string) :
  NodeUrl.forallb_str notWs s = true -> NodeUrl.trimEnd s = s.
Proof.
  induction s as [|c s IH]; simpl; [reflexivity|].
  intros H. apply andb_true_iff in H as [Hc Hs].
  rewrite (IH Hs).
  destruct s; [|reflexivity].
  unfold notWs in Hc. apply negb_true_iff in Hc. rewrite Hc. reflexivity.
Qed.

Lemma trimStart_id (s : string) :
  NodeUrl.forallb_str notWs s = true -> NodeUrl.trimStart s = s.
Proof.
  unfold NodeUrl.trimStart. destruct s as [|c s]; simpl; [reflexivity|].
  intros H. apply andb_true_iff in H as [Hc _].
  unfold notWs in Hc. apply negb_true_iff in Hc. rewrite Hc. reflexivity.
Qed.

Lemma convertBackslashes_id (s : string) :
  NodeUrl.forallb_str notBackslash s = true -> NodeUrl.convertBackslashes s = s.
Proof.
  induction s as [|c s IH]; simpl; [reflexivity|].
  intros H. apply andb_true_iff in H as [Hc Hs].
  unfold notBackslash in Hc. apply negb_true_iff in Hc.
  rewrite Hc, (IH Hs). destruct (NodeUrl.isSplit c); reflexivity.
Qed.

Lemma isPathChar_notWs (c : ascii) : isPathChar c = true -> notWs c = true.
Proof.
  intros H. unfold notWs. destruct (isPathChar_facts c H) as (-> & _). reflexivity.
Qed.

Lemma isPathChar_notBackslash (c : ascii) :
  isPathChar c = true -> notBackslash c = true.
Proof.
  intros H. unfold notBackslash.
  destruct (isPathChar_facts c H) as (_ & -> & _). reflexivity.
Qed.

Lemma autoEscapeStr_plain (s : string) :
  NodeUrl.forallb_str isPathChar s = true -> NodeUrl.autoEscapeStr s = s.
Proof.
  induction s as [|c s IH]; simpl; [reflexivity|].
  intros H. apply andb_true_iff in H as [Hc Hs].
  destruct (isPathChar_facts c Hc) as (_ & _ & _ & _ & -> & _).
  rewrite (IH Hs). reflexivity.
Qed.

Lemma escapePathname_plain (s : string) :
  NodeUrl.forallb_str isPathChar s = true -> NodeUrl.escapePathname s = s.
Proof.
  induction s as [|c s IH]; simpl; [reflexivity|].
  intros H. apply andb_true_iff in H as [Hc Hs].
  destruct (isPathChar_facts c Hc) as (_ & _ & _ & _ & _ & _ & _ & -> & ->).
  rewrite (IH Hs). reflexivity.
Qed.

Lemma span_all (f : ascii -> bool) (s : string) :
  NodeUrl.forallb_str f s = true -> JS.span f s = (s, "").
Proof.
  induction s as [|c s IH]; simpl; [reflexivity|].
  intros H. apply andb_true_iff in H as [Hc Hs].
  rewrite Hc, (IH Hs). reflexivity.
Qed.

Lemma span_notHash_plain (s : string) :
  NodeUrl.forallb_str isPathChar s = true -> JS.span NodeUrl.notHash s = (s, "").
Proof.
  intros H. apply span_all. revert H. apply forallb_str_impl.
  intros c Hc. apply (isPathChar_facts c Hc).
Qed.

Lemma span_notQuestion_plain (s : string) :
  NodeUrl.forallb_str isPathChar s = true ->
  JS.span NodeUrl.notQuestion s = (s, "").
Proof.
  intros H. apply span_all. revert H. apply forallb_str_impl.
  intros c Hc. apply (isPathChar_facts c Hc).
Qed.

(** A string without a colon has no protocol. *)
Lemma span_suffix_forallb (f g : ascii -> bool) (s : string) :
  NodeUrl.forallb_str g s = true ->
  NodeUrl.forallb_str g (snd (JS.span f s)) = true.
Proof.
  induction s as [|c s IH]; simpl; [reflexivity|].
  intros H. destruct (f c).
  - apply andb_true_iff in H as [_ Hs]. specialize (IH Hs).
    destruct (JS.span f s). exact IH.
  - exact H.
Qed.

Lemma splitProtocol_plain (s : string) :
  NodeUrl.forallb_str isPathChar s = true -> NodeUrl.splitProtocol s = (None, s).
Proof.
  intros H. unfold NodeUrl.splitProtocol.
  pose proof (span_suffix_forallb NodeUrl.isProtoChar isPathChar s H) as Hs.
  destruct (JS.span NodeUrl.isProtoChar s) as [name r]. simpl in Hs.
  destruct r as [|c r]; [reflexivity|].
  simpl in Hs. apply andb_true_iff in Hs as [Hc _].
  destruct (isPathChar_facts c Hc) as (_ & _ & _ & -> & _).
  rewrite andb_false_r. reflexivity.
Qed.

Lemma forallb_str_slash_cons (p : string) :
  NodeUrl.forallb_str isPathChar p = true ->
  NodeUrl.forallb_str isPathChar (String "/" p) = true.
Proof. intros H. simpl. exact H. Qed.

Lemma parse_file_uri (p : string) :
  NodeUrl.forallb_str isPathChar p = true ->
  NodeUrl.parse ("file:///" ++ p) true = fileUrlRecord p.
Proof.
  intros H. unfold NodeUrl.parse.
  rewrite trimStart_id, trimEnd_id, convertBackslashes_id.
  2-4: rewrite forallb_str_app; apply andb_true_iff; split; [reflexivity|];
       revert H; apply forallb_str_impl;
       auto using isPathChar_notWs, isPathChar_notBackslash.
  simpl.
  rewrite (autoEscapeStr_plain p H), (span_notHash_plain p H).
  rewrite (span_notQuestion_plain _ (forallb_str_slash_cons p H)).
  reflexivity.
Qed.

Lemma parse_relative_path (r : string) :
  NodeUrl.forallb_str isPathChar r = true ->
  JS.startsWith "/" r = false ->
  NodeUrl.parse r true = pathOnlyRecord r.
Proof.
  intros H Hrel. unfold NodeUrl.parse.
  rewrite trimStart_id, trimEnd_id, convertBackslashes_id.
  2-4: revert H; apply forallb_str_impl;
       auto using isPathChar_notWs, isPathChar_notBackslash.
  simpl. rewrite (splitProtocol_plain r H). simpl.
  assert (Hss : JS.startsWith "//" r = false).
  { destruct r as [|c r]; [reflexivity|].
    rewrite startsWith_cons in *.
    apply andb_false_iff in Hrel as [Hc|Hn]; [|discriminate Hn].
    rewrite Hc. reflexivity. }
  rewrite Hss. simpl.
  rewrite (autoEscapeStr_plain r H), (span_notHash_plain r H).
  rewrite (span_notQuestion_plain r H).
  reflexivity.
Qed.

Lemma format_file_uri (p : string) :
  NodeUrl.forallb_str isPathChar p = true ->
  NodeUrl.format (fileUrlRecord p) = "file:///" ++ p.
Proof.
  intros H. unfold NodeUrl.format, fileUrlRecord. simpl.
  rewrite (escapePathname_plain p H), !append_nil_r. reflexivity.
Qed.

Lemma format_relative_path (r : string) :
  NodeUrl.forallb_str isPathChar r = true ->
  NodeUrl.format (pathOnlyRecord r) = r.
Proof.
  intros H. unfold NodeUrl.format, pathOnlyRecord. simpl.
  destruct r as [|c r]; [reflexivity|].
  simpl NodeUrl.nonEmpty. simpl NodeUrl.str.
  rewrite (escapePathname_plain _ H). rewrite append_nil_r. reflexivity.
Qed.

(** ** Plain segments *)

Lemma isPlainSegment_facts (s : string) :
  isPlainSegment s = true ->
  JS.truthy s = true /\ (s =? ".") = false /\ (s =? "..") = false
  /\ (s =? "") = false
  /\ NodeUrl.forallb_str isPlainChar s = true.
Proof.
  unfold isPlainSegment. intros H.
  apply andb_true_iff in H as [H H4].
  apply andb_true_iff in H as [H H3].
  apply andb_true_iff in H as [H1 H2].
  apply negb_true_iff in H2, H3.
  repeat split; try assumption.
  destruct s; [discriminate H1|reflexivity].
Qed.

Lemma isPlainSegment_cons (s : string) :
  isPlainSegment s = true -> exists c r, s = String c r /\ isPlainChar c = true.
Proof.
  intros H. destruct (isPlainSegment_facts s H) as (H1 & _ & _ & _ & H5).
  destruct s as [|c r]; [discriminate H1|].
  simpl in H5. apply andb_true_iff in H5 as [Hc _].
  exists c, r. split; [reflexivity|exact Hc].
Qed.

Lemma plain_pathChars (s : string) :
  NodeUrl.forallb_str isPlainChar s = true ->
  NodeUrl.forallb_str isPathChar s = true.
Proof. apply forallb_str_impl. exact isPlainChar_isPathChar. Qed.

Lemma isPlainResource_pathChars (res : string) :
  isPlainResource res = true -> NodeUrl.forallb_str isPathChar res = true.
Proof.
  unfold isPlainResource. intros H.
  destruct res as [|c r]; [reflexivity|].
  simpl in H. apply plain_pathChars.
  apply (isPlainSegment_facts _ H).
Qed.

Lemma isPlainResource_plainChars (res : string) :
  isPlainResource res = true -> NodeUrl.forallb_str isPlainChar res = true.
Proof.
  unfold isPlainResource. intros H.
  destruct res as [|c r]; [reflexivity|].
  simpl in H. apply (isPlainSegment_facts _ H).
Qed.

Lemma isRefSegment_plainChars (s : string) :
  isRefSegment s = true -> NodeUrl.forallb_str isPlainChar s = true.
Proof.
  unfold isRefSegment. intros H. apply orb_true_iff in H as [H|H].
  - apply (isPlainSegment_facts _ H).
  - apply String.eqb_eq in H. subst s. reflexivity.
Qed.

Lemma dirsString_pathChars (dirs : list string) :
  forallb isRefSegment dirs = true ->
  NodeUrl.forallb_str isPathChar (dirsString dirs) = true.
Proof.
  induction dirs as [|d dirs IH]; simpl; [reflexivity|].
  intros H. apply andb_true_iff in H as [Hd Hs].
  rewrite forallb_str_app. apply andb_true_iff. split.
  - apply plain_pathChars, isRefSegment_plainChars, Hd.
  - simpl. exact (IH Hs).
Qed.

Lemma forallb_plain_ref (dirs : list string) :
  forallb isPlainSegment dirs = true -> forallb isRefSegment dirs = true.
Proof.
  induction dirs as [|d dirs IH]; simpl; [reflexivity|].
  intros H. apply andb_true_iff in H as [Hd Hs].
  unfold isRefSegment at 1. rewrite Hd, (IH Hs). reflexivity.
Qed.

Lemma path_pathChars (dirs : list string) (res : string) :
  forallb isRefSegment dirs = true -> isPlainResource res = true ->
  NodeUrl.forallb_str isPathChar (dirsString dirs ++ res) = true.
Proof.
  intros Hd Hr. rewrite forallb_str_app, (dirsString_pathChars dirs Hd).
  exact (isPlainResource_pathChars res Hr).
Qed.

(** [joinPath] writes the directories one after the other, each with its
    slash. *)
Lemma join_cons (sep d : string) (d' : string) (rest : list string) :
  JS.join sep (d :: d' :: rest) = d ++ sep ++ JS.join sep (d' :: rest).
Proof. reflexivity. Qed.

Lemma join_nonempty (sep d : string) (l : list string) :
  l <> [] -> JS.join sep (d :: l) = d ++ sep ++ JS.join sep l.
Proof. destruct l; [congruence|reflexivity]. Qed.

Lemma join_slash_dirsString (dirs : list string) (last : string) :
  JS.join "/" (dirs ++ [last]) = dirsString dirs ++ last.
Proof.
  induction dirs as [|d dirs IH]; [reflexivity|].
  cbn [app dirsString].
  rewrite join_nonempty by (destruct dirs; discriminate).
  rewrite IH, !append_assoc. reflexivity.
Qed.

Lemma joinPath_dirsString (dirs : list string) :
  RelateUrl.joinPath dirs = dirsString dirs.
Proof.
  unfold RelateUrl.joinPath. destruct dirs as [|d dirs]; [reflexivity|].
  induction dirs as [|d' dirs IH] in d |- *; [reflexivity|].
  rewrite join_cons. cbn [dirsString]. rewrite append_assoc.
  f_equal. rewrite append_assoc. f_equal. apply IH.
Qed.

(** Splitting at the slashes gives the segments back. *)
Lemma split_plain (s : string) :
  NodeUrl.forallb_str isPlainChar s = true ->
  JS.split NodePath.isPosixSep s = [s].
Proof.
  induction s as [|c s IH]; [reflexivity|].
  simpl. intros H. apply andb_true_iff in H as [Hc Hs].
  rewrite (isPlainChar_not_slash c Hc), (IH Hs). reflexivity.
Qed.

Lemma split_app_slash (d rest : string) :
  NodeUrl.forallb_str isPlainChar d = true ->
  JS.split NodePath.isPosixSep (d ++ "/" ++ rest)
  = d :: JS.split NodePath.isPosixSep rest.
Proof.
  induction d as [|c d IH]; intros H.
  - reflexivity.
  - simpl in H. apply andb_true_iff in H as [Hc Hd].
    cbn [append JS.split]. rewrite (isPlainChar_not_slash c Hc).
    change (String "/" rest) with ("/" ++ rest).
    rewrite (IH Hd). reflexivity.
Qed.

Lemma split_path (dirs : list string) (res : string) :
  forallb isRefSegment dirs = true -> isPlainResource res = true ->
  JS.split NodePath.isPosixSep (dirsString dirs ++ res) = (dirs ++ [res])%list.
Proof.
  intros Hd Hr. induction dirs as [|d dirs IH].
  - simpl. apply split_plain, isPlainResource_plainChars, Hr.
  - simpl in Hd. apply andb_true_iff in Hd as [Hd Hs].
    cbn [dirsString app]. rewrite !append_assoc.
    rewrite split_app_slash by (apply isRefSegment_plainChars, Hd).
    rewrite (IH Hs). reflexivity.
Qed.

(** ** The path of a file URI, as relateurl reads it *)

Lemma splitLastSlash_plain (res : string) :
  NodeUrl.forallb_str isPlainChar res = true ->
  RelateUrl.splitLastSlash res = None.
Proof.
  induction res as [|c r IH]; [reflexivity|].
  simpl. intros H. apply andb_true_iff in H as [Hc Hr].
  rewrite (IH Hr).
  pose proof (isPlainChar_not_slash c Hc) as Hs.
  unfold NodePath.isPosixSep in Hs. rewrite Hs. reflexivity.
Qed.

Lemma splitLastSlash_app (x res : string) :
  NodeUrl.forallb_str isPlainChar res = true ->
  RelateUrl.splitLastSlash (x ++ "/" ++ res) = Some (x ++ "/", res).
Proof.
  intros H. induction x as [|c x IH].
  - simpl. rewrite (splitLastSlash_plain res H). reflexivity.
  - cbn [append RelateUrl.splitLastSlash].
    change (String "/" res) with ("/" ++ res). rewrite IH. reflexivity.
Qed.

(** The path [/d1/.../dn/]: a string that ends with a slash. *)
Lemma slash_dirsString_ends (dirs : list string) :
  exists x, "/" ++ dirsString dirs = x ++ "/".
Proof.
  induction dirs as [|d dirs [x IH]].
  - exists "". reflexivity.
  - exists ("/" ++ d ++ x). cbn [dirsString].
    change ("/" ++ dirsString dirs) with (String "/" (dirsString dirs)) in IH.
    change ("/" ++ dirsString dirs) with (String "/" (dirsString dirs)).
    rewrite IH. simpl. rewrite !append_assoc. reflexivity.
Qed.

Lemma splitLastSlash_path (dirs : list string) (res : string) :
  NodeUrl.forallb_str isPlainChar res = true ->
  RelateUrl.splitLastSlash ("/" ++ dirsString dirs ++ res)
  = Some ("/" ++ dirsString dirs, res).
Proof.
  intros H. destruct (slash_dirsString_ends dirs) as [x Hx].
  change ("/" ++ dirsString dirs ++ res) with (("/" ++ dirsString dirs) ++ res).
  rewrite Hx, append_assoc. apply splitLastSlash_app, H.
Qed.

Lemma isRefSegment_truthy (s : string) :
  isRefSegment s = true -> JS.truthy s = true.
Proof.
  unfold isRefSegment. intros H. apply orb_true_iff in H as [H|H].
  - apply (isPlainSegment_facts _ H).
  - apply String.eqb_eq in H. subst s. reflexivity.
Qed.

Lemma filter_truthy_segments (dirs : list string) :
  forallb isRefSegment dirs = true -> filter JS.truthy dirs = dirs.
Proof.
  induction dirs as [|d dirs IH]; [reflexivity|].
  simpl. intros H. apply andb_true_iff in H as [Hd Hs].
  rewrite (isRefSegment_truthy d Hd), (IH Hs). reflexivity.
Qed.

Lemma splitPath_dirs (dirs : list string) :
  forallb isRefSegment dirs = true ->
  RelateUrl.splitPath ("/" ++ dirsString dirs) = dirs.
Proof.
  intros H. unfold RelateUrl.splitPath.
  cbn [append JS.split]. change (NodePath.isPosixSep "/") with true.
  cbn iota.
  rewrite <- (append_nil_r (dirsString dirs)).
  rewrite (split_path dirs "" H eq_refl).
  cbn [filter JS.truthy]. rewrite filter_app.
  rewrite (filter_truthy_segments dirs H). simpl. apply app_nil_r.
Qed.

Lemma parsePath_path (dirs : list string) (res : string) :
  forallb isRefSegment dirs = true -> isPlainResource res = true ->
  RelateUrl.parsePath (Some ("/" ++ dirsString dirs ++ res))
  = (Some ("/" ++ dirsString dirs), Some dirs, NodeUrl.nonEmpty res).
Proof.
  intros Hd Hr. unfold RelateUrl.parsePath.
  cbn [append].
  change (String "/" (dirsString dirs ++ res))
    with ("/" ++ dirsString dirs ++ res).
  rewrite (splitLastSlash_path dirs res (isPlainResource_plainChars res Hr)).
  destruct res as [|c r].
  - cbn [JS.truthy negb]. rewrite append_nil_r.
    rewrite (splitPath_dirs dirs Hd). reflexivity.
  - cbn [JS.truthy negb].
    unfold isPlainResource in Hr. simpl in Hr.
    destruct (isPlainSegment_facts _ Hr) as (_ & -> & -> & _).
    cbn [orb]. rewrite (splitPath_dirs dirs Hd). reflexivity.
Qed.

Lemma resolveDots_plain (dirs revAcc : list string) :
  forallb isPlainSegment dirs = true ->
  RelateUrl.resolveDots dirs revAcc = (rev revAcc ++ dirs)%list.
Proof.
  revert revAcc. induction dirs as [|d dirs IH]; intros revAcc H.
  - simpl. rewrite app_nil_r. reflexivity.
  - simpl in H. apply andb_true_iff in H as [Hd Hs].
    destruct (isPlainSegment_facts d Hd) as (_ & H1 & H2 & _).
    cbn [RelateUrl.resolveDots]. rewrite H1, H2.
    rewrite (IH _ Hs). simpl. rewrite <- app_assoc. reflexivity.
Qed.

Lemma resolveDotSegments_plain (dirs : list string) :
  forallb isPlainSegment dirs = true ->
  RelateUrl.resolveDotSegments dirs = dirs.
Proof. intros H. unfold RelateUrl.resolveDotSegments. rewrite resolveDots_plain by exact H. reflexivity. Qed.

Lemma parseUrl_file_uri (dirs : list string) (res : string) :
  forallb isPlainSegment dirs = true -> isPlainResource res = true ->
  RelateUrl.parseUrl (fileUriOf dirs res) RELATE_URL_OPTIONS = fileUrlObj dirs res.
Proof.
  intros Hd Hr. unfold RelateUrl.parseUrl, fileUriOf.
  pose proof (forallb_plain_ref dirs Hd) as Hd'.
  rewrite (parse_file_uri _ (path_pathChars dirs res Hd' Hr)).
  cbn [fileUrlRecord NodeUrl.pathname NodeUrl.protocol NodeUrl.port
       NodeUrl.search NodeUrl.auth NodeUrl.hostname NodeUrl.hash].
  rewrite (parsePath_path dirs res Hd' Hr).
  reflexivity.
Qed.

Lemma parseFrom_file_uri (dirs : list string) :
  forallb isPlainSegment dirs = true ->
  RelateUrl.parseFrom (fileUriOf dirs "") RELATE_URL_OPTIONS
  = Some (fileUrlObj dirs "").
Proof.
  intros Hd. unfold RelateUrl.parseFrom.
  rewrite (parseUrl_file_uri dirs "" Hd eq_refl).
  change (RelateUrl.validScheme (fileUriOf dirs "")) with true.
  cbn [negb fileUrlObj RelateUrl.pathArray].
  rewrite (resolveDotSegments_plain dirs Hd), joinPath_dirsString.
  reflexivity.
Qed.

Lemma samePartsLength_refl (a : list string) :
  NodePath.samePartsLength a a = List.length a.
Proof.
  induction a as [|x a IH]; [reflexivity|].
  simpl. rewrite String.eqb_refl, IH. reflexivity.
Qed.

Lemma samePartsLength_le_l (a b : list string) :
  NodePath.samePartsLength a b <= List.length a.
Proof.
  revert b. induction a as [|x a IH]; intros [|y b]; simpl; try lia.
  destruct (x =? y); simpl; [|lia]. specialize (IH b). lia.
Qed.

Lemma samePartsLength_le_r (a b : list string) :
  NodePath.samePartsLength a b <= List.length b.
Proof.
  revert b. induction a as [|x a IH]; intros [|y b]; simpl; try lia.
  destruct (x =? y); simpl; [|lia]. specialize (IH b). lia.
Qed.

Lemma samePartsLength_firstn (a b : list string) :
  firstn (NodePath.samePartsLength a b) a
  = firstn (NodePath.samePartsLength a b) b.
Proof.
  revert b. induction a as [|x a IH]; intros [|y b]; simpl; try reflexivity.
  destruct (x =? y) eqn:Hxy; [|reflexivity].
  apply String.eqb_eq in Hxy. subst y. simpl. rewrite IH. reflexivity.
Qed.

Lemma relatePath_nil (td fd : list string) :
  RelateUrl.relatePath td fd = [] -> td = fd.
Proof.
  unfold RelateUrl.relatePath. intros H.
  apply app_eq_nil in H as [Hk Hs].
  pose proof (samePartsLength_le_l fd td) as Hl.
  pose proof (samePartsLength_le_r fd td) as Hr.
  pose proof (samePartsLength_firstn fd td) as Hf.
  set (n := NodePath.samePartsLength fd td) in *.
  assert (Hn : List.length fd - n = 0).
  { destruct (List.length fd - n); [reflexivity|discriminate Hk]. }
  assert (Hn' : List.length td <= n).
  { rewrite <- (firstn_skipn n td) at 1. rewrite Hs, app_nil_r.
    rewrite length_firstn. lia. }
  rewrite (firstn_all2 (n:=n) fd) in Hf by lia.
  rewrite (firstn_all2 (n:=n) td) in Hf by lia.
  symmetry. exact Hf.
Qed.

Lemma relatePath_refl (fd : list string) : RelateUrl.relatePath fd fd = [].
Proof.
  unfold RelateUrl.relatePath. rewrite samePartsLength_refl, Nat.sub_diag.
  simpl. apply skipn_all.
Qed.

Lemma dirsPath_inj (td fd : list string) :
  forallb isPlainSegment td = true -> forallb isPlainSegment fd = true ->
  "/" ++ dirsString td = "/" ++ dirsString fd -> td = fd.
Proof.
  intros Ht Hf H.
  rewrite <- (splitPath_dirs td (forallb_plain_ref td Ht)).
  rewrite <- (splitPath_dirs fd (forallb_plain_ref fd Hf)).
  rewrite H. reflexivity.
Qed.

Lemma relatePath_segments (td fd : list string) :
  forallb isPlainSegment td = true ->
  forallb isRefSegment (RelateUrl.relatePath td fd) = true.
Proof.
  intros Ht. unfold RelateUrl.relatePath.
  rewrite forallb_app. apply andb_true_iff. split.
  - induction (List.length fd - NodePath.samePartsLength fd td) as [|k IH];
      [reflexivity|]. simpl. exact IH.
  - apply forallb_plain_ref.
    rewrite <- (firstn_skipn (NodePath.samePartsLength fd td) td) in Ht.
    rewrite forallb_app in Ht. apply andb_true_iff in Ht. apply Ht.
Qed.

Lemma relate_file_uris (fd td : list string) (res : string) :
  forallb isPlainSegment fd = true ->
  forallb isPlainSegment td = true ->
  isPlainResource res = true ->
  RelateUrl.relate (fileUriOf fd "") (fileUriOf td res) RELATE_URL_OPTIONS
  = Some (dirsString (RelateUrl.relatePath td fd) ++ res).
Proof.
  intros Hf Ht Hr. unfold RelateUrl.relate.
  change (JS.truthy (fileUriOf td res)) with true. cbn [negb].
  unfold fileUriOf at 1.
  rewrite (parse_file_uri _ (path_pathChars fd "" (forallb_plain_ref fd Hf) eq_refl)).
  rewrite (format_file_uri _ (path_pathChars fd "" (forallb_plain_ref fd Hf) eq_refl)).
  change ("file:///" ++ dirsString fd ++ "" =? "") with false. cbn iota.
  rewrite (parseFrom_file_uri fd Hf).
  change (RelateUrl.minimumPathOnly (fileUrlObj fd "")) with false.
  change (RelateUrl.validScheme (fileUriOf td res)) with true.
  cbn [negb]. cbn iota.
  rewrite (parseUrl_file_uri td res Ht Hr).
  unfold RelateUrl.relateUrl.
  cbn [fileUrlObj RelateUrl.scheme RelateUrl.auth RelateUrl.hostFull
       RelateUrl.port RelateUrl.pathArray RelateUrl.pathString
       RelateUrl.resource RelateUrl.queryFull RelateUrl.hash
       RelateUrl.resourceIsIndex RelateUrl.separatorOnlyQuery
       RelateUrl.portIsDefault].
  change (RelateUrl.minimumPathOnly (fileUrlObj td res)) with false.
  change (RelateUrl.minimumResourceOnly (fileUrlObj td res)) with false.
  change (RelateUrl.minimumQueryOnly (fileUrlObj td res)) with false.
  change (RelateUrl.minimumHashOnly (fileUrlObj td res)) with false.
  change (RelateUrl.isEmpty (fileUrlObj td res)) with false.
  cbn [NodeUrl.optEq NodeUrl.truthy NodeUrl.str JS.truthy String.eqb
       Ascii.eqb Bool.eqb orb andb negb].
  rewrite (resolveDotSegments_plain td Ht), joinPath_dirsString.
  f_equal. unfold RelateUrl.formatUrl.
  destruct ("/" ++ dirsString td =? "/" ++ dirsString fd) eqn:Hsame.
  - apply String.eqb_eq in Hsame.
    apply (dirsPath_inj td fd Ht Hf) in Hsame. subst td.
    rewrite relatePath_refl.
    destruct res as [|c r]; cbn; rewrite ?append_nil_r; reflexivity.
  - destruct (RelateUrl.relatePath td fd) as [|d rel] eqn:Hrel.
    + apply relatePath_nil in Hrel. subst td.
      rewrite String.eqb_refl in Hsame. discriminate Hsame.
    + assert (Hne : (RelateUrl.joinPath (d :: rel) =? "") = false).
      { rewrite joinPath_dirsString. cbn [dirsString].
        destruct d; reflexivity. }
      cbn [RelateUrl.relativeArray RelateUrl.output RELATE_URL_OPTIONS
           RelateUrl.Output_eqb RelateUrl.maximumHost RelateUrl.minimumPort
           negb orb andb].
      rewrite Hne, joinPath_dirsString.
      destruct res as [|c r]; cbn; rewrite ?andb_false_r; cbn;
        rewrite ?andb_false_r; cbn; rewrite ?append_nil_r; reflexivity.
Qed.

(** ** The reference is path-relative *)

Lemma startsWith_slash_plain (s x : string) :
  NodeUrl.forallb_str isPlainChar s = true -> JS.truthy s = true ->
  JS.startsWith "/" (s ++ x) = false.
Proof.
  destruct s as [|c s]; [discriminate|].
  intros H _. simpl in H. apply andb_true_iff in H as [Hc _].
  cbn [append]. rewrite startsWith_cons.
  pose proof (isPlainChar_not_slash c Hc) as Hs.
  unfold NodePath.isPosixSep, JS.chr_slash in Hs.
  rewrite (Ascii.eqb_sym "/"%char c), Hs. reflexivity.
Qed.

Lemma reference_not_rooted (rel : list string) (res : string) :
  forallb isRefSegment rel = true -> isPlainResource res = true ->
  JS.startsWith "/" (dirsString rel ++ res) = false.
Proof.
  intros Hrel Hres. destruct rel as [|d rel].
  - cbn [dirsString append]. destruct res as [|c r]; [reflexivity|].
    rewrite <- (append_nil_r (String c r)).
    apply startsWith_slash_plain; [|reflexivity].
    apply (isPlainResource_plainChars _ Hres).
  - simpl in Hrel. apply andb_true_iff in Hrel as [Hd _].
    cbn [dirsString]. rewrite append_assoc.
    apply startsWith_slash_plain.
    + apply isRefSegment_plainChars, Hd.
    + apply isRefSegment_truthy, Hd.
Qed.



(** ** Resolution of the reference *)

Lemma stripDots_keep (l rest acc : list string) :
  forallb notDot l = true ->
  NodeUrl.stripDots (l ++ rest) 0 acc = NodeUrl.stripDots rest 0 (rev l ++ acc).
Proof.
  revert acc. induction l as [|x l IH]; intros acc H; [reflexivity|].
  simpl in H. apply andb_true_iff in H as [Hx Hl].
  unfold notDot in Hx. apply andb_true_iff in Hx as [H1 H2].
  apply negb_true_iff in H1, H2.
  cbn [app NodeUrl.stripDots]. rewrite H1, H2.
  rewrite (IH _ Hl). simpl. rewrite <- app_assoc. reflexivity.
Qed.

Lemma stripDots_ups (k up : nat) (rest acc : list string) :
  NodeUrl.stripDots (repeat ".." k ++ rest) up acc
  = NodeUrl.stripDots rest (k + up) acc.
Proof.
  revert up. induction k as [|k IH]; intros up; [reflexivity|].
  cbn [repeat app NodeUrl.stripDots]. cbn.
  rewrite IH. f_equal. lia.
Qed.

Lemma stripDots_drop (l rest acc : list string) (up : nat) :
  forallb notDot l = true ->
  NodeUrl.stripDots (l ++ rest) (List.length l + up) acc
  = NodeUrl.stripDots rest up acc.
Proof.
  induction l as [|x l IH]; intros H; [reflexivity|].
  simpl in H. apply andb_true_iff in H as [Hx Hl].
  unfold notDot in Hx. apply andb_true_iff in Hx as [H1 H2].
  apply negb_true_iff in H1, H2.
  cbn [app NodeUrl.stripDots List.length Nat.add]. rewrite H1, H2.
  exact (IH Hl).
Qed.

Lemma isPlainSegment_notDot (s : string) :
  isPlainSegment s = true -> notDot s = true.
Proof.
  intros H. destruct (isPlainSegment_facts s H) as (_ & H1 & H2 & _).
  unfold notDot. rewrite H1, H2. reflexivity.
Qed.

Lemma forallb_plain_notDot (l : list string) :
  forallb isPlainSegment l = true -> forallb notDot l = true.
Proof.
  induction l as [|x l IH]; [reflexivity|]. simpl.
  intros H. apply andb_true_iff in H as [Hx Hl].
  rewrite (isPlainSegment_notDot x Hx), (IH Hl). reflexivity.
Qed.

Lemma isPlainResource_notDot (res : string) :
  isPlainResource res = true -> notDot res = true.
Proof.
  unfold isPlainResource. destruct res as [|c r]; [reflexivity|].
  simpl. apply isPlainSegment_notDot.
Qed.

Lemma forallb_rev {A} (f : A -> bool) (l : list A) :
  forallb f (rev l) = forallb f l.
Proof.
  induction l as [|x l IH]; [reflexivity|].
  simpl. rewrite forallb_app, IH. simpl. rewrite andb_true_r, andb_comm.
  reflexivity.
Qed.

Lemma forallb_firstn {A} (f : A -> bool) (n : nat) (l : list A) :
  forallb f l = true -> forallb f (firstn n l) = true.
Proof.
  intros H. rewrite <- (firstn_skipn n l), forallb_app in H.
  apply andb_true_iff in H. apply H.
Qed.

Lemma forallb_skipn {A} (f : A -> bool) (n : nat) (l : list A) :
  forallb f l = true -> forallb f (skipn n l) = true.
Proof.
  intros H. rewrite <- (firstn_skipn n l), forallb_app in H.
  apply andb_true_iff in H. apply H.
Qed.

(** The dots of the reference take back the directories of the base that
    the target does not share. *)
Lemma stripDots_reference (fd td : list string) (res : string) :
  forallb isPlainSegment fd = true ->
  forallb isPlainSegment td = true ->
  isPlainResource res = true ->
  NodeUrl.stripDots
    (rev ("" :: fd ++ RelateUrl.relatePath td fd ++ [res])) 0 []
  = (("" :: td ++ [res])%list, 0).
Proof.
  intros Hf Ht Hr. unfold RelateUrl.relatePath.
  set (n := NodePath.samePartsLength fd td).
  pose proof (samePartsLength_le_l fd td) as Hle. fold n in Hle.
  pose proof (samePartsLength_firstn fd td) as Hfirst. fold n in Hfirst.
  cbn [rev]. rewrite !rev_app_distr. cbn [rev app].
  rewrite rev_repeat.
  rewrite <- (firstn_skipn n fd) at 2. rewrite rev_app_distr.
  rewrite <- !app_assoc. rewrite app_comm_cons.
  rewrite (stripDots_keep (res :: rev (skipn n td))).
  2:{ cbn [forallb]. rewrite (isPlainResource_notDot res Hr), forallb_rev.
      apply forallb_plain_notDot, forallb_skipn, Ht. }
  rewrite stripDots_ups.
  replace (List.length fd - n + 0) with (List.length (rev (skipn n fd)) + 0)
    by (rewrite length_rev, length_skipn; reflexivity).
  rewrite stripDots_drop
    by (rewrite forallb_rev; apply forallb_plain_notDot, forallb_skipn, Hf).
  rewrite (stripDots_keep (rev (firstn n fd)) [""])
    by (rewrite forallb_rev; apply forallb_plain_notDot, forallb_firstn, Hf).
  cbn [NodeUrl.stripDots]. change ("" =? ".") with false.
  change ("" =? "..") with false. cbn iota.
  rewrite rev_involutive. cbn [rev]. rewrite rev_involutive, app_nil_r.
  rewrite Hfirst, app_assoc, firstn_skipn. reflexivity.
Qed.

Lemma split_rooted_path (dirs : list string) (res : string) :
  forallb isRefSegment dirs = true -> isPlainResource res = true ->
  JS.split NodePath.isPosixSep ("/" ++ dirsString dirs ++ res)
  = ("" :: dirs ++ [res])%list.
Proof.
  intros Hd Hr. cbn [append JS.split].
  change (NodePath.isPosixSep "/") with true. cbn iota.
  rewrite (split_path dirs res Hd Hr). reflexivity.
Qed.

Lemma endsWithChar_app (c : ascii) (x : string) :
  JS.endsWithChar c (x ++ String c "") = true.
Proof.
  unfold JS.endsWithChar.
  assert (H : JS.last_char (x ++ String c "") = Some c).
  { induction x as [|d x IH]; [reflexivity|].
    cbn [append JS.last_char]. rewrite IH.
    destruct (x ++ String c "") eqn:E; [|reflexivity].
    destruct x; discriminate E. }
  rewrite H. apply Ascii.eqb_refl.
Qed.

Lemma reference_empty (rel : list string) (res : string) :
  forallb isRefSegment rel = true ->
  dirsString rel ++ res = "" -> rel = [] /\ res = "".
Proof.
  intros Hrel H. destruct rel as [|d rel].
  - split; [reflexivity|exact H].
  - simpl in Hrel. apply andb_true_iff in Hrel as [Hd _].
    apply isRefSegment_truthy in Hd. destruct d; discriminate.
Qed.

Lemma nonEmpty_some (r : string) :
  (r =? "") = false -> NodeUrl.nonEmpty r = Some r.
Proof. destruct r; [discriminate|reflexivity]. Qed.

Lemma truthy_some (r : string) :
  (r =? "") = false -> JS.truthy r = true.
Proof. destruct r; [discriminate|reflexivity]. Qed.

Lemma resolve_reference (fd td : list string) (res : string) :
  forallb isPlainSegment fd = true ->
  forallb isPlainSegment td = true ->
  isPlainResource res = true ->
  NodeUrl.resolve (fileUriOf fd "")
    (dirsString (RelateUrl.relatePath td fd) ++ res)
  = fileUriOf td res.
Proof.
  intros Hf Ht Hr.
  pose proof (relatePath_segments td fd Ht) as Hrel.
  pose proof (forallb_plain_ref fd Hf) as Hf'.
  pose proof (forallb_plain_ref td Ht) as Ht'.
  unfold NodeUrl.resolve, fileUriOf.
  rewrite (parse_file_uri _ (path_pathChars fd "" Hf' eq_refl)).
  rewrite (parse_relative_path _ (path_pathChars _ res Hrel Hr)
             (reference_not_rooted _ res Hrel Hr)).
  unfold NodeUrl.resolveObject.
  rewrite (format_relative_path _ (path_pathChars _ res Hrel Hr)).
  destruct (dirsString (RelateUrl.relatePath td fd) ++ res =? "") eqn:Hempty.
  - apply String.eqb_eq in Hempty.
    apply (reference_empty _ _ Hrel) in Hempty as [Hnil ->].
    apply relatePath_nil in Hnil. subst td.
    apply (format_file_uri _ (path_pathChars fd "" Hf' eq_refl)).
  - pose proof (reference_not_rooted _ res Hrel Hr) as Hroot.
    pose proof (split_path _ res Hrel Hr) as Hsplit.
    remember (dirsString (RelateUrl.relatePath td fd) ++ res) as r eqn:Er.
    clear Er.
    unfold pathOnlyRecord. rewrite (nonEmpty_some r Hempty).
    cbn [fileUrlRecord NodeUrl.protocol NodeUrl.slashes NodeUrl.auth
         NodeUrl.host NodeUrl.port NodeUrl.hostname NodeUrl.hash
         NodeUrl.search NodeUrl.pathname].
    unfold NodeUrl.startsWithSlash, NodeUrl.splitPath.
    cbn [NodeUrl.truthy NodeUrl.str JS.truthy andb negb orb NodeUrl.isSome].
    rewrite Hroot.
    change (NodeUrl.slashedProtocol (Some "file:")) with true.
    cbn [andb negb orb NodeUrl.truthy NodeUrl.str].
    change (NodeUrl.truthy (Some r)) with (JS.truthy r).
    rewrite (truthy_some r Hempty), Hsplit. clear Hsplit.
    change (NodeUrl.truthy (Some ("/" ++ dirsString fd ++ ""))) with true.
    change (JS.startsWith "/" ("/" ++ dirsString fd ++ "")) with true.
    rewrite (split_rooted_path fd "" Hf' eq_refl).
    cbn [orb].
    destruct (RelateUrl.relatePath td fd ++ [res])%list as [|x l] eqn:El.
    { destruct (RelateUrl.relatePath td fd); discriminate El. }
    rewrite <- El. clear x l El.
    unfold NodeUrl.pop.
    change ("" :: fd ++ [""])%list with (("" :: fd) ++ [""])%list.
    rewrite removelast_last. cbn [app].
    unfold NodeUrl.finishResolve.
    rewrite (stripDots_reference fd td res Hf Ht Hr).
    assert (Hlast : last ("" :: fd ++ RelateUrl.relatePath td fd ++ [res]) "" = res).
    { change ("" :: fd ++ RelateUrl.relatePath td fd ++ [res])%list
        with (("" :: fd) ++ RelateUrl.relatePath td fd ++ [res])%list.
      rewrite app_assoc. apply last_last. }
    rewrite Hlast.
    pose proof (isPlainResource_notDot res Hr) as Hnd.
    unfold notDot in Hnd. apply andb_true_iff in Hnd as [Hd1 Hd2].
    apply negb_true_iff in Hd1, Hd2. rewrite Hd1, Hd2.
    cbn [fileUrlRecord NodeUrl.protocol NodeUrl.slashes NodeUrl.auth
         NodeUrl.host NodeUrl.port NodeUrl.hostname NodeUrl.hash
         NodeUrl.search NodeUrl.pathname NodeUrl.truthy NodeUrl.str
         JS.truthy negb andb orb app repeat].
    rewrite !andb_false_r. cbn [orb].
    change ("" =? "") with true. cbn [negb andb orb].
    change ("" :: td ++ [res])%list with (("" :: td) ++ [res])%list.
    rewrite join_slash_dirsString. cbn [dirsString append].
    assert (Hts : (res =? "")
                  && negb (JS.endsWithChar JS.chr_slash
                             (String "/" (dirsString td ++ res))) = false).
    { destruct res as [|c res']; [|reflexivity].
      rewrite append_nil_r.
      destruct (slash_dirsString_ends td) as [x Hx].
      change (String "/" (dirsString td)) with ("/" ++ dirsString td).
      rewrite Hx. unfold JS.chr_slash.
      rewrite (endsWithChar_app "/"%char x). reflexivity. }
    rewrite Hts. cbn [app]. change ("" =? "") with true.
    cbn [negb orb].
    change ("" :: td ++ [res])%list with (("" :: td) ++ [res])%list.
    rewrite join_slash_dirsString. cbn [dirsString append].
    apply (format_file_uri _ (path_pathChars td res Ht' Hr)).
Qed.

(** ** The relativization of file URIs *)


(** ** A reference without a protocol stays with the protocol of the base *)











(* ------------------------------------------------------------------ *)
(** ** The selection test on plain POSIX paths *)

(** ** The relative path between plain POSIX paths *)

Lemma isPlainResource_cases (s : string) :
  isPlainResource s = true -> s = "" \/ isPlainSegment s = true.
Proof.
  unfold isPlainResource. destruct s as [|c r]; [left; reflexivity|].
  cbn [JS.truthy negb orb]. intros H. right. exact H.
Qed.

Lemma isPlainSegment_isPlainResource (s : string) :
  isPlainSegment s = true -> isPlainResource s = true.
Proof. intros H. unfold isPlainResource. rewrite H. apply orb_true_r. Qed.

Lemma forallb_segment_resource (l : list string) :
  forallb isPlainSegment l = true -> forallb isPlainResource l = true.
Proof.
  induction l as [|x l IH]; [reflexivity|]. simpl.
  intros H. apply andb_true_iff in H as [Hx Hl].
  rewrite (isPlainSegment_isPlainResource x Hx), (IH Hl). reflexivity.
Qed.

Lemma segmentsOf_plain (dirs : list string) (res : string) :
  forallb isPlainSegment dirs = true -> isPlainResource res = true ->
  forallb isPlainSegment (segmentsOf dirs res) = true.
Proof.
  intros Hd Hr. unfold segmentsOf. rewrite forallb_app, Hd.
  destruct (isPlainResource_cases res Hr) as [-> | Hseg]; [reflexivity|].
  destruct (isPlainSegment_facts res Hseg) as (-> & _).
  cbn [forallb]. rewrite Hseg. reflexivity.
Qed.

(** [normalizeArray] drops the empty parts and keeps the plain ones. *)
Lemma normalizeArray_rev_parts (parts acc : list string) (above : bool) :
  forallb isPlainResource parts = true ->
  NodePath.normalizeArray_rev parts above acc
  = (rev (filter JS.truthy parts) ++ acc)%list.
Proof.
  revert acc. induction parts as [|p parts IH]; intros acc H; [reflexivity|].
  simpl in H. apply andb_true_iff in H as [Hp Hs].
  destruct (isPlainResource_cases p Hp) as [-> | Hseg].
  - cbn [NodePath.normalizeArray_rev filter JS.truthy].
    change ("" =? "") with true. cbn [orb]. apply (IH _ Hs).
  - destruct (isPlainSegment_facts p Hseg) as (Ht & H1 & H2 & H0 & _).
    cbn [NodePath.normalizeArray_rev filter]. rewrite H0, H1, H2, Ht.
    cbn [orb rev]. rewrite (IH _ Hs), <- app_assoc. reflexivity.
Qed.

Lemma normalizeArray_parts (parts : list string) (above : bool) :
  forallb isPlainResource parts = true ->
  NodePath.normalizeArray parts above = filter JS.truthy parts.
Proof.
  intros H. unfold NodePath.normalizeArray.
  rewrite (normalizeArray_rev_parts parts [] above H), app_nil_r.
  apply rev_involutive.
Qed.

(** [split] undoes [join]. *)
Lemma split_join_parts (p : string) (parts : list string) :
  forallb isPlainResource (p :: parts) = true ->
  JS.split NodePath.isPosixSep (JS.join "/" (p :: parts)) = p :: parts.
Proof.
  revert p. induction parts as [|q parts IH]; intros p H.
  - cbn [JS.join]. apply split_plain. simpl in H.
    apply andb_true_iff in H as [Hp _].
    apply (isPlainResource_plainChars p Hp).
  - simpl in H. apply andb_true_iff in H as [Hp Hs].
    rewrite join_cons. rewrite split_app_slash
      by apply (isPlainResource_plainChars p Hp).
    rewrite (IH q Hs). reflexivity.
Qed.

Lemma dirsString_app (a b : list string) :
  dirsString (a ++ b) = dirsString a ++ dirsString b.
Proof.
  induction a as [|x a IH]; [reflexivity|].
  cbn [app dirsString]. rewrite IH, !append_assoc. reflexivity.
Qed.

Lemma posixPathOf_join (dirs : list string) (res : string) :
  posixPathOf dirs res = JS.join "/" ("" :: dirs ++ [res]).
Proof.
  unfold posixPathOf.
  change ("" :: dirs ++ [res])%list with (("" :: dirs) ++ [res])%list.
  rewrite join_slash_dirsString. reflexivity.
Qed.

Lemma posixPathOf_slash_join (dirs : list string) (res : string) :
  posixPathOf dirs res ++ "/" = JS.join "/" ("" :: dirs ++ [res; ""]).
Proof.
  unfold posixPathOf.
  change ("" :: dirs ++ [res; ""])%list with (("" :: dirs) ++ [res; ""])%list.
  change [res; ""] with ([res] ++ [""])%list. rewrite app_assoc.
  rewrite join_slash_dirsString, append_nil_r.
  cbn [app dirsString]. rewrite dirsString_app. cbn [dirsString append].
  rewrite !append_assoc. reflexivity.
Qed.

Lemma filter_truthy_plain (l : list string) :
  forallb isPlainSegment l = true -> filter JS.truthy l = l.
Proof. intros H. apply filter_truthy_segments, forallb_plain_ref, H. Qed.

Lemma segments_of_parts (dirs : list string) (res : string) (tl : list string) :
  forallb isPlainSegment dirs = true ->
  filter JS.truthy tl = [] ->
  filter JS.truthy ("" :: dirs ++ res :: tl) = segmentsOf dirs res.
Proof.
  intros Hd Htl. cbn [filter JS.truthy]. rewrite filter_app.
  rewrite (filter_truthy_plain dirs Hd). unfold segmentsOf.
  cbn [filter]. rewrite Htl. reflexivity.
Qed.

Lemma posix_resolve_plain (pr : NodePath.Process) (dirs : list string)
    (res : string) :
  forallb isPlainSegment dirs = true -> isPlainResource res = true ->
  NodePath.posix.resolve pr [posixPathOf dirs res]
  = "/" ++ JS.join "/" (segmentsOf dirs res).
Proof.
  intros Hd Hr. unfold NodePath.posix.resolve.
  cbn [rev app NodePath.posix.resolve_loop].
  change (posixPathOf dirs res =? "") with false.
  change (NodePath.posix.isAbsolute (posixPathOf dirs res)) with true.
  cbn iota. cbn [negb].
  assert (Hparts : forallb isPlainResource ("" :: dirs ++ [res; ""]) = true).
  { cbn [forallb]. rewrite forallb_app, (forallb_segment_resource dirs Hd).
    cbn [forallb]. rewrite Hr. reflexivity. }
  change (posixPathOf dirs res ++ "/" ++ "") with (posixPathOf dirs res ++ "/").
  rewrite posixPathOf_slash_join, (split_join_parts _ _ Hparts).
  rewrite (normalizeArray_parts _ _ Hparts).
  rewrite (segments_of_parts dirs res [""] Hd eq_refl).
  reflexivity.
Qed.

Lemma isPlainSegment_not_empty (x : string) :
  isPlainSegment x = true -> (x =? "") = false.
Proof. intros H. apply (isPlainSegment_facts x H). Qed.

Lemma trimFront_plain (l : list string) :
  forallb isPlainSegment l = true -> NodePath.trimFront l = l.
Proof.
  destruct l as [|x l]; [reflexivity|]. simpl. intros H.
  apply andb_true_iff in H as [Hx _].
  rewrite (isPlainSegment_not_empty x Hx). reflexivity.
Qed.

Lemma trimArray_plain (l : list string) :
  forallb isPlainSegment l = true -> NodePath.trimArray l = l.
Proof.
  intros H. unfold NodePath.trimArray.
  rewrite (trimFront_plain l H).
  rewrite trimFront_plain by (rewrite forallb_rev; exact H).
  apply rev_involutive.
Qed.

(** The parts that [relative] compares are the segments of the path. *)
Lemma relative_parts (segs : list string) :
  forallb isPlainSegment segs = true ->
  NodePath.trimArray
    (JS.split NodePath.isPosixSep (JS.substr1 ("/" ++ JS.join "/" segs)))
  = segs.
Proof.
  intros H. cbn [append JS.substr1].
  destruct segs as [|x segs]; [reflexivity|].
  rewrite (split_join_parts x segs (forallb_segment_resource _ H)).
  apply (trimArray_plain _ H).
Qed.

Lemma join_segments_inj (a b : list string) :
  forallb isPlainSegment a = true -> forallb isPlainSegment b = true ->
  JS.join "/" a = JS.join "/" b -> a = b.
Proof.
  intros Ha Hb H.
  rewrite <- (relative_parts a Ha), <- (relative_parts b Hb), H.
  reflexivity.
Qed.

Lemma join_relative_nil (segs : list string) :
  JS.join "/" (repeat ".." (List.length segs - NodePath.samePartsLength segs segs)
               ++ skipn (NodePath.samePartsLength segs segs) segs) = "".
Proof.
  rewrite samePartsLength_refl, Nat.sub_diag, skipn_all. reflexivity.
Qed.

(** [path.posix.relative] between two plain absolute paths: one [..] for
    every segment of [from] that [to] does not share, then the segments of
    [to] that [from] does not share. *)
Lemma posix_relative_plain (pr : NodePath.Process)
    (fromDirs toDirs : list string) (fromRes toRes : string) :
  forallb isPlainSegment fromDirs = true -> isPlainResource fromRes = true ->
  forallb isPlainSegment toDirs = true -> isPlainResource toRes = true ->
  let fromSegs := segmentsOf fromDirs fromRes in
  let toSegs := segmentsOf toDirs toRes in
  let same := NodePath.samePartsLength fromSegs toSegs in
  NodePath.posix.relative pr (posixPathOf fromDirs fromRes)
    (posixPathOf toDirs toRes)
  = JS.join "/" (repeat ".." (List.length fromSegs - same) ++ skipn same toSegs).
Proof.
  intros Hfd Hfr Htd Htr. cbv zeta.
  pose proof (segmentsOf_plain fromDirs fromRes Hfd Hfr) as Hf.
  pose proof (segmentsOf_plain toDirs toRes Htd Htr) as Ht.
  unfold NodePath.posix.relative.
  rewrite (posix_resolve_plain pr fromDirs fromRes Hfd Hfr).
  rewrite (posix_resolve_plain pr toDirs toRes Htd Htr).
  assert (Heq : ("/" ++ JS.join "/" (segmentsOf fromDirs fromRes)
                 =? "/" ++ JS.join "/" (segmentsOf toDirs toRes)) = true ->
                segmentsOf fromDirs fromRes = segmentsOf toDirs toRes).
  { intros E. apply String.eqb_eq in E. injection E as E.
    apply (join_segments_inj _ _ Hf Ht E). }
  destruct (posixPathOf fromDirs fromRes =? posixPathOf toDirs toRes) eqn:E1.
  - apply String.eqb_eq in E1.
    assert (E2 : segmentsOf fromDirs fromRes = segmentsOf toDirs toRes).
    { apply Heq.
      rewrite <- (posix_resolve_plain pr fromDirs fromRes Hfd Hfr).
      rewrite <- (posix_resolve_plain pr toDirs toRes Htd Htr).
      rewrite E1. apply String.eqb_refl. }
    rewrite E2. symmetry. apply join_relative_nil.
  - destruct ("/" ++ JS.join "/" (segmentsOf fromDirs fromRes)
              =? "/" ++ JS.join "/" (segmentsOf toDirs toRes)) eqn:E2.
    + rewrite (Heq eq_refl). symmetry. apply join_relative_nil.
    + rewrite (relative_parts _ Hf), (relative_parts _ Ht). reflexivity.
Qed.

(** ** When the test selects a root *)

Lemma posixSegments_plain (dirs : list string) (res : string) :
  forallb isPlainSegment dirs = true -> isPlainResource res = true ->
  posixSegments (posixPathOf dirs res) = segmentsOf dirs res.
Proof.
  intros Hd Hr. unfold posixSegments.
  assert (Hparts : forallb isPlainResource ("" :: dirs ++ [res]) = true).
  { cbn [forallb]. rewrite forallb_app, (forallb_segment_resource dirs Hd).
    cbn [forallb]. rewrite Hr. reflexivity. }
  rewrite posixPathOf_join, (split_join_parts _ _ Hparts).
  rewrite (normalizeArray_parts _ _ Hparts).
  apply (segments_of_parts dirs res [] Hd eq_refl).
Qed.

Lemma isPrefixOf_samePartsLength (a b : list string) :
  isPrefixOf a b = (NodePath.samePartsLength a b =? List.length a)%nat.
Proof.
  revert b. induction a as [|x a IH]; intros [|y b]; try reflexivity.
  cbn [isPrefixOf NodePath.samePartsLength List.length].
  destruct (x =? y); [|reflexivity].
  cbn [andb]. rewrite IH. reflexivity.
Qed.

Lemma startsWith_dots_segment (x y : string) :
  isPlainSegment x = true ->
  JS.startsWith ".." (x ++ y) = JS.startsWith ".." x.
Proof.
  intros H. destruct (isPlainSegment_facts x H) as (_ & H1 & _).
  destruct x as [|c1 [|c2 x]].
  - discriminate H.
  - cbn [append]. rewrite !startsWith_cons.
    destruct (Ascii.eqb "." c1) eqn:E; [|reflexivity].
    apply Ascii.eqb_eq in E. subst c1. discriminate H1.
  - cbn [append]. rewrite !startsWith_cons. reflexivity.
Qed.

Lemma startsWith_dots_join (l : list string) :
  forallb isPlainSegment l = true ->
  JS.startsWith ".." (JS.join "/" l) = firstStartsWithDots l.
Proof.
  destruct l as [|x [|y l]]; try reflexivity.
  intros H. simpl in H. apply andb_true_iff in H as [Hx _].
  rewrite join_cons. apply (startsWith_dots_segment x _ Hx).
Qed.

Lemma startsWith_dots_ups (k : nat) (l : list string) :
  JS.startsWith ".." (JS.join "/" (repeat ".." (S k) ++ l)) = true.
Proof.
  cbn [repeat app].
  destruct (repeat ".." k ++ l)%list; reflexivity.
Qed.

(** X14.  On plain absolute POSIX paths the test of the loop selects a
    root exactly when the path is at or below the root and the first name
    below the root does not start with two dots. *)
Lemma selected_iff_below_without_dots (pr : NodePath.Process)
    (rootDirs pathDirs : list string) (rootRes pathRes : string) :
  forallb isPlainSegment rootDirs = true -> isPlainResource rootRes = true ->
  forallb isPlainSegment pathDirs = true -> isPlainResource pathRes = true ->
  let root := posixPathOf rootDirs rootRes in
  let path := posixPathOf pathDirs pathRes in
  JS.indexOf_ne_0 ".." (NodePath.posix.relative pr root path)
  = posixAtOrBelow root path
    && negb (firstStartsWithDots
               (skipn (List.length (posixSegments root)) (posixSegments path))).
Proof.
  intros Hrd Hrr Hpd Hpr. cbv zeta.
  rewrite indexOf_ne_0_startsWith.
  rewrite (posix_relative_plain pr rootDirs pathDirs rootRes pathRes
             Hrd Hrr Hpd Hpr).
  unfold posixAtOrBelow.
  rewrite (posixSegments_plain rootDirs rootRes Hrd Hrr).
  rewrite (posixSegments_plain pathDirs pathRes Hpd Hpr).
  pose proof (segmentsOf_plain rootDirs rootRes Hrd Hrr) as Hf.
  pose proof (segmentsOf_plain pathDirs pathRes Hpd Hpr) as Ht.
  set (f := segmentsOf rootDirs rootRes) in *.
  set (t := segmentsOf pathDirs pathRes) in *.
  rewrite isPrefixOf_samePartsLength.
  pose proof (samePartsLength_le_l f t) as Hle.
  destruct (NodePath.samePartsLength f t =? List.length f)%nat eqn:E.
  - apply Nat.eqb_eq in E. rewrite E, Nat.sub_diag. cbn [repeat app andb].
    rewrite (startsWith_dots_join _ (forallb_skipn _ _ _ Ht)). reflexivity.
  - apply Nat.eqb_neq in E.
    destruct (List.length f - NodePath.samePartsLength f t) as [|k] eqn:Ek;
      [lia|].
    rewrite startsWith_dots_ups. reflexivity.
Qed.

Lemma X14_witness :
  (forallb isPlainSegment ["var"] = true /\ isPlainResource "www" = true
   /\ forallb isPlainSegment ["var"; "www"; "src"] = true
   /\ isPlainResource "a.php" = true)
  /\ JS.indexOf_ne_0 ".."
       (NodePath.posix.relative posixProcess "/var/www" "/var/www/src/a.php")
     = posixAtOrBelow "/var/www" "/var/www/src/a.php"
       && negb (firstStartsWithDots
                  (skipn (List.length (posixSegments "/var/www"))
                         (posixSegments "/var/www/src/a.php"))).
Proof.
  split; [repeat split; reflexivity|].
  exact (selected_iff_below_without_dots posixProcess
           ["var"] ["var"; "www"; "src"] "www" "a.php"
           eq_refl eq_refl eq_refl eq_refl).
Defined.

(** X15.  From the server to the client, a server path that is the first
    root of the mapping (on a POSIX server) becomes the local root of that
    entry, resolved. *)
Lemma server_root_maps_to_its_client_root (pr : NodePath.Process)
    (u : NodeUrl.Url) (root localRoot : string) (others : PathMapping) :
  Urlencode.decode (pathnameString u) = Some root ->
  serverIsWindowsTest root = false ->
  JS.truthy root = true -> JS.truthy localRoot = true ->
  convertDebuggerPathToClient (node NodePath.Posix pr) (UriParsed u)
    (Some ((root, localRoot) :: others))
  = Some (NodePath.posix.resolve pr [localRoot]).
Proof.
  intros Hd Hw Hr Hl.
  rewrite convertDebuggerPathToClient_first.
  cbn [parsedUri decode node]. rewrite Hd. cbn [option_map].
  unfold serverToClientByFirstMatch, serverPathOf, serverRelative,
    firstMatchingEntry.
  rewrite Hw. cbn [find fst posix_relative node].
  assert (Hsame : NodePath.posix.relative pr root root = "").
  { unfold NodePath.posix.relative. rewrite String.eqb_refl. reflexivity. }
  rewrite Hsame.
  change (JS.startsWith ".." "") with false. cbn [negb].
  rewrite Hr, Hl. cbn [andb]. rewrite Hsame. reflexivity.
Qed.

Lemma X15_witness :
  (Urlencode.decode (pathnameString (NodeUrl.parse "file:///var/www" false))
   = Some "/var/www"
   /\ serverIsWindowsTest "/var/www" = false
   /\ JS.truthy "/var/www" = true /\ JS.truthy "/home/user/project/" = true)
  /\ convertDebuggerPathToClient (node NodePath.Posix posixProcess)
       (UriParsed (NodeUrl.parse "file:///var/www" false))
       (Some [("/var/www", "/home/user/project/")])
     = Some "/home/user/project".
Proof.
  split; [repeat split; reflexivity|].
  exact (server_root_maps_to_its_client_root posixProcess
           (NodeUrl.parse "file:///var/www" false)
           "/var/www" "/home/user/project/" []
           eq_refl eq_refl eq_refl eq_refl).
Defined.

(* ------------------------------------------------------------------ *)
(** ** What of the URI is read *)



(* ------------------------------------------------------------------ *)
(** ** The comparison of URIs as a relation *)

Lemma lower_char_idem (c : ascii) : JS.lower_char (JS.lower_char c) = JS.lower_char c.
Proof. destruct c as [[] [] [] [] [] [] [] []]; reflexivity. Qed.

Lemma isSameUri_refl (a : string) : isSameUri a a = true.
Proof.
  unfold isSameUri. destruct (isWindowsUri a || isWindowsUri a);
    apply String.eqb_refl.
Qed.

Lemma isSameUri_sym (a b : string) : isSameUri a b = isSameUri b a.
Proof.
  unfold isSameUri. rewrite (orb_comm (isWindowsUri a)).
  destruct (isWindowsUri b || isWindowsUri a); apply String.eqb_sym.
Qed.

Lemma isSameUri_lower (a b : string) :
  isSameUri a b = true -> JS.toLowerCase a = JS.toLowerCase b.
Proof.
  unfold isSameUri.
  destruct (isWindowsUri a || isWindowsUri b); intros H;
    apply String.eqb_eq in H; congruence.
Qed.

Lemma isSameUri_windows (a b : string) :
  isWindowsUri a || isWindowsUri b = true ->
  isSameUri a b = (JS.toLowerCase b =? JS.toLowerCase a).
Proof. intros H. unfold isSameUri. rewrite H. reflexivity. Qed.

(** X1.  [isSameUri] holds between a URI and itself, does not depend on
    which of the two URIs is the client's, and holds only between URIs
    that are equal once in lower case. *)
Theorem X1_isSameUri_reflexive_symmetric_up_to_case :
  (forall uri, isSameUri uri uri = true)
  /\ (forall clientUri debuggerUri,
         isSameUri clientUri debuggerUri = isSameUri debuggerUri clientUri)
  /\ (forall clientUri debuggerUri,
         isSameUri clientUri debuggerUri = true ->
         JS.toLowerCase clientUri = JS.toLowerCase debuggerUri).
Proof.
  split; [exact isSameUri_refl|].
  split; [exact isSameUri_sym|exact isSameUri_lower].
Qed.

Lemma X1_witness :
  isSameUri "file:///C:/Foo/Bar.php" "file:///c:/foo/bar.php" = true
  /\ JS.toLowerCase "file:///C:/Foo/Bar.php"
     = JS.toLowerCase "file:///c:/foo/bar.php".
Proof.
  split; [reflexivity|].
  exact (proj2 (proj2 X1_isSameUri_reflexive_symmetric_up_to_case)
           "file:///C:/Foo/Bar.php" "file:///c:/foo/bar.php" eq_refl).
Defined.

(** X2.  [isSameUri] is transitive except through a Windows URI between
    two URIs that are not: if [a] and [b] are the same and [b] and [c] are
    the same, then [a] and [c] are the same whenever [a] or [c] matches
    the Windows pattern or [b] does not.  Without that condition it is not
    transitive: [FILE:///C:/X] and [FILE:///c:/x] are both the same as
    [file:///c:/x] and are not the same as each other. *)
Theorem X2_isSameUri_transitivity :
  (forall a b c,
      isSameUri a b = true -> isSameUri b c = true ->
      isWindowsUri a || isWindowsUri c || negb (isWindowsUri b) = true ->
      isSameUri a c = true)
  /\ isSameUri "FILE:///C:/X" "file:///c:/x" = true
  /\ isSameUri "file:///c:/x" "FILE:///c:/x" = true
  /\ isSameUri "FILE:///C:/X" "FILE:///c:/x" = false.
Proof.
  split; [|repeat split; reflexivity].
  intros a b c Hab Hbc Hw.
  pose proof (isSameUri_lower a b Hab) as Lab.
  pose proof (isSameUri_lower b c Hbc) as Lbc.
  unfold isSameUri in *.
  destruct (isWindowsUri a) eqn:Wa; cbn [orb] in *.
  { destruct (isWindowsUri c); apply String.eqb_eq; congruence. }
  destruct (isWindowsUri c) eqn:Wc; cbn [orb] in *.
  { apply String.eqb_eq; congruence. }
  destruct (isWindowsUri b) eqn:Wb; cbn [orb negb] in *; [discriminate Hw|].
  apply String.eqb_eq in Hab, Hbc. apply String.eqb_eq. congruence.
Qed.

Lemma X2_witness :
  (isSameUri "file:///C:/X" "file:///c:/x" = true
   /\ isSameUri "file:///c:/x" "file:///c:/X" = true
   /\ isWindowsUri "file:///C:/X" || isWindowsUri "file:///c:/X"
      || negb (isWindowsUri "file:///c:/x") = true)
  /\ isSameUri "file:///C:/X" "file:///c:/X" = true.
Proof.
  split; [repeat split; reflexivity|].
  exact (proj1 X2_isSameUri_transitivity
           "file:///C:/X" "file:///c:/x" "file:///c:/X"
           eq_refl eq_refl eq_refl).
Defined.

(* ------------------------------------------------------------------ *)
(** ** The two drive-letter patterns *)

Lemma isWindowsUri_file_path (p : string) :
  isWindowsUri ("file://" ++ p) = serverIsWindowsTest p.
Proof.
  unfold isWindowsUri, serverIsWindowsTest.
  destruct p as [|c1 p]; [reflexivity|].
  cbn [append]. rewrite !startsWith_cons, !Ascii.eqb_refl.
  change (JS.startsWith "" p) with true.
  cbn [andb JS.slice_from]. unfold JS.chr_slash.
  rewrite (Ascii.eqb_sym "/"%char c1), andb_true_r.
  destruct (Ascii.eqb c1 "/") eqn:E1.
  - destruct p as [|c2 [|c3 [|c4 p]]]; reflexivity.
  - destruct p as [|c2 [|c3 [|c4 p]]]; reflexivity.
Qed.

Lemma isWindowsUri_prefix (s : string) :
  isWindowsUri s = true -> exists p, s = "file://" ++ p.
Proof.
  unfold isWindowsUri.
  destruct (JS.startsWith "file:///" s) eqn:Hp; [|discriminate].
  intros _. rewrite startsWith_prefix in Hp.
  apply String.prefix_correct in Hp. simpl in Hp.
  destruct s as [|a1 [|a2 [|a3 [|a4 [|a5 [|a6 [|a7 [|a8 t]]]]]]]];
    try discriminate.
  injection Hp as -> -> -> -> -> -> -> ->.
  exists (String "/" t). reflexivity.
Qed.

(** X3.  The two drive-letter patterns agree: a URI matches the pattern of
    [isWindowsUri] exactly when it is [file://] followed by a path that
    matches the pattern with which [convertDebuggerPathToClient] detects a
    Windows server. *)
Theorem X3_windows_uri_is_windows_path (s : string) :
  isWindowsUri s = true
  <-> exists p, s = "file://" ++ p /\ serverIsWindowsTest p = true.
Proof.
  split.
  - intros H. destruct (isWindowsUri_prefix s H) as [p ->].
    exists p. split; [reflexivity|].
    rewrite <- isWindowsUri_file_path. exact H.
  - intros (p & -> & H). rewrite isWindowsUri_file_path. exact H.
Qed.

(* ------------------------------------------------------------------ *)
(** ** The drive letter *)

Lemma lowerDriveLetter_cases (s : string) :
  lowerDriveLetter s = s
  \/ exists c r, JS.is_upper c = true
       /\ s = String c (String ":" (String "\" r))
       /\ lowerDriveLetter s = String (JS.lower_char c) (String ":" (String "\" r)).
Proof.
  destruct s as [|c [|c2 [|c3 r]]]; try (left; reflexivity).
  unfold lowerDriveLetter.
  destruct (JS.is_upper c) eqn:Hc; [|left; reflexivity].
  destruct (Ascii.eqb c2 JS.chr_colon) eqn:H2; [|left; reflexivity].
  destruct (Ascii.eqb c3 JS.chr_backslash) eqn:H3; [|left; reflexivity].
  apply Ascii.eqb_eq in H2, H3. subst c2 c3.
  right. exists c, r. repeat split. exact Hc.
Qed.

Lemma is_upper_lower_char (c : ascii) :
  JS.is_upper (JS.lower_char c) = false.
Proof. destruct c as [[] [] [] [] [] [] [] []]; reflexivity. Qed.

Lemma lowerDriveLetter_idem (s : string) :
  lowerDriveLetter (lowerDriveLetter s) = lowerDriveLetter s.
Proof.
  destruct (lowerDriveLetter_cases s) as [H|(c & r & Hc & -> & H)].
  - rewrite H. exact H.
  - rewrite H. unfold lowerDriveLetter at 1.
    rewrite is_upper_lower_char. reflexivity.
Qed.

Lemma toLowerCase_lowerDriveLetter (s : string) :
  JS.toLowerCase (lowerDriveLetter s) = JS.toLowerCase s.
Proof.
  destruct (lowerDriveLetter_cases s) as [H|(c & r & Hc & -> & H)].
  - rewrite H. reflexivity.
  - rewrite H. cbn [JS.toLowerCase]. rewrite lower_char_idem. reflexivity.
Qed.

Lemma substr1_lowerDriveLetter (s : string) :
  JS.substr1 (lowerDriveLetter s) = JS.substr1 s.
Proof.
  destruct (lowerDriveLetter_cases s) as [H|(c & r & Hc & -> & H)].
  - rewrite H. reflexivity.
  - rewrite H. reflexivity.
Qed.

(** X4.  The replacement [/^[A-Z]:\\/ -> lower case] changes nothing when
    applied again, changes at most the case of the first character, and
    leaves a drive letter that is followed by a slash as it is. *)
Theorem X4_lowerDriveLetter_only_first_letter (s : string) :
  lowerDriveLetter (lowerDriveLetter s) = lowerDriveLetter s
  /\ JS.toLowerCase (lowerDriveLetter s) = JS.toLowerCase s
  /\ JS.substr1 (lowerDriveLetter s) = JS.substr1 s
  /\ (forall c r, lowerDriveLetter (String c (String ":" (String "/" r)))
                  = String c (String ":" (String "/" r))).
Proof.
  split; [apply lowerDriveLetter_idem|].
  split; [apply toLowerCase_lowerDriveLetter|].
  split; [apply substr1_lowerDriveLetter|].
  intros c r. unfold lowerDriveLetter.
  change (Ascii.eqb "/" JS.chr_backslash) with false.
  rewrite andb_false_r. reflexivity.
Qed.

(* ------------------------------------------------------------------ *)
(** ** Without a selected entry *)

Lemma findSourceRoot_none (relativeTo : string -> string)
    (side : string * string -> string) (entries : PathMapping) :
  noneSelected relativeTo side entries = true ->
  findSourceRoot relativeTo side entries = None.
Proof.
  unfold noneSelected.
  induction entries as [|e rest IH]; [reflexivity|].
  cbn [forallb findSourceRoot]. intros H.
  apply andb_true_iff in H as [He Hrest].
  rewrite indexOf_ne_0_startsWith, He. exact (IH Hrest).
Qed.

(** X6.  When the relative path from every key of the mapping to the
    server path starts with [..], [convertDebuggerPathToClient] returns the
    normalised server path, as it does without a mapping and with an empty
    mapping. *)
Theorem X6_server_path_outside_every_root (rt : Runtime) (fileUri : FileUri)
    (entries : PathMapping) (decoded : string) :
  decode rt (pathnameString (parsedUri rt fileUri)) = Some decoded ->
  noneSelected
    (fun k => serverRelative rt decoded k (serverPathOf decoded)) fst entries
  = true ->
  convertDebuggerPathToClient rt fileUri (Some entries)
  = Some (path_normalize rt (serverPathOf decoded))
  /\ convertDebuggerPathToClient rt fileUri None
     = Some (path_normalize rt (serverPathOf decoded))
  /\ convertDebuggerPathToClient rt fileUri (Some [])
     = Some (path_normalize rt (serverPathOf decoded)).
Proof.
  intros Hd Hn.
  unfold convertDebuggerPathToClient, searchMapping. rewrite Hd.
  fold (serverPathOf decoded).
  change (if serverIsWindowsTest decoded then win32_relative rt
          else posix_relative rt) with (serverRelative rt decoded).
  rewrite (findSourceRoot_none _ _ _ Hn). repeat split.
Qed.

(** X7.  When the relative path from every local root of the mapping to
    the local path starts with [..], [convertClientPathToDebugger] returns
    the file URI of the local path (drive letter in lower case), as it
    does without a mapping and with an empty mapping. *)
Theorem X7_local_path_outside_every_root (rt : Runtime) (localPath : string)
    (entries : PathMapping) :
  noneSelected (fun v => path_relative rt v localPath) snd entries = true ->
  convertClientPathToDebugger rt localPath (Some entries)
  = Some (fileUrl rt (lowerDriveLetter localPath))
  /\ convertClientPathToDebugger rt localPath None
     = Some (fileUrl rt (lowerDriveLetter localPath))
  /\ convertClientPathToDebugger rt localPath (Some [])
     = Some (fileUrl rt (lowerDriveLetter localPath)).
Proof.
  intros Hn.
  unfold convertClientPathToDebugger, searchMapping.
  rewrite (findSourceRoot_none _ _ _ Hn). repeat split.
Qed.

Lemma X6_witness :
  (decode (node NodePath.Posix posixProcess)
     (pathnameString
        (parsedUri (node NodePath.Posix posixProcess)
           (UriString "file:///opt/app/a.php")))
   = Some "/opt/app/a.php"
   /\ noneSelected
        (fun k => serverRelative (node NodePath.Posix posixProcess)
                    "/opt/app/a.php" k (serverPathOf "/opt/app/a.php"))
        fst [("/var/www", "/home/user/project"); ("/srv", "/home/user/srv")]
      = true)
  /\ convertDebuggerPathToClient (node NodePath.Posix posixProcess)
       (UriString "file:///opt/app/a.php")
       (Some [("/var/www", "/home/user/project"); ("/srv", "/home/user/srv")])
     = Some "/opt/app/a.php".
Proof.
  split; [split; reflexivity|].
  exact (proj1 (X6_server_path_outside_every_root
                  (node NodePath.Posix posixProcess)
                  (UriString "file:///opt/app/a.php")
                  [("/var/www", "/home/user/project"); ("/srv", "/home/user/srv")]
                  "/opt/app/a.php" eq_refl eq_refl)).
Defined.

Lemma X7_witness :
  noneSelected
    (fun v => path_relative (node NodePath.Posix posixProcess) v
                "/home/user/other/a.php")
    snd [("/var/www", "/home/user/project"); ("/srv", "/home/user/srv")]
  = true
  /\ convertClientPathToDebugger (node NodePath.Posix posixProcess)
       "/home/user/other/a.php"
       (Some [("/var/www", "/home/user/project"); ("/srv", "/home/user/srv")])
     = Some "file:///home/user/other/a.php".
Proof.
  split; [reflexivity|].
  exact (proj1 (X7_local_path_outside_every_root
                  (node NodePath.Posix posixProcess) "/home/user/other/a.php"
                  [("/var/www", "/home/user/project"); ("/srv", "/home/user/srv")]
                  eq_refl)).
Defined.

(* ------------------------------------------------------------------ *)
(** ** An entry with an empty root *)

(** X8.  The loop stops at the first entry whose relative path does not
    start with [..] even when the key or the value of that entry is the
    empty string; the conversion then goes on as if there were no mapping,
    and the entries behind it are not tried. *)
Theorem X8_empty_root_hides_later_entries (rt : Runtime) :
  (forall fileUri entries decoded k v,
      decode rt (pathnameString (parsedUri rt fileUri)) = Some decoded ->
      firstMatchingEntry
        (fun k => serverRelative rt decoded k (serverPathOf decoded))
        fst entries = Some (k, v) ->
      JS.truthy k && JS.truthy v = false ->
      convertDebuggerPathToClient rt fileUri (Some entries)
      = convertDebuggerPathToClient rt fileUri None)
  /\ (forall localPath entries k v,
         firstMatchingEntry (fun v => path_relative rt v localPath) snd entries
         = Some (k, v) ->
         JS.truthy k && JS.truthy v = false ->
         convertClientPathToDebugger rt localPath (Some entries)
         = convertClientPathToDebugger rt localPath None).
Proof.
  split.
  - intros fileUri entries decoded k v Hd Hf Ht.
    rewrite convertDebuggerPathToClient_first, Hd. cbn [option_map].
    unfold serverToClientByFirstMatch. rewrite Hf, Ht.
    unfold convertDebuggerPathToClient. rewrite Hd. reflexivity.
  - intros localPath entries k v Hf Ht.
    rewrite convertClientPathToDebugger_first.
    unfold clientToServerByFirstMatch. rewrite Hf, Ht. reflexivity.
Qed.

Lemma X8_witness :
  (decode (node NodePath.Posix posixProcess)
     (pathnameString
        (parsedUri (node NodePath.Posix posixProcess)
           (UriString "file:///home/user/www/a.php")))
   = Some "/home/user/www/a.php"
   /\ firstMatchingEntry
        (fun k => serverRelative (node NodePath.Posix posixProcess)
                    "/home/user/www/a.php" k
                    (serverPathOf "/home/user/www/a.php"))
        fst [("", "/srv/local"); ("/home/user/www", "/srv/www")]
      = Some ("", "/srv/local")
   /\ firstMatchingEntry
        (fun v => path_relative (node NodePath.Posix posixProcess) v
                    "/home/user/project/a.php")
        snd [("/srv", ""); ("/var/www", "/home/user/project")]
      = Some ("/srv", ""))
  /\ convertDebuggerPathToClient (node NodePath.Posix posixProcess)
       (UriString "file:///home/user/www/a.php")
       (Some [("", "/srv/local"); ("/home/user/www", "/srv/www")])
     = Some "/home/user/www/a.php"
  /\ convertClientPathToDebugger (node NodePath.Posix posixProcess)
       "/home/user/project/a.php"
       (Some [("/srv", ""); ("/var/www", "/home/user/project")])
     = Some "file:///home/user/project/a.php".
Proof.
  split; [repeat split; reflexivity|].
  split.
  - exact (proj1 (X8_empty_root_hides_later_entries
                    (node NodePath.Posix posixProcess))
             (UriString "file:///home/user/www/a.php")
             [("", "/srv/local"); ("/home/user/www", "/srv/www")]
             "/home/user/www/a.php" "" "/srv/local" eq_refl eq_refl eq_refl).
  - exact (proj2 (X8_empty_root_hides_later_entries
                    (node NodePath.Posix posixProcess))
             "/home/user/project/a.php"
             [("/srv", ""); ("/var/www", "/home/user/project")]
             "/srv" "" eq_refl eq_refl).
Defined.

(* ------------------------------------------------------------------ *)
(** ** What [encodeURI] writes *)

Lemma encodeURI_app (a b : string) :
  FileUrl.encodeURI (a ++ b) = FileUrl.encodeURI a ++ FileUrl.encodeURI b.
Proof.
  induction a as [|c a IH]; [reflexivity|].
  cbn [append FileUrl.encodeURI]. rewrite IH.
  destruct (FileUrl.isUriUnescaped c); [reflexivity|].
  rewrite append_assoc. reflexivity.
Qed.

Lemma encodeURI_cons (c : ascii) (r : string) :
  FileUrl.encodeURI (String c r)
  = FileUrl.encodeURI (String c "") ++ FileUrl.encodeURI r.
Proof. apply (encodeURI_app (String c "") r). Qed.

Lemma autoEscapeStr_app (a b : string) :
  NodeUrl.autoEscapeStr (a ++ b)
  = NodeUrl.autoEscapeStr a ++ NodeUrl.autoEscapeStr b.
Proof.
  induction a as [|c a IH]; [reflexivity|].
  cbn [append NodeUrl.autoEscapeStr]. rewrite IH.
  destruct (NodeUrl.isAutoEscape c); [|reflexivity].
  rewrite append_assoc. reflexivity.
Qed.

Lemma encodeURI_char_safe (c : ascii) :
  NodeUrl.forallb_str notWs (FileUrl.encodeURI (String c "")) = true
  /\ NodeUrl.forallb_str notBackslash (FileUrl.encodeURI (String c "")) = true.
Proof. destruct c as [[] [] [] [] [] [] [] []]; split; reflexivity. Qed.

Lemma encodeURI_notWs (s : string) :
  NodeUrl.forallb_str notWs (FileUrl.encodeURI s) = true.
Proof.
  induction s as [|c s IH]; [reflexivity|].
  rewrite encodeURI_cons, forallb_str_app, IH.
  rewrite (proj1 (encodeURI_char_safe c)). reflexivity.
Qed.

Lemma encodeURI_notBackslash (s : string) :
  NodeUrl.forallb_str notBackslash (FileUrl.encodeURI s) = true.
Proof.
  induction s as [|c s IH]; [reflexivity|].
  rewrite encodeURI_cons, forallb_str_app, IH.
  rewrite (proj2 (encodeURI_char_safe c)). reflexivity.
Qed.

Lemma escaped_char_no_split (c : ascii) :
  NodeUrl.isSplit c = false ->
  NodeUrl.forallb_str (fun d => negb (NodeUrl.isSplit d))
    (NodeUrl.autoEscapeStr (FileUrl.encodeURI (String c ""))) = true
  /\ JS.mem_char "#" (FileUrl.encodeURI (String c "")) = false.
Proof.
  destruct c as [[] [] [] [] [] [] [] []]; vm_compute; intros H;
    try discriminate H; split; reflexivity.
Qed.

Lemma mem_char_app (c : ascii) (a b : string) :
  JS.mem_char c (a ++ b) = JS.mem_char c a || JS.mem_char c b.
Proof.
  induction a as [|d a IH]; [reflexivity|].
  cbn [append JS.mem_char]. rewrite IH, orb_assoc. reflexivity.
Qed.

Lemma escaped_no_split (s : string) :
  NodeUrl.forallb_str (fun d => negb (NodeUrl.isSplit d)) s = true ->
  NodeUrl.forallb_str (fun d => negb (NodeUrl.isSplit d))
    (NodeUrl.autoEscapeStr (FileUrl.encodeURI s)) = true
  /\ JS.mem_char "#" (FileUrl.encodeURI s) = false.
Proof.
  induction s as [|c s IH]; [split; reflexivity|].
  cbn [NodeUrl.forallb_str]. intros H.
  apply andb_true_iff in H as [Hc Hs]. apply negb_true_iff in Hc.
  destruct (IH Hs) as [IH1 IH2].
  destruct (escaped_char_no_split c Hc) as [H1 H2].
  rewrite encodeURI_cons, autoEscapeStr_app, forallb_str_app, mem_char_app.
  rewrite H1, IH1, H2, IH2. split; reflexivity.
Qed.

(** ** [decode] after [encodeURI] *)

Lemma escaped_char_shape (c : ascii) :
  isAscii c = true ->
  (NodeUrl.autoEscapeStr (FileUrl.encodeURI (String c "")) = String c ""
   /\ Ascii.eqb c "%" = false)
  \/ (exists h1 h2 d e,
        NodeUrl.autoEscapeStr (FileUrl.encodeURI (String c ""))
        = String "%" (String h1 (String h2 ""))
        /\ Urlencode.hexValue h1 = Some d
        /\ Urlencode.hexValue h2 = Some e
        /\ Urlencode.afterLead (16 * d + e) = Some Urlencode.Normal
        /\ ascii_of_nat (16 * d + e) = c).
Proof.
  destruct c as [[] [] [] [] [] [] [] []]; intros H; try discriminate H;
    first [ left; split; vm_compute; reflexivity
          | right; do 4 eexists; repeat split; vm_compute; reflexivity ].
Qed.

Lemma decode_escaped_char (c : ascii) (r : string) :
  isAscii c = true ->
  Urlencode.decode_from Urlencode.Normal
    (NodeUrl.autoEscapeStr (FileUrl.encodeURI (String c "")) ++ r)
  = option_map (String c) (Urlencode.decode_from Urlencode.Normal r).
Proof.
  intros H.
  destruct (escaped_char_shape c H)
    as [[-> Hne]|(h1 & h2 & d & e & -> & H1 & H2 & Hb & <-)].
  - cbn [append Urlencode.decode_from]. rewrite Hne. reflexivity.
  - cbn [append Urlencode.decode_from].
    change (Ascii.eqb "%" "%") with true. cbn iota.
    rewrite H1, H2. cbn [Urlencode.afterByte]. rewrite Hb. reflexivity.
Qed.

Lemma decode_escaped (s : string) :
  NodeUrl.forallb_str isAscii s = true ->
  Urlencode.decode (NodeUrl.autoEscapeStr (FileUrl.encodeURI s)) = Some s.
Proof.
  unfold Urlencode.decode, Urlencode.decodeURIComponent.
  induction s as [|c s IH]; [reflexivity|].
  cbn [NodeUrl.forallb_str]. intros H.
  apply andb_true_iff in H as [Hc Hs].
  rewrite encodeURI_cons, autoEscapeStr_app.
  rewrite (decode_escaped_char c _ Hc), (IH Hs). reflexivity.
Qed.


(** ** [url.parse] on the output of [fileUrl] *)

Lemma fileUrl_path (p : string) :
  FileUrl.fileUrl p = "file://" ++ FileUrl.encodeURI (fileUrlPath p).
Proof.
  unfold FileUrl.fileUrl, fileUrlPath. cbv zeta.
  rewrite encodeURI_app. reflexivity.
Qed.

Lemma fileUrlPath_slash (p : string) :
  exists q, fileUrlPath p = String "/" q.
Proof.
  unfold fileUrlPath. cbv zeta.
  destruct (JS.startsWith "/" (JS.replace_char JS.chr_backslash JS.chr_slash p)) eqn:E.
  - destruct (JS.replace_char JS.chr_backslash JS.chr_slash p) as [|c q];
      [discriminate E|].
    rewrite startsWith_cons in E. apply andb_true_iff in E as [E _].
    apply Ascii.eqb_eq in E. subst c. exists q. reflexivity.
  - eexists. reflexivity.
Qed.

Lemma parse_file_slash (e : string) (b : bool) :
  NodeUrl.forallb_str notWs e = true ->
  NodeUrl.forallb_str notBackslash e = true ->
  NodeUrl.parse ("file:///" ++ e) b
  = let rest := String "/" (NodeUrl.autoEscapeStr e) in
    let '(beforeHash, hashPart) := JS.span NodeUrl.notHash rest in
    let '(path, query) := JS.span NodeUrl.notQuestion beforeHash in
    {| NodeUrl.protocol := Some "file:"; NodeUrl.slashes := true;
       NodeUrl.auth := None; NodeUrl.host := Some ""; NodeUrl.port := None;
       NodeUrl.hostname := Some ""; NodeUrl.hash := NodeUrl.nonEmpty hashPart;
       NodeUrl.search := NodeUrl.nonEmpty query;
       NodeUrl.pathname := NodeUrl.nonEmpty path |}.
Proof.
  intros Hw Hb. unfold NodeUrl.parse.
  rewrite trimStart_id, trimEnd_id, convertBackslashes_id.
  2-4: rewrite forallb_str_app; apply andb_true_iff; split;
       [reflexivity|assumption].
  assert (Hs : (if negb b && negb (JS.mem_char "#" ("file:///" ++ e))
                then NodeUrl.simplePath ("file:///" ++ e) else None) = None).
  { destruct (negb b && negb (JS.mem_char "#" ("file:///" ++ e)));
      reflexivity. }
  rewrite Hs. clear Hs.
  destruct b; simpl.
  all: change (JS.startsWith "//" (String "/" (String "/" (String "/" e))))
         with true; simpl.
  all: destruct (JS.span NodeUrl.notHash (NodeUrl.autoEscapeStr e)) as [bh hp].
  all: simpl.
  all: destruct (JS.span NodeUrl.notQuestion bh) as [pa qu].
  all: reflexivity.
Qed.


Lemma parse_file_slash_path (e : string) (b : bool) :
  NodeUrl.forallb_str notWs e = true ->
  NodeUrl.forallb_str notBackslash e = true ->
  NodeUrl.forallb_str (fun d => negb (NodeUrl.isSplit d))
    (NodeUrl.autoEscapeStr e) = true ->
  NodeUrl.pathname (NodeUrl.parse ("file:///" ++ e) b)
  = Some (String "/" (NodeUrl.autoEscapeStr e)).
Proof.
  intros Hw Hb Hs. rewrite (parse_file_slash e b Hw Hb). cbv zeta.
  assert (H1 : NodeUrl.forallb_str NodeUrl.notHash
                 (String "/" (NodeUrl.autoEscapeStr e)) = true).
  { cbn [NodeUrl.forallb_str]. change (NodeUrl.notHash "/") with true.
    cbn [andb]. revert Hs. apply forallb_str_impl.
    intros c Hc. unfold NodeUrl.isSplit in Hc. unfold NodeUrl.notHash.
    destruct (Ascii.eqb c "#"); [|reflexivity].
    rewrite orb_true_r in Hc. discriminate Hc. }
  assert (H2 : NodeUrl.forallb_str NodeUrl.notQuestion
                 (String "/" (NodeUrl.autoEscapeStr e)) = true).
  { cbn [NodeUrl.forallb_str]. change (NodeUrl.notQuestion "/") with true.
    cbn [andb]. revert Hs. apply forallb_str_impl.
    intros c Hc. unfold NodeUrl.isSplit in Hc. unfold NodeUrl.notQuestion.
    destruct (Ascii.eqb c "?"); [discriminate Hc|reflexivity]. }
  rewrite (span_all _ _ H1), (span_all _ _ H2). reflexivity.
Qed.

(** The URI that [fileUrl] writes, as [file:///] and the rest. *)
Lemma fileUrl_shape (p : string) :
  exists q, fileUrlPath p = String "/" q
            /\ FileUrl.fileUrl p = "file:///" ++ FileUrl.encodeURI q.
Proof.
  destruct (fileUrlPath_slash p) as [q Hq]. exists q. split; [exact Hq|].
  rewrite fileUrl_path, Hq. reflexivity.
Qed.

Lemma forallb_str_replace (f : ascii -> bool) (c d : ascii) (s : string) :
  f d = true -> NodeUrl.forallb_str f s = true ->
  NodeUrl.forallb_str f (JS.replace_char c d s) = true.
Proof.
  intros Hd. induction s as [|x s IH]; [reflexivity|].
  cbn [NodeUrl.forallb_str JS.replace_char]. intros H.
  apply andb_true_iff in H as [Hx Hs]. rewrite (IH Hs).
  destruct (Ascii.eqb x c); [rewrite Hd|rewrite Hx]; reflexivity.
Qed.

Lemma fileUrlPath_forallb (f : ascii -> bool) (p : string) :
  f "/"%char = true -> NodeUrl.forallb_str f p = true ->
  NodeUrl.forallb_str f (fileUrlPath p) = true.
Proof.
  intros Hf H. unfold fileUrlPath. cbv zeta.
  pose proof (forallb_str_replace f JS.chr_backslash JS.chr_slash p Hf H) as Hr.
  destruct (JS.startsWith "/" _); [exact Hr|].
  cbn [append NodeUrl.forallb_str]. rewrite Hf. exact Hr.
Qed.

Lemma isAsciiPathChar_lower (c : ascii) :
  isAsciiPathChar c = true -> isAsciiPathChar (JS.lower_char c) = true.
Proof.
  destruct c as [[] [] [] [] [] [] [] []]; intros H; try discriminate H;
    reflexivity.
Qed.

Lemma lowerDriveLetter_forallb (s : string) :
  NodeUrl.forallb_str isAsciiPathChar s = true ->
  NodeUrl.forallb_str isAsciiPathChar (lowerDriveLetter s) = true.
Proof.
  intros H.
  destruct (lowerDriveLetter_cases s) as [->|(c & r & Hc & -> & ->)];
    [exact H|].
  cbn [NodeUrl.forallb_str] in *. apply andb_true_iff in H as [H1 H2].
  rewrite (isAsciiPathChar_lower c H1). exact H2.
Qed.

(** The path that [url.parse] reads in the output of [fileUrl] decodes to
    the path that [fileUrl] was given. *)
Lemma decode_pathname_fileUrl (p : string) (b : bool) :
  NodeUrl.forallb_str isAsciiPathChar p = true ->
  Urlencode.decode (pathnameString (NodeUrl.parse (FileUrl.fileUrl p) b))
  = Some (fileUrlPath p).
Proof.
  intros H.
  assert (Ha : NodeUrl.forallb_str isAscii (fileUrlPath p) = true).
  { apply fileUrlPath_forallb; [reflexivity|].
    revert H. apply forallb_str_impl. intros c Hc.
    apply andb_true_iff in Hc as [Hc _]. exact Hc. }
  assert (Hn : NodeUrl.forallb_str (fun d => negb (NodeUrl.isSplit d))
                 (fileUrlPath p) = true).
  { apply fileUrlPath_forallb; [reflexivity|].
    revert H. apply forallb_str_impl. intros c Hc.
    apply andb_true_iff in Hc as [_ Hc]. exact Hc. }
  destruct (fileUrl_shape p) as (q & Hq & Hu). rewrite Hu.
  rewrite Hq in Ha, Hn.
  cbn [NodeUrl.forallb_str] in Hn. apply andb_true_iff in Hn as [_ Hn].
  unfold pathnameString.
  rewrite (parse_file_slash_path _ b (encodeURI_notWs q)
             (encodeURI_notBackslash q) (proj1 (escaped_no_split q Hn))).
  rewrite Hq.
  change (String "/" (NodeUrl.autoEscapeStr (FileUrl.encodeURI q)))
    with (NodeUrl.autoEscapeStr (FileUrl.encodeURI (String "/" q))).
  apply decode_escaped. exact Ha.
Qed.

(** X12.  Without a mapping, on every platform, a local path of ASCII
    characters without [?] and [#] goes to the server and back as follows:
    [convertClientPathToDebugger] returns the file URI of the path with
    its drive letter in lower case, and [convertDebuggerPathToClient]
    turns that URI into the normalised form of the same path, written with
    slashes, with a slash in front unless it starts with a drive. *)
Theorem X12_round_trip_without_mapping (pf : NodePath.Platform)
    (pr : NodePath.Process) (localPath : string) :
  NodeUrl.forallb_str isAsciiPathChar localPath = true ->
  convertClientPathToDebugger (node pf pr) localPath None
  = Some (FileUrl.fileUrl (lowerDriveLetter localPath))
  /\ convertDebuggerPathToClient (node pf pr)
       (UriString (FileUrl.fileUrl (lowerDriveLetter localPath))) None
     = Some (NodePath.normalize pf
               (serverPathOf (fileUrlPath (lowerDriveLetter localPath)))).
Proof.
  intros H. split; [reflexivity|].
  unfold convertDebuggerPathToClient.
  cbn [parsedUri node url_parse decode].
  rewrite (decode_pathname_fileUrl _ false (lowerDriveLetter_forallb _ H)).
  reflexivity.
Qed.

Lemma X12_witness :
  NodeUrl.forallb_str isAsciiPathChar "C:\Users\me\my file.php" = true
  /\ convertClientPathToDebugger (node NodePath.Win32 windowsProcess)
       "C:\Users\me\my file.php" None
     = Some "file:///c:/Users/me/my%20file.php"
  /\ convertDebuggerPathToClient (node NodePath.Win32 windowsProcess)
       (UriString "file:///c:/Users/me/my%20file.php") None
     = Some "c:\Users\me\my file.php".
Proof.
  split; [reflexivity|].
  exact (X12_round_trip_without_mapping NodePath.Win32 windowsProcess
           "C:\Users\me\my file.php" eq_refl).
Defined.

(* ------------------------------------------------------------------ *)
(** ** A path that does not decode *)



(* ------------------------------------------------------------------ *)
(** ** A URI without a path *)



(* ------------------------------------------------------------------ *)
(** ** The relativization never fails on the output of [fileUrl] *)







(* ------------------------------------------------------------------ *)
(** ** Paths made of names *)

Lemma isNameChar_facts (c : ascii) :
  isNameChar c = true ->
  isPlainChar c = true
  /\ FileUrl.isUriUnescaped c = true
  /\ Ascii.eqb c JS.chr_backslash = false
  /\ isAsciiPathChar c = true
  /\ Ascii.eqb c JS.chr_colon = false.
Proof.
  destruct c as [[] [] [] [] [] [] [] []]; vm_compute; intros H;
    try discriminate H; repeat split.
Qed.

Lemma isNamePathChar_facts (c : ascii) :
  isNamePathChar c = true ->
  FileUrl.isUriUnescaped c = true
  /\ Ascii.eqb c JS.chr_backslash = false
  /\ isAsciiPathChar c = true
  /\ Ascii.eqb c JS.chr_colon = false.
Proof.
  destruct c as [[] [] [] [] [] [] [] []]; vm_compute; intros H;
    try discriminate H; repeat split.
Qed.

Lemma isNameSegment_plain (s : string) :
  isNameSegment s = true -> isPlainSegment s = true.
Proof.
  unfold isNameSegment, isPlainSegment. intros H.
  apply andb_true_iff in H as [H Hc]. rewrite H. cbn [andb].
  revert Hc. apply forallb_str_impl. intros c Hc.
  apply (isNameChar_facts c Hc).
Qed.

Lemma isNameResource_plain (s : string) :
  isNameResource s = true -> isPlainResource s = true.
Proof.
  unfold isNameResource, isPlainResource. intros H.
  apply orb_true_iff in H as [H|H]; [rewrite H; reflexivity|].
  rewrite (isNameSegment_plain s H). apply orb_true_r.
Qed.

Lemma forallb_name_plain (l : list string) :
  forallb isNameSegment l = true -> forallb isPlainSegment l = true.
Proof.
  induction l as [|x l IH]; [reflexivity|]. cbn [forallb]. intros H.
  apply andb_true_iff in H as [Hx Hl].
  rewrite (isNameSegment_plain x Hx), (IH Hl). reflexivity.
Qed.

Lemma isNameSegment_chars (s : string) :
  isNameSegment s = true -> NodeUrl.forallb_str isNamePathChar s = true.
Proof.
  unfold isNameSegment. intros H. apply andb_true_iff in H as [_ Hc].
  revert Hc. apply forallb_str_impl. intros c Hc.
  unfold isNamePathChar. rewrite Hc. reflexivity.
Qed.

Lemma isNameResource_chars (s : string) :
  isNameResource s = true -> NodeUrl.forallb_str isNamePathChar s = true.
Proof.
  unfold isNameResource. intros H.
  apply orb_true_iff in H as [H|H]; [|apply isNameSegment_chars, H].
  destruct s; [reflexivity|discriminate H].
Qed.

Lemma dirsString_nameChars (dirs : list string) :
  forallb isNameSegment dirs = true ->
  NodeUrl.forallb_str isNamePathChar (dirsString dirs) = true.
Proof.
  induction dirs as [|d dirs IH]; [reflexivity|]. cbn [forallb dirsString].
  intros H. apply andb_true_iff in H as [Hd Hs].
  rewrite !forallb_str_app, (isNameSegment_chars d Hd), (IH Hs). reflexivity.
Qed.

Lemma posixPathOf_nameChars (dirs : list string) (res : string) :
  forallb isNameSegment dirs = true -> isNameResource res = true ->
  NodeUrl.forallb_str isNamePathChar (posixPathOf dirs res) = true.
Proof.
  intros Hd Hr. unfold posixPathOf.
  rewrite !forallb_str_app, (dirsString_nameChars dirs Hd),
    (isNameResource_chars res Hr). reflexivity.
Qed.

Lemma replace_char_id (s : string) :
  NodeUrl.forallb_str isNamePathChar s = true ->
  JS.replace_char JS.chr_backslash JS.chr_slash s = s.
Proof.
  induction s as [|c s IH]; [reflexivity|].
  cbn [NodeUrl.forallb_str JS.replace_char]. intros H.
  apply andb_true_iff in H as [Hc Hs].
  destruct (isNamePathChar_facts c Hc) as (_ & -> & _).
  rewrite (IH Hs). reflexivity.
Qed.

Lemma encodeURI_id (s : string) :
  NodeUrl.forallb_str isNamePathChar s = true -> FileUrl.encodeURI s = s.
Proof.
  induction s as [|c s IH]; [reflexivity|].
  cbn [NodeUrl.forallb_str FileUrl.encodeURI]. intros H.
  apply andb_true_iff in H as [Hc Hs].
  destruct (isNamePathChar_facts c Hc) as (-> & _).
  rewrite (IH Hs). reflexivity.
Qed.

Lemma fileUrlPath_posixPathOf (dirs : list string) (res : string) :
  forallb isNameSegment dirs = true -> isNameResource res = true ->
  fileUrlPath (posixPathOf dirs res) = posixPathOf dirs res.
Proof.
  intros Hd Hr. unfold fileUrlPath. cbv zeta.
  rewrite (replace_char_id _ (posixPathOf_nameChars dirs res Hd Hr)).
  reflexivity.
Qed.

Lemma fileUrl_posixPathOf (dirs : list string) (res : string) :
  forallb isNameSegment dirs = true -> isNameResource res = true ->
  FileUrl.fileUrl (posixPathOf dirs res) = fileUriOf dirs res.
Proof.
  intros Hd Hr.
  rewrite fileUrl_path, (fileUrlPath_posixPathOf dirs res Hd Hr).
  rewrite (encodeURI_id _ (posixPathOf_nameChars dirs res Hd Hr)).
  reflexivity.
Qed.

Lemma lowerDriveLetter_posixPathOf (dirs : list string) (res : string) :
  lowerDriveLetter (posixPathOf dirs res) = posixPathOf dirs res.
Proof.
  unfold posixPathOf, lowerDriveLetter. cbn [append].
  destruct (dirsString dirs ++ res) as [|c2 [|c3 r]]; reflexivity.
Qed.

Lemma serverIsWindowsTest_posixPathOf (dirs : list string) (res : string) :
  forallb isNameSegment dirs = true -> isNameResource res = true ->
  serverIsWindowsTest (posixPathOf dirs res) = false.
Proof.
  intros Hd Hr. pose proof (posixPathOf_nameChars dirs res Hd Hr) as H.
  unfold serverIsWindowsTest.
  destruct (posixPathOf dirs res) as [|c1 [|c2 [|c3 [|c4 r]]]]; try reflexivity.
  cbn [NodeUrl.forallb_str] in H.
  apply andb_true_iff in H as [_ H]. apply andb_true_iff in H as [_ H].
  apply andb_true_iff in H as [H3 _].
  destruct (isNamePathChar_facts c3 H3) as (_ & _ & _ & ->).
  rewrite andb_false_r. reflexivity.
Qed.

Lemma last_char_app (a : string) (c : ascii) (r : string) :
  JS.last_char (a ++ String c r) = JS.last_char (String c r).
Proof.
  induction a as [|d a IH]; [reflexivity|].
  cbn [append]. change (JS.last_char (String d (a ++ String c r)))
    with (match a ++ String c r with
          | EmptyString => Some d
          | _ => JS.last_char (a ++ String c r)
          end).
  destruct (a ++ String c r) eqn:E; [destruct a; discriminate E|].
  exact IH.
Qed.

Lemma last_char_plain (s : string) :
  NodeUrl.forallb_str isPlainChar s = true ->
  JS.endsWithChar JS.chr_slash s = false.
Proof.
  unfold JS.endsWithChar.
  induction s as [|c s IH]; [reflexivity|].
  cbn [NodeUrl.forallb_str]. intros H. apply andb_true_iff in H as [Hc Hs].
  destruct s as [|d s].
  - cbn [JS.last_char]. pose proof (isPlainChar_not_slash c Hc) as Hn.
    unfold NodePath.isPosixSep in Hn. rewrite Ascii.eqb_sym. exact Hn.
  - apply (IH Hs).
Qed.

Lemma endsWithChar_app_cons (a : string) (c : ascii) (r : string) (x : ascii) :
  JS.endsWithChar x (a ++ String c r) = JS.endsWithChar x (String c r).
Proof. unfold JS.endsWithChar. rewrite last_char_app. reflexivity. Qed.

Lemma withTrailingSlash_fileUriOf (dirs : list string) (res : string) :
  forallb isPlainSegment dirs = true -> isPlainResource res = true ->
  withTrailingSlash (fileUriOf dirs res) = fileUriOf (segmentsOf dirs res) "".
Proof.
  intros Hd Hr. unfold withTrailingSlash, fileUriOf, segmentsOf.
  destruct (isPlainResource_cases res Hr) as [-> | Hseg].
  - cbn [JS.truthy]. rewrite app_nil_r, append_nil_r.
    destruct (slash_dirsString_ends dirs) as [x Hx].
    change ("file:///" ++ dirsString dirs)
      with ("file://" ++ ("/" ++ dirsString dirs)).
    rewrite Hx, <- append_assoc.
    rewrite (endsWithChar_app JS.chr_slash). reflexivity.
  - destruct (isPlainSegment_facts res Hseg) as (Ht & _ & _ & _ & Hc).
    rewrite Ht.
    destruct res as [|c r]; [discriminate Ht|].
    rewrite <- append_assoc, endsWithChar_app_cons.
    rewrite (last_char_plain _ Hc).
    rewrite dirsString_app. cbn [dirsString].
    rewrite !append_assoc. rewrite !append_nil_r. reflexivity.
Qed.

Lemma samePartsLength_app (a b : list string) :
  NodePath.samePartsLength a (a ++ b) = List.length a.
Proof.
  induction a as [|x a IH]; [destruct b; reflexivity|].
  cbn [app NodePath.samePartsLength List.length].
  rewrite String.eqb_refl, IH. reflexivity.
Qed.

Lemma relatePath_below (root sub : list string) :
  RelateUrl.relatePath (root ++ sub) root = sub.
Proof.
  unfold RelateUrl.relatePath.
  rewrite samePartsLength_app, Nat.sub_diag, skipn_app, skipn_all, Nat.sub_diag.
  reflexivity.
Qed.



Lemma join_app (a b : list string) :
  a <> [] -> b <> [] ->
  JS.join "/" (a ++ b) = JS.join "/" a ++ "/" ++ JS.join "/" b.
Proof.
  intros Ha Hb. induction a as [|x a IH]; [contradiction|].
  destruct a as [|y a].
  - cbn [app]. destruct b as [|z b]; [contradiction|]. reflexivity.
  - change ((x :: y :: a) ++ b)%list with (x :: (y :: a) ++ b)%list.
    cbn [app]. rewrite !join_cons.
    change (y :: (a ++ b))%list with ((y :: a) ++ b)%list.
    rewrite IH by discriminate. rewrite !append_assoc. reflexivity.
Qed.

Ltac not_nil :=
  let E := fresh "E" in
  intros E; apply (f_equal (@List.length string)) in E;
  repeat rewrite length_app in E; cbn [List.length] in E; lia.

(** The resolution of the names below a root against the root. *)
Lemma posix_resolve_below (pr : NodePath.Process) (rootDirs sub : list string)
    (rootRes file : string) :
  forallb isPlainSegment rootDirs = true -> isPlainResource rootRes = true ->
  forallb isPlainSegment sub = true -> isPlainSegment file = true ->
  NodePath.posix.resolve pr
    [posixPathOf rootDirs rootRes; JS.join "/" (sub ++ [file])]
  = posixPathOf (segmentsOf rootDirs rootRes ++ sub) file.
Proof.
  intros Hd Hr Hs Hf.
  assert (Hx : forallb isPlainSegment (sub ++ [file]) = true).
  { rewrite forallb_app, Hs. cbn [forallb]. rewrite Hf. reflexivity. }
  assert (Hne : (JS.join "/" (sub ++ [file]) =? "") = false).
  { rewrite join_slash_dirsString.
    destruct (isPlainSegment_facts file Hf) as (Ht & _).
    destruct file as [|c f]; [discriminate Ht|].
    destruct (dirsString sub); reflexivity. }
  assert (Hrel : NodePath.posix.isAbsolute (JS.join "/" (sub ++ [file])) = false).
  { pose proof (reference_not_rooted sub file (forallb_plain_ref sub Hs)
                  (isPlainSegment_isPlainResource file Hf)) as H.
    rewrite join_slash_dirsString.
    destruct (dirsString sub ++ file) as [|c r]; [reflexivity|].
    rewrite startsWith_cons in H. apply andb_false_iff in H as [H|H];
      [|discriminate H].
    cbn [NodePath.posix.isAbsolute]. unfold NodePath.isPosixSep.
    rewrite Ascii.eqb_sym. exact H. }
  unfold NodePath.posix.resolve.
  cbn [rev app NodePath.posix.resolve_loop].
  rewrite Hne, Hrel.
  change (posixPathOf rootDirs rootRes =? "") with false.
  change (NodePath.posix.isAbsolute (posixPathOf rootDirs rootRes)) with true.
  cbn iota. cbn [negb].
  assert (Hparts : forallb isPlainResource
                     (("" :: rootDirs ++ [rootRes]) ++ (sub ++ [file]) ++ [""])
                   = true).
  { cbn [app forallb]. rewrite !forallb_app.
    rewrite (forallb_segment_resource rootDirs Hd).
    rewrite (forallb_segment_resource sub Hs).
    cbn [forallb]. rewrite Hr, (isPlainSegment_isPlainResource file Hf).
    reflexivity. }
  assert (Hstr : posixPathOf rootDirs rootRes ++ "/"
                 ++ JS.join "/" (sub ++ [file]) ++ "/" ++ ""
                 = JS.join "/" (("" :: rootDirs ++ [rootRes])
                                ++ (sub ++ [file]) ++ [""])).
  { rewrite (join_app ("" :: rootDirs ++ [rootRes]) ((sub ++ [file]) ++ [""]));
      [|not_nil|not_nil].
    rewrite <- posixPathOf_join.
    rewrite (join_app (sub ++ [file]) [""]); [|not_nil|not_nil].
    reflexivity. }
  rewrite Hstr. cbn [app] in Hparts |- *.
  rewrite (split_join_parts _ _ Hparts).
  rewrite (normalizeArray_parts _ _ Hparts).
  cbn [filter JS.truthy]. rewrite !filter_app.
  rewrite (filter_truthy_plain rootDirs Hd), (filter_truthy_plain sub Hs).
  destruct (isPlainSegment_facts file Hf) as (Ht & _).
  cbn [filter]. rewrite Ht. cbn [JS.truthy app].
  unfold posixPathOf, segmentsOf, JS.or_else.
  assert (Hj : forall l, JS.join "/" (l ++ [file]) = dirsString l ++ file)
    by (intros l; apply join_slash_dirsString).
  destruct (JS.truthy rootRes) eqn:Hrr.
  - rewrite app_nil_r, app_assoc, Hj. reflexivity.
  - cbn [app]. rewrite !app_nil_r, app_assoc, Hj. reflexivity.
Qed.

(* ------------------------------------------------------------------ *)
(** ** Through a mapped root and back *)





(* ------------------------------------------------------------------ *)
(** ** The drive letter and the comparison of URIs *)

Lemma is_upper_facts (c : ascii) :
  JS.is_upper c = true ->
  JS.is_alpha c = true
  /\ Ascii.eqb c JS.chr_backslash = false
  /\ Ascii.eqb "/" c = false
  /\ FileUrl.isUriUnescaped c = true
  /\ Ascii.eqb (JS.lower_char c) JS.chr_backslash = false
  /\ Ascii.eqb "/" (JS.lower_char c) = false
  /\ FileUrl.isUriUnescaped (JS.lower_char c) = true.
Proof.
  destruct c as [[] [] [] [] [] [] [] []]; vm_compute; intros H;
    try discriminate H; repeat split.
Qed.

Lemma fileUrl_drive (c : ascii) (r : string) :
  Ascii.eqb c JS.chr_backslash = false -> Ascii.eqb "/" c = false ->
  FileUrl.isUriUnescaped c = true ->
  FileUrl.fileUrl (String c (String ":" (String "\" r)))
  = "file:///" ++ String c (String ":" (String "/"
      (FileUrl.encodeURI
         (JS.replace_char JS.chr_backslash JS.chr_slash r)))).
Proof.
  intros H1 H2 H3. rewrite fileUrl_path. unfold fileUrlPath.
  cbn [JS.replace_char]. rewrite H1.
  change (Ascii.eqb ":" JS.chr_backslash) with false.
  change (Ascii.eqb "\" JS.chr_backslash) with true. cbv zeta. cbn iota.
  rewrite startsWith_cons, H2. cbn [andb].
  cbn [append FileUrl.encodeURI].
  change (FileUrl.isUriUnescaped "/") with true.
  change (FileUrl.isUriUnescaped ":") with true.
  change (FileUrl.isUriUnescaped JS.chr_slash) with true.
  rewrite H3. reflexivity.
Qed.

Lemma isSameUri_fileUrl_lowerDriveLetter (p : string) :
  isSameUri (FileUrl.fileUrl p) (FileUrl.fileUrl (lowerDriveLetter p)) = true.
Proof.
  destruct (lowerDriveLetter_cases p) as [->|(c & r & Hc & -> & ->)];
    [apply isSameUri_refl|].
  destruct (is_upper_facts c Hc) as (Ha & H1 & H2 & H3 & H4 & H5 & H6).
  rewrite (fileUrl_drive c r H1 H2 H3).
  rewrite (fileUrl_drive (JS.lower_char c) r H4 H5 H6).
  rewrite isSameUri_windows.
  - cbn [append JS.toLowerCase]. rewrite lower_char_idem.
    apply String.eqb_refl.
  - unfold isWindowsUri at 1.
    change (JS.startsWith "file:///" ("file:///" ++ ?x)) with true.
    cbn [append JS.slice_from]. rewrite Ha. reflexivity.
Qed.

(** X5.  Without a mapping [convertClientPathToDebugger] returns the file
    URI of the path with its drive letter in lower case; for [isSameUri]
    this is the same URI as the file URI of the path as it is written, and
    a path whose drive letter is already in lower case gives the same
    result. *)
Theorem X5_lowered_drive_letter_is_same_uri (pf : NodePath.Platform)
    (pr : NodePath.Process) (localPath : string) :
  convertClientPathToDebugger (node pf pr) localPath None
  = Some (FileUrl.fileUrl (lowerDriveLetter localPath))
  /\ isSameUri (FileUrl.fileUrl localPath)
       (FileUrl.fileUrl (lowerDriveLetter localPath)) = true
  /\ convertClientPathToDebugger (node pf pr) (lowerDriveLetter localPath) None
     = convertClientPathToDebugger (node pf pr) localPath None.
Proof.
  split; [reflexivity|].
  split; [apply isSameUri_fileUrl_lowerDriveLetter|].
  unfold convertClientPathToDebugger. cbn [searchMapping option_map bothRoots].
  rewrite lowerDriveLetter_idem. reflexivity.
Qed.

(* ------------------------------------------------------------------ *)
(** ** Directories below a mapped root *)

Lemma segmentsOf_app (dirs sub : list string) (res : string) :
  segmentsOf (dirs ++ sub) res = (dirs ++ segmentsOf sub res)%list.
Proof. unfold segmentsOf. rewrite app_assoc. reflexivity. Qed.

Lemma posix_relative_under (pr : NodePath.Process) (rootDirs sub : list string)
    (rootRes res : string) :
  forallb isPlainSegment rootDirs = true -> isPlainResource rootRes = true ->
  forallb isPlainSegment sub = true -> isPlainResource res = true ->
  NodePath.posix.relative pr (posixPathOf rootDirs rootRes)
    (posixPathOf (segmentsOf rootDirs rootRes ++ sub) res)
  = JS.join "/" (segmentsOf sub res).
Proof.
  intros Hd Hr Hs Hf.
  pose proof (segmentsOf_plain rootDirs rootRes Hd Hr) as Hroot.
  rewrite (posix_relative_plain pr rootDirs (segmentsOf rootDirs rootRes ++ sub)
             rootRes res Hd Hr).
  - rewrite segmentsOf_app.
    rewrite samePartsLength_app, Nat.sub_diag, skipn_app, skipn_all,
      Nat.sub_diag.
    reflexivity.
  - rewrite forallb_app, Hroot, Hs. reflexivity.
  - exact Hf.
Qed.

Lemma forallb_removelast {A} (f : A -> bool) (l : list A) :
  forallb f l = true -> forallb f (removelast l) = true.
Proof.
  induction l as [|x l IH]; [reflexivity|]. cbn [forallb]. intros H.
  apply andb_true_iff in H as [Hx Hl].
  destruct l as [|y l]; [reflexivity|].
  change (removelast (x :: y :: l)) with (x :: removelast (y :: l)).
  cbn [forallb]. rewrite Hx, (IH Hl). reflexivity.
Qed.

Lemma forallb_last (f : string -> bool) (l : list string) (d : string) :
  l <> [] -> forallb f l = true -> f (last l d) = true.
Proof.
  induction l as [|x l IH]; [contradiction|]. intros _ H.
  cbn [forallb] in H. apply andb_true_iff in H as [Hx Hl].
  destruct l as [|y l]; [exact Hx|].
  change (last (x :: y :: l) d) with (last (y :: l) d).
  apply IH; [discriminate|exact Hl].
Qed.

Lemma posix_resolve_under (pr : NodePath.Process) (rootDirs segs : list string)
    (rootRes : string) :
  forallb isPlainSegment rootDirs = true -> isPlainResource rootRes = true ->
  forallb isPlainSegment segs = true ->
  NodePath.posix.resolve pr [posixPathOf rootDirs rootRes; JS.join "/" segs]
  = "/" ++ JS.join "/" (segmentsOf rootDirs rootRes ++ segs).
Proof.
  intros Hd Hr Hs.
  destruct segs as [|x segs'] eqn:E.
  - rewrite app_nil_r, <- (posix_resolve_plain pr rootDirs rootRes Hd Hr).
    reflexivity.
  - rewrite <- E in *. assert (Hne : segs <> []) by (rewrite E; discriminate).
    clear E x segs'.
    rewrite (app_removelast_last "" Hne).
    rewrite (posix_resolve_below pr rootDirs (removelast segs) rootRes
               (last segs "") Hd Hr (forallb_removelast _ _ Hs)
               (forallb_last _ _ _ Hne Hs)).
    unfold posixPathOf. rewrite app_assoc, join_slash_dirsString.
    reflexivity.
Qed.

(** X17.  On a POSIX client, a directory below the local root of the first
    entry, written with its trailing slash (the root itself included),
    goes to the URI of the same directory below the server root, trailing
    slash included; on the way back [convertDebuggerPathToClient] returns
    the local directory without the trailing slash. *)
Theorem X17_directory_through_mapped_root (pr : NodePath.Process)
    (serverDirs localDirs sub : list string) (serverRes localRes : string)
    (others : PathMapping) :
  forallb isNameSegment serverDirs = true -> isNameResource serverRes = true ->
  forallb isNameSegment localDirs = true -> isNameResource localRes = true ->
  forallb isNameSegment sub = true ->
  firstStartsWithDots sub = false ->
  convertClientPathToDebugger (node NodePath.Posix pr)
    (posixPathOf (segmentsOf localDirs localRes ++ sub) "")
    (Some ((posixPathOf serverDirs serverRes, posixPathOf localDirs localRes)
             :: others))
  = Some (fileUriOf (segmentsOf serverDirs serverRes ++ sub) "")
  /\ convertDebuggerPathToClient (node NodePath.Posix pr)
       (UriString (fileUriOf (segmentsOf serverDirs serverRes ++ sub) ""))
       (Some ((posixPathOf serverDirs serverRes, posixPathOf localDirs localRes)
                :: others))
     = Some ("/" ++ JS.join "/" (segmentsOf localDirs localRes ++ sub)).
Proof.
  intros Hsd Hsr Hld Hlr Hsub Hdots.
  pose proof (forallb_name_plain _ Hsd) as Psd.
  pose proof (isNameResource_plain _ Hsr) as Psr.
  pose proof (forallb_name_plain _ Hld) as Pld.
  pose proof (isNameResource_plain _ Hlr) as Plr.
  pose proof (forallb_name_plain _ Hsub) as Psub.
  pose proof (segmentsOf_plain _ _ Psd Psr) as PS.
  pose proof (segmentsOf_plain _ _ Pld Plr) as PL.
  assert (NL : forallb isNameSegment (segmentsOf localDirs localRes ++ sub)
               = true).
  { unfold segmentsOf. rewrite !forallb_app, Hld, Hsub.
    unfold isNameResource in Hlr.
    destruct (JS.truthy localRes); [|reflexivity].
    cbn [negb orb] in Hlr. cbn [forallb]. rewrite Hlr. reflexivity. }
  assert (NS : forallb isNameSegment (segmentsOf serverDirs serverRes ++ sub)
               = true).
  { unfold segmentsOf. rewrite !forallb_app, Hsd, Hsub.
    unfold isNameResource in Hsr.
    destruct (JS.truthy serverRes); [|reflexivity].
    cbn [negb orb] in Hsr. cbn [forallb]. rewrite Hsr. reflexivity. }
  assert (PLs : forallb isPlainSegment (segmentsOf localDirs localRes ++ sub)
                = true) by (rewrite forallb_app, PL, Psub; reflexivity).
  assert (PSs : forallb isPlainSegment (segmentsOf serverDirs serverRes ++ sub)
                = true) by (rewrite forallb_app, PS, Psub; reflexivity).
  assert (Hseg : segmentsOf sub "" = sub).
  { unfold segmentsOf. cbn [JS.truthy]. apply app_nil_r. }
  split.
  - rewrite convertClientPathToDebugger_first.
    unfold clientToServerByFirstMatch, firstMatchingEntry.
    cbn [find snd node path_relative NodePath.relative fileUrl].
    rewrite (posix_relative_under pr localDirs sub localRes "" Pld Plr Psub
               eq_refl).
    rewrite Hseg, (startsWith_dots_join _ Psub), Hdots. cbn [negb].
    change (JS.truthy (posixPathOf serverDirs serverRes)) with true.
    change (JS.truthy (posixPathOf localDirs localRes)) with true.
    cbn [andb].
    rewrite !lowerDriveLetter_posixPathOf.
    rewrite (fileUrl_posixPathOf _ "" NL eq_refl).
    rewrite (fileUrl_posixPathOf _ _ Hsd Hsr), (fileUrl_posixPathOf _ _ Hld Hlr).
    rewrite (withTrailingSlash_fileUriOf _ _ Psd Psr).
    rewrite (withTrailingSlash_fileUriOf _ _ Pld Plr).
    unfold relativeUrl. cbn [RelateUrl_relate url_resolve node].
    rewrite (relate_file_uris _ _ "" PL PLs eq_refl).
    rewrite relatePath_below. cbn [option_map].
    rewrite <- (relatePath_below (segmentsOf serverDirs serverRes) sub) at 1.
    rewrite (resolve_reference _ _ "" PS PSs eq_refl).
    reflexivity.
  - rewrite convertDebuggerPathToClient_first.
    cbn [parsedUri node url_parse decode].
    rewrite <- (fileUrl_posixPathOf _ "" NS eq_refl).
    rewrite decode_pathname_fileUrl.
    2:{ generalize (posixPathOf_nameChars _ "" NS eq_refl).
        apply forallb_str_impl. intros c Hc.
        apply (isNamePathChar_facts c Hc). }
    rewrite (fileUrlPath_posixPathOf _ "" NS eq_refl). cbn [option_map].
    unfold serverToClientByFirstMatch, serverPathOf, serverRelative,
      firstMatchingEntry.
    rewrite (serverIsWindowsTest_posixPathOf _ "" NS eq_refl).
    cbn [find fst].
    change (posix_relative (node NodePath.Posix pr))
      with (NodePath.posix.relative pr).
    change (path_resolve (node NodePath.Posix pr))
      with (NodePath.posix.resolve pr).
    rewrite (posix_relative_under pr serverDirs sub serverRes "" Psd Psr Psub
               eq_refl).
    rewrite Hseg, (startsWith_dots_join _ Psub), Hdots. cbn [negb].
    change (JS.truthy (posixPathOf serverDirs serverRes)) with true.
    change (JS.truthy (posixPathOf localDirs localRes)) with true.
    cbn [andb].
    rewrite (posix_relative_under pr serverDirs sub serverRes "" Psd Psr Psub
               eq_refl).
    rewrite Hseg, (posix_resolve_under pr localDirs sub localRes Pld Plr Psub).
    reflexivity.
Qed.

Lemma X17_witness :
  (forallb isNameSegment ["var"; "www"] = true /\ isNameResource "" = true
   /\ forallb isNameSegment ["home"; "user"] = true
   /\ isNameResource "project" = true
   /\ forallb isNameSegment ["src"] = true
   /\ firstStartsWithDots ["src"] = false)
  /\ convertClientPathToDebugger (node NodePath.Posix posixProcess)
       "/home/user/project/src/"
       (Some [("/var/www/", "/home/user/project")])
     = Some "file:///var/www/src/"
  /\ convertDebuggerPathToClient (node NodePath.Posix posixProcess)
       (UriString "file:///var/www/src/")
       (Some [("/var/www/", "/home/user/project")])
     = Some "/home/user/project/src".
Proof.
  split; [repeat split; reflexivity|].
  exact (X17_directory_through_mapped_root posixProcess
           ["var"; "www"] ["home"; "user"] ["src"] "" "project" []
           eq_refl eq_refl eq_refl eq_refl eq_refl eq_refl).
Defined.

(* ------------------------------------------------------------------ *)
(** ** The local root without its trailing slash *)





(* ------------------------------------------------------------------ *)
(** ** A path with a question mark or a hash *)


Lemma span_fst_forallb (f g : ascii -> bool) (s : string) :
  NodeUrl.forallb_str g s = true ->
  NodeUrl.forallb_str g (fst (JS.span f s)) = true.
Proof.
  induction s as [|c s IH]; [reflexivity|].
  cbn [NodeUrl.forallb_str JS.span]. intros H.
  apply andb_true_iff in H as [Hc Hs]. specialize (IH Hs).
  destruct (f c); [|reflexivity].
  destruct (JS.span f s) as [a b]. cbn [fst NodeUrl.forallb_str] in *.
  rewrite Hc, IH. reflexivity.
Qed.












(* ------------------------------------------------------------------ *)
(** ** Windows paths on a drive *)

Lemma isPlainChar_not_winSep (c : ascii) :
  isPlainChar c = true ->
  NodePath.isWinSep c = false /\ NodePath.win32.isBackslash c = false
  /\ Ascii.eqb c JS.chr_colon = false.
Proof.
  destruct c as [[] [] [] [] [] [] [] []]; vm_compute; intros H;
    try discriminate H; repeat split.
Qed.

Lemma join_app_sep (s : string) (a b : list string) :
  a <> [] -> b <> [] ->
  JS.join s (a ++ b) = JS.join s a ++ s ++ JS.join s b.
Proof.
  intros Ha Hb. induction a as [|x a IH]; [contradiction|].
  destruct a as [|y a].
  - cbn [app]. destruct b as [|z b]; [contradiction|]. reflexivity.
  - change ((x :: y :: a) ++ b)%list with (x :: (y :: a) ++ b)%list.
    cbn [app]. rewrite !join_cons.
    change (y :: (a ++ b))%list with ((y :: a) ++ b)%list.
    rewrite IH by discriminate. rewrite !append_assoc. reflexivity.
Qed.

Section Separators.

Variable isSep : ascii -> bool.
Variable sep : ascii.
Hypothesis sep_isSep : isSep sep = true.
Hypothesis plain_not_sep : forall c, isPlainChar c = true -> isSep c = false.

Lemma split_sep_plain (s : string) :
  NodeUrl.forallb_str isPlainChar s = true -> JS.split isSep s = [s].
Proof.
  induction s as [|c s IH]; [reflexivity|].
  cbn [NodeUrl.forallb_str JS.split]. intros H.
  apply andb_true_iff in H as [Hc Hs].
  rewrite (plain_not_sep c Hc), (IH Hs). reflexivity.
Qed.

Lemma split_sep_app (d rest : string) :
  NodeUrl.forallb_str isPlainChar d = true ->
  JS.split isSep (d ++ String sep rest) = d :: JS.split isSep rest.
Proof.
  induction d as [|c d IH]; intros H.
  - cbn [append JS.split]. rewrite sep_isSep. reflexivity.
  - cbn [NodeUrl.forallb_str] in H. apply andb_true_iff in H as [Hc Hd].
    cbn [append JS.split]. rewrite (plain_not_sep c Hc), (IH Hd).
    reflexivity.
Qed.

Lemma split_sep_join (p : string) (parts : list string) :
  forallb isPlainResource (p :: parts) = true ->
  JS.split isSep (JS.join (String sep "") (p :: parts)) = p :: parts.
Proof.
  revert p. induction parts as [|q parts IH]; intros p H.
  - cbn [JS.join]. apply split_sep_plain.
    cbn [forallb] in H. apply andb_true_iff in H as [Hp _].
    apply (isPlainResource_plainChars p Hp).
  - cbn [forallb] in H. apply andb_true_iff in H as [Hp Hs].
    rewrite join_cons. cbn [append].
    rewrite split_sep_app by apply (isPlainResource_plainChars p Hp).
    rewrite (IH q Hs). reflexivity.
Qed.

Variable sep2 : ascii.
Hypothesis sep2_isSep : isSep sep2 = true.

Lemma split_nonempty (s : string) : JS.split isSep s <> [].
Proof.
  destruct s as [|c s]; [discriminate|]. cbn [JS.split].
  destruct (isSep c); [discriminate|].
  destruct (JS.split isSep s); discriminate.
Qed.

Lemma split_sep_snoc (s : string) :
  JS.split isSep (s ++ String sep2 "") = (JS.split isSep s ++ [""])%list.
Proof.
  induction s as [|c s IH].
  - cbn [append JS.split]. rewrite sep2_isSep. reflexivity.
  - cbn [append JS.split]. rewrite IH.
    destruct (isSep c); [reflexivity|].
    pose proof (split_nonempty s) as Hne.
    destruct (JS.split isSep s) as [|h t]; [contradiction|]. reflexivity.
Qed.

Lemma split_sep_cat (a b : string) :
  JS.split isSep (a ++ String sep2 b)
  = (JS.split isSep a ++ JS.split isSep b)%list.
Proof.
  induction a as [|c a IH].
  - cbn [append JS.split]. rewrite sep2_isSep. reflexivity.
  - cbn [append JS.split]. rewrite IH.
    destruct (isSep c); [reflexivity|].
    pose proof (split_nonempty a) as Hne.
    destruct (JS.split isSep a) as [|h t]; [contradiction|]. reflexivity.
Qed.

Lemma split_sep_join_any (segs : list string) :
  forallb isPlainSegment segs = true ->
  forallb isPlainResource (JS.split isSep (JS.join (String sep "") segs))
  = true
  /\ filter JS.truthy (JS.split isSep (JS.join (String sep "") segs)) = segs.
Proof.
  intros H. destruct segs as [|x segs]; [split; reflexivity|].
  rewrite (split_sep_join x segs (forallb_segment_resource _ H)).
  split; [apply forallb_segment_resource, H|apply filter_truthy_plain, H].
Qed.

(** The names of a path that ends with a separator. *)
Lemma split_sep_names (segs : list string) (above : bool) :
  forallb isPlainSegment segs = true ->
  NodePath.normalizeArray
    (JS.split isSep (JS.join (String sep "") segs ++ String sep2 "")) above
  = segs.
Proof.
  intros H. rewrite split_sep_snoc.
  assert (Hparts : forallb isPlainResource (segs ++ [""]) = true).
  { rewrite forallb_app, (forallb_segment_resource segs H). reflexivity. }
  destruct segs as [|x segs].
  - reflexivity.
  - rewrite (split_sep_join x segs (forallb_segment_resource _ H)).
    rewrite (normalizeArray_parts _ _ Hparts).
    rewrite filter_app, (filter_truthy_plain _ H). apply app_nil_r.
Qed.

End Separators.

Lemma win32StatPath_drive (sep d : ascii) (segs : list string) :
  JS.is_alpha d = true -> NodePath.isWinSep sep = true ->
  NodePath.win32.win32StatPath (drivePath sep d segs)
  = {| NodePath.win32.device := String d ":";
       NodePath.win32.isUnc := false;
       NodePath.win32.isAbsolute := true;
       NodePath.win32.tail := JS.join (String sep "") segs |}.
Proof.
  intros Hd Hs. unfold NodePath.win32.win32StatPath, drivePath.
  cbn [NodePath.win32.splitDevice]. rewrite Hd.
  change (Ascii.eqb ":" JS.chr_colon) with true. cbn [andb].
  rewrite Hs. reflexivity.
Qed.

(** A path that starts with a name has no device and is not absolute. *)
Lemma win32StatPath_names (x : string) (rest : string) :
  isPlainSegment x = true ->
  (rest = "" \/ exists s r, rest = String s r /\ NodePath.isWinSep s = true) ->
  NodePath.win32.win32StatPath (x ++ rest)
  = {| NodePath.win32.device := "";
       NodePath.win32.isUnc := false;
       NodePath.win32.isAbsolute := false;
       NodePath.win32.tail := x ++ rest |}.
Proof.
  intros Hx Hrest.
  destruct (isPlainSegment_facts x Hx) as (Ht & _ & _ & _ & Hc).
  destruct x as [|c x]; [discriminate Ht|].
  cbn [NodeUrl.forallb_str] in Hc. apply andb_true_iff in Hc as [Hc Hx'].
  destruct (isPlainChar_not_winSep c Hc) as (Hsep & _ & _).
  assert (Hdev : NodePath.win32.splitDevice (String c x ++ rest)
                 = ("", String c x ++ rest)).
  { unfold NodePath.win32.splitDevice. cbn [append].
    destruct (x ++ rest) as [|d r] eqn:E; [reflexivity|].
    assert (Hd : Ascii.eqb d JS.chr_colon = false).
    { destruct x as [|d' x''].
      - cbn [append] in E.
        destruct Hrest as [->|(s & r' & -> & Hs)]; [discriminate E|].
        injection E as <- _.
        unfold NodePath.isWinSep in Hs.
        apply orb_true_iff in Hs as [Hs|Hs]; apply Ascii.eqb_eq in Hs;
          subst s; reflexivity.
      - cbn [append] in E. injection E as <- _.
        cbn [NodeUrl.forallb_str] in Hx'.
        apply andb_true_iff in Hx' as [Hd' _].
        apply (isPlainChar_not_winSep d' Hd'). }
    rewrite Hd, andb_false_r.
    unfold NodePath.win32.uncRoot. rewrite Hsep. reflexivity. }
  unfold NodePath.win32.win32StatPath. rewrite Hdev.
  cbn [append]. rewrite Hsep. reflexivity.
Qed.

Lemma join_names_shape (sep : ascii) (x : string) (l : list string) :
  NodePath.isWinSep sep = true ->
  exists rest, JS.join (String sep "") (x :: l) = x ++ rest
               /\ (rest = ""
                   \/ exists s r, rest = String s r
                                  /\ NodePath.isWinSep s = true).
Proof.
  intros Hs. destruct l as [|y l].
  - exists "". split; [cbn [JS.join]; rewrite append_nil_r; reflexivity|].
    left. reflexivity.
  - exists (String sep (JS.join (String sep "") (y :: l))).
    split; [apply join_cons|].
    right. eexists. eexists. split; [reflexivity|exact Hs].
Qed.

Lemma win32_names (segs : list string) (above : bool) :
  forallb isPlainSegment segs = true ->
  NodePath.normalizeArray
    (JS.split NodePath.isWinSep (JS.join "\" segs ++ "\")) above
  = segs.
Proof.
  apply (split_sep_names NodePath.isWinSep "\"%char eq_refl).
  - intros c Hc. apply (isPlainChar_not_winSep c Hc).
  - reflexivity.
Qed.

(** [path.win32.resolve] of one path on a drive: the path written with
    backslashes. *)
Lemma win32_resolve_drive (pr : NodePath.Process) (sep d : ascii)
    (segs : list string) :
  JS.is_alpha d = true -> NodePath.isWinSep sep = true ->
  forallb isPlainSegment segs = true ->
  NodePath.win32.resolve pr [drivePath sep d segs] = drivePath "\" d segs.
Proof.
  intros Hd Hs H. unfold NodePath.win32.resolve.
  cbn [rev app NodePath.win32.resolve_args].
  unfold NodePath.win32.resolve_step at 1.
  change (drivePath sep d segs =? "") with false. cbn iota.
  rewrite (win32StatPath_drive sep d segs Hd Hs).
  cbn [NodePath.win32.device NodePath.win32.resolvedDevice
       NodePath.win32.resolvedTail NodePath.win32.resolvedAbsolute
       NodePath.win32.isAbsolute NodePath.win32.tail JS.truthy andb negb].
  cbn iota.
  cbn [NodePath.win32.device NodePath.win32.resolvedDevice
       NodePath.win32.resolvedTail NodePath.win32.resolvedAbsolute
       NodePath.win32.deviceIsUnc negb].
  change (Ascii.eqb ":" JS.chr_colon) with true. cbn [negb].
  cbn iota.
  rewrite append_nil_r.
  assert (Hn : NodePath.normalizeArray
                 (JS.split NodePath.isWinSep
                    (JS.join (String sep "") segs ++ "\")) false = segs).
  { apply (split_sep_names NodePath.isWinSep sep Hs);
      [|reflexivity|exact H].
    intros c Hc. apply (isPlainChar_not_winSep c Hc). }
  rewrite Hn. reflexivity.
Qed.

(** [path.win32.resolve] of names against a path on a drive. *)
Lemma win32_resolve_under (pr : NodePath.Process) (rsep e : ascii)
    (rootSegs segs : list string) :
  JS.is_alpha e = true -> NodePath.isWinSep rsep = true ->
  forallb isPlainSegment rootSegs = true ->
  forallb isPlainSegment segs = true -> segs <> [] ->
  NodePath.win32.resolve pr
    [drivePath "\" e rootSegs; JS.join (String rsep "") segs]
  = drivePath "\" e (rootSegs ++ segs).
Proof.
  intros He Hrs Hr Hs Hne.
  destruct segs as [|x segs']; [contradiction|].
  destruct (join_names_shape rsep x segs' Hrs) as (rest & Hj & Hrest).
  assert (Hx : isPlainSegment x = true).
  { cbn [forallb] in Hs. apply andb_true_iff in Hs as [Hx _]. exact Hx. }
  assert (Hnil : (JS.join (String rsep "") (x :: segs') =? "") = false).
  { rewrite Hj. destruct (isPlainSegment_facts x Hx) as (Ht & _).
    destruct x; [discriminate Ht|reflexivity]. }
  assert (Hstat : NodePath.win32.win32StatPath
                    (JS.join (String rsep "") (x :: segs'))
                  = {| NodePath.win32.device := "";
                       NodePath.win32.isUnc := false;
                       NodePath.win32.isAbsolute := false;
                       NodePath.win32.tail :=
                         JS.join (String rsep "") (x :: segs') |}).
  { rewrite Hj. apply (win32StatPath_names x rest Hx Hrest). }
  unfold NodePath.win32.resolve.
  cbn [rev app NodePath.win32.resolve_args].
  unfold NodePath.win32.resolve_step at 1.
  rewrite Hnil. cbn iota. rewrite Hstat.
  cbn [NodePath.win32.device NodePath.win32.resolvedDevice
       NodePath.win32.resolvedTail NodePath.win32.resolvedAbsolute
       NodePath.win32.isAbsolute NodePath.win32.tail JS.truthy andb negb].
  cbn iota.
  unfold NodePath.win32.resolve_step at 1.
  change (drivePath "\" e rootSegs =? "") with false. cbn iota.
  rewrite (win32StatPath_drive "\" e rootSegs He eq_refl).
  cbn [NodePath.win32.device NodePath.win32.resolvedDevice
       NodePath.win32.resolvedTail NodePath.win32.resolvedAbsolute
       NodePath.win32.isAbsolute NodePath.win32.tail JS.truthy andb negb].
  cbn iota.
  cbn [NodePath.win32.device NodePath.win32.resolvedDevice
       NodePath.win32.resolvedTail NodePath.win32.resolvedAbsolute
       NodePath.win32.deviceIsUnc negb].
  change (Ascii.eqb ":" JS.chr_colon) with true. cbn [negb]. cbn iota.
  rewrite append_nil_r.
  assert (Hplain : forall c, isPlainChar c = true -> NodePath.isWinSep c = false)
    by (intros c Hc; apply (isPlainChar_not_winSep c Hc)).
  change ("\" ++ JS.join (String rsep "") (x :: segs') ++ "\")
    with (String "\" (JS.join (String rsep "") (x :: segs') ++ "\")).
  rewrite (split_sep_cat NodePath.isWinSep "\"%char eq_refl).
  rewrite (split_sep_snoc NodePath.isWinSep "\"%char eq_refl).
  destruct (split_sep_join_any NodePath.isWinSep "\"%char eq_refl Hplain
              rootSegs Hr) as [Hp1 Hf1].
  destruct (split_sep_join_any NodePath.isWinSep rsep Hrs Hplain
              (x :: segs') Hs) as [Hp2 Hf2].
  rewrite normalizeArray_parts
    by (rewrite !forallb_app, Hp1, Hp2; reflexivity).
  rewrite !filter_app, Hf1, Hf2. cbn [filter JS.truthy].
  rewrite app_nil_r. reflexivity.
Qed.

(* ------------------------------------------------------------------ *)
(** ** Lower case *)

Lemma toLowerCase_app (a b : string) :
  JS.toLowerCase (a ++ b) = JS.toLowerCase a ++ JS.toLowerCase b.
Proof.
  induction a as [|c a IH]; [reflexivity|].
  cbn [append JS.toLowerCase]. rewrite IH. reflexivity.
Qed.

Lemma toLowerCase_join (segs : list string) :
  JS.toLowerCase (JS.join "\" segs) = JS.join "\" (map JS.toLowerCase segs).
Proof.
  induction segs as [|x segs IH]; [reflexivity|].
  destruct segs as [|y segs]; [reflexivity|].
  cbn [map]. rewrite !join_cons, !toLowerCase_app.
  cbn [map] in IH. rewrite IH. reflexivity.
Qed.

Lemma toLowerCase_drivePath (d : ascii) (segs : list string) :
  JS.toLowerCase (drivePath "\" d segs)
  = drivePath "\" (JS.lower_char d) (map JS.toLowerCase segs).
Proof.
  unfold drivePath. cbn [JS.toLowerCase]. rewrite toLowerCase_join.
  reflexivity.
Qed.

Lemma isPlainChar_lower (c : ascii) :
  isPlainChar c = true -> isPlainChar (JS.lower_char c) = true.
Proof.
  destruct c as [[] [] [] [] [] [] [] []]; vm_compute; intros H;
    try discriminate H; reflexivity.
Qed.

Lemma toLowerCase_plainChars (s : string) :
  NodeUrl.forallb_str isPlainChar s = true ->
  NodeUrl.forallb_str isPlainChar (JS.toLowerCase s) = true.
Proof.
  induction s as [|c s IH]; [reflexivity|].
  cbn [NodeUrl.forallb_str JS.toLowerCase]. intros H.
  apply andb_true_iff in H as [Hc Hs].
  rewrite (isPlainChar_lower c Hc), (IH Hs). reflexivity.
Qed.

Lemma lower_char_dot (c : ascii) :
  Ascii.eqb (JS.lower_char c) "." = Ascii.eqb c ".".
Proof. destruct c as [[] [] [] [] [] [] [] []]; reflexivity. Qed.

Lemma toLowerCase_plainSegment (s : string) :
  isPlainSegment s = true -> isPlainSegment (JS.toLowerCase s) = true.
Proof.
  intros H. destruct (isPlainSegment_facts s H) as (Ht & H1 & H2 & _ & Hc).
  unfold isPlainSegment.
  rewrite (toLowerCase_plainChars s Hc), andb_true_r.
  destruct s as [|a [|b [|c s]]]; try reflexivity.
  - discriminate Ht.
  - cbn [JS.toLowerCase JS.truthy andb String.eqb].
    cbn [String.eqb] in H1. rewrite lower_char_dot.
    destruct (Ascii.eqb a "."); [discriminate H1|reflexivity].
  - cbn [JS.toLowerCase JS.truthy andb String.eqb].
    cbn [String.eqb] in H2. rewrite !lower_char_dot.
    destruct (Ascii.eqb a "."); [|reflexivity].
    destruct (Ascii.eqb b "."); [discriminate H2|reflexivity].
  - cbn [JS.toLowerCase JS.truthy andb String.eqb].
    destruct (Ascii.eqb (JS.lower_char a) "."); [|reflexivity].
    destruct (Ascii.eqb (JS.lower_char b) "."); reflexivity.
Qed.

Lemma map_toLowerCase_plain (l : list string) :
  forallb isPlainSegment l = true ->
  forallb isPlainSegment (map JS.toLowerCase l) = true.
Proof.
  induction l as [|x l IH]; [reflexivity|]. cbn [forallb map]. intros H.
  apply andb_true_iff in H as [Hx Hl].
  rewrite (toLowerCase_plainSegment x Hx), (IH Hl). reflexivity.
Qed.

(* ------------------------------------------------------------------ *)
(** ** [path.win32.relative] on a drive *)

Lemma is_alpha_facts (d : ascii) :
  JS.is_alpha d = true ->
  NodePath.win32.isBackslash d = false
  /\ JS.is_alpha (JS.lower_char d) = true
  /\ isDrivePathChar d = true.
Proof.
  destruct d as [[] [] [] [] [] [] [] []]; vm_compute; intros H;
    try discriminate H; repeat split.
Qed.

Lemma trimFront_rev_names (h : string) (l : list string) :
  JS.truthy h = true -> forallb isPlainSegment l = true ->
  NodePath.trimFront (rev l ++ [h]) = (rev l ++ [h])%list.
Proof.
  intros Hh Hl.
  assert (Hr : forallb isPlainSegment (rev l) = true)
    by (rewrite forallb_rev; exact Hl).
  destruct (rev l) as [|x r].
  - cbn [app NodePath.trimFront]. destruct h; [discriminate Hh|reflexivity].
  - cbn [forallb] in Hr. apply andb_true_iff in Hr as [Hx _].
    cbn [app NodePath.trimFront].
    rewrite (isPlainSegment_not_empty x Hx). reflexivity.
Qed.

Lemma trimArray_head_names (h : string) (l : list string) :
  JS.truthy h = true -> forallb isPlainSegment l = true ->
  NodePath.trimArray (h :: l) = h :: l.
Proof.
  intros Hh Hl. unfold NodePath.trimArray.
  assert (H1 : NodePath.trimFront (h :: l) = h :: l).
  { cbn [NodePath.trimFront]. destruct h; [discriminate Hh|reflexivity]. }
  rewrite H1. cbn [rev]. rewrite (trimFront_rev_names h l Hh Hl).
  rewrite rev_app_distr, rev_involutive. reflexivity.
Qed.

(** The parts of a resolved path on a drive: the drive and the names. *)
Lemma win32_parts (d : ascii) (segs : list string) :
  NodePath.win32.isBackslash d = false ->
  forallb isPlainSegment segs = true ->
  NodePath.trimArray
    (JS.split NodePath.win32.isBackslash (drivePath "\" d segs))
  = String d ":" :: segs.
Proof.
  intros Hd H. unfold drivePath. cbn [JS.split]. rewrite Hd.
  change (NodePath.win32.isBackslash ":") with false.
  change (NodePath.win32.isBackslash "\") with true. cbn iota.
  destruct segs as [|x segs].
  - reflexivity.
  - rewrite (split_sep_join NodePath.win32.isBackslash "\"%char eq_refl
               (fun c Hc => proj1 (proj2 (isPlainChar_not_winSep c Hc)))
               x segs (forallb_segment_resource _ H)).
    apply trimArray_head_names; [reflexivity|exact H].
Qed.

Lemma drivePath_inj_length (d d' : ascii) (a b : list string) :
  NodePath.win32.isBackslash d = false ->
  NodePath.win32.isBackslash d' = false ->
  forallb isPlainSegment a = true -> forallb isPlainSegment b = true ->
  drivePath "\" d a = drivePath "\" d' b -> List.length a = List.length b.
Proof.
  intros Hd Hd' Ha Hb E.
  pose proof (win32_parts d a Hd Ha) as Pa.
  pose proof (win32_parts d' b Hd' Hb) as Pb.
  rewrite E, Pb in Pa. injection Pa as _ <-. reflexivity.
Qed.

Lemma samePartsLength_prefix (a b x : list string) :
  a = b -> NodePath.samePartsLength a (b ++ x) = List.length a.
Proof. intros ->. apply samePartsLength_app. Qed.

(** The relative path from a root on a drive to a path below it, the
    drive letter and the names of the root compared without their case:
    the names from the root down to the path. *)
Lemma win32_relative_below (pr : NodePath.Process) (ksep tsep d d' : ascii)
    (keySegs rootSegs segs : list string) :
  JS.is_alpha d = true -> JS.is_alpha d' = true ->
  JS.lower_char d' = JS.lower_char d ->
  NodePath.isWinSep ksep = true -> NodePath.isWinSep tsep = true ->
  forallb isPlainSegment keySegs = true ->
  forallb isPlainSegment rootSegs = true ->
  map JS.toLowerCase keySegs = map JS.toLowerCase rootSegs ->
  forallb isPlainSegment segs = true -> segs <> [] ->
  NodePath.win32.relative pr (drivePath ksep d' keySegs)
    (drivePath tsep d (rootSegs ++ segs))
  = JS.join "\" segs.
Proof.
  intros Hd Hd' Hdd Hks Hts Hk Hr Hmap Hs Hne.
  destruct (is_alpha_facts d Hd) as (Bd & Ald & _).
  destruct (is_alpha_facts d' Hd') as (Bd' & Ald' & _).
  destruct (is_alpha_facts _ Ald) as (Bld & _).
  destruct (is_alpha_facts _ Ald') as (Bld' & _).
  assert (Ht : forallb isPlainSegment (rootSegs ++ segs) = true)
    by (rewrite forallb_app, Hr, Hs; reflexivity).
  assert (Hlen : List.length keySegs = List.length rootSegs).
  { rewrite <- (length_map JS.toLowerCase keySegs), Hmap. apply length_map. }
  assert (Hlong : List.length (rootSegs ++ segs) <> List.length keySegs).
  { rewrite length_app, Hlen. destruct segs; [contradiction|].
    cbn [List.length]. lia. }
  assert (Rk := win32_resolve_drive pr ksep d' keySegs Hd' Hks Hk).
  assert (Rt := win32_resolve_drive pr tsep d (rootSegs ++ segs) Hd Hts Ht).
  unfold NodePath.win32.relative.
  destruct (drivePath ksep d' keySegs =? drivePath tsep d (rootSegs ++ segs))
    eqn:E0.
  { exfalso. apply String.eqb_eq in E0. rewrite E0, Rt in Rk.
    apply Hlong. symmetry.
    apply (drivePath_inj_length d' d keySegs (rootSegs ++ segs) Bd' Bd Hk Ht).
    symmetry. exact Rk. }
  rewrite Rk, Rt.
  destruct (drivePath "\" d' keySegs =? drivePath "\" d (rootSegs ++ segs))
    eqn:E1.
  { exfalso. apply String.eqb_eq in E1. apply Hlong. symmetry.
    apply (drivePath_inj_length d' d keySegs (rootSegs ++ segs) Bd' Bd Hk Ht E1). }
  rewrite !toLowerCase_drivePath.
  destruct (drivePath "\" (JS.lower_char d') (map JS.toLowerCase keySegs)
            =? drivePath "\" (JS.lower_char d)
                 (map JS.toLowerCase (rootSegs ++ segs))) eqn:E2.
  { exfalso. apply String.eqb_eq in E2. apply Hlong.
    rewrite <- (length_map JS.toLowerCase (rootSegs ++ segs)).
    rewrite <- (length_map JS.toLowerCase keySegs). symmetry.
    apply (drivePath_inj_length _ _ _ _ Bld' Bld
             (map_toLowerCase_plain _ Hk) (map_toLowerCase_plain _ Ht) E2). }
  cbn [orb].
  rewrite (win32_parts d _ Bd Ht).
  rewrite (win32_parts _ _ Bld' (map_toLowerCase_plain _ Hk)).
  rewrite (win32_parts _ _ Bld (map_toLowerCase_plain _ Ht)).
  cbn [NodePath.samePartsLength]. rewrite Hdd, String.eqb_refl.
  rewrite map_app, (samePartsLength_prefix _ _ _ Hmap), length_map.
  cbn [Nat.eqb List.length]. rewrite length_map, Nat.sub_diag.
  cbn [repeat app skipn].
  rewrite Hlen, skipn_app, skipn_all, Nat.sub_diag. reflexivity.
Qed.

(* ------------------------------------------------------------------ *)
(** ** A Windows server path through a mapped root *)

Lemma isDrivePathChar_facts (c : ascii) :
  isDrivePathChar c = true ->
  FileUrl.isUriUnescaped c = true
  /\ Ascii.eqb c JS.chr_backslash = false
  /\ isAsciiPathChar c = true.
Proof.
  destruct c as [[] [] [] [] [] [] [] []]; vm_compute; intros H;
    try discriminate H; repeat split.
Qed.

Lemma replace_char_noop (s : string) :
  NodeUrl.forallb_str isDrivePathChar s = true ->
  JS.replace_char JS.chr_backslash JS.chr_slash s = s.
Proof.
  induction s as [|c s IH]; [reflexivity|].
  cbn [NodeUrl.forallb_str JS.replace_char]. intros H.
  apply andb_true_iff in H as [Hc Hs].
  destruct (isDrivePathChar_facts c Hc) as (_ & -> & _).
  rewrite (IH Hs). reflexivity.
Qed.

Lemma encodeURI_unescaped (s : string) :
  NodeUrl.forallb_str isDrivePathChar s = true -> FileUrl.encodeURI s = s.
Proof.
  induction s as [|c s IH]; [reflexivity|].
  cbn [NodeUrl.forallb_str FileUrl.encodeURI]. intros H.
  apply andb_true_iff in H as [Hc Hs].
  destruct (isDrivePathChar_facts c Hc) as (-> & _).
  rewrite (IH Hs). reflexivity.
Qed.

Lemma isNameSegment_driveChars (s : string) :
  isNameSegment s = true -> NodeUrl.forallb_str isDrivePathChar s = true.
Proof.
  unfold isNameSegment. intros H. apply andb_true_iff in H as [_ Hc].
  revert Hc. apply forallb_str_impl. intros c Hc.
  unfold isDrivePathChar. rewrite Hc. reflexivity.
Qed.

Lemma join_driveChars (segs : list string) :
  forallb isNameSegment segs = true ->
  NodeUrl.forallb_str isDrivePathChar (JS.join "/" segs) = true.
Proof.
  induction segs as [|x segs IH]; [reflexivity|]. cbn [forallb]. intros H.
  apply andb_true_iff in H as [Hx Hs].
  destruct segs as [|y segs]; [apply isNameSegment_driveChars, Hx|].
  rewrite join_cons, !forallb_str_app, (isNameSegment_driveChars x Hx).
  rewrite (IH Hs). reflexivity.
Qed.

Lemma drivePath_driveChars (d : ascii) (segs : list string) :
  JS.is_alpha d = true -> forallb isNameSegment segs = true ->
  NodeUrl.forallb_str isDrivePathChar (String "/" (drivePath "/" d segs))
  = true.
Proof.
  intros Hd H. unfold drivePath. cbn [NodeUrl.forallb_str].
  destruct (is_alpha_facts d Hd) as (_ & _ & ->).
  rewrite (join_driveChars segs H). reflexivity.
Qed.

(** The URI of a Windows server path, as [fileUrl] writes it. *)
Lemma fileUrl_drivePath (d : ascii) (segs : list string) :
  JS.is_alpha d = true -> forallb isNameSegment segs = true ->
  FileUrl.fileUrl (String "/" (drivePath "/" d segs))
  = "file:///" ++ drivePath "/" d segs
  /\ fileUrlPath (String "/" (drivePath "/" d segs))
     = String "/" (drivePath "/" d segs).
Proof.
  intros Hd H. pose proof (drivePath_driveChars d segs Hd H) as Hc.
  assert (Hp : fileUrlPath (String "/" (drivePath "/" d segs))
               = String "/" (drivePath "/" d segs)).
  { unfold fileUrlPath. cbv zeta. rewrite (replace_char_noop _ Hc).
    reflexivity. }
  split; [|exact Hp].
  rewrite fileUrl_path, Hp, (encodeURI_unescaped _ Hc). reflexivity.
Qed.

Lemma startsWith_dots_join_backslash (l : list string) :
  forallb isPlainSegment l = true ->
  JS.startsWith ".." (JS.join "\" l) = firstStartsWithDots l.
Proof.
  destruct l as [|x [|y l]]; try reflexivity.
  intros H. cbn [forallb] in H. apply andb_true_iff in H as [Hx _].
  rewrite join_cons. apply (startsWith_dots_segment x _ Hx).
Qed.

(** X19.  On a Windows client, for the URI of a file on a Windows server
    ([file:///C:/...]) below the key of the first entry, the key compared
    without the case of its drive letter and of its names and written
    with either separator, [convertDebuggerPathToClient] returns the
    local root of the entry followed by the names from the key down to
    the file, with backslashes. *)
Theorem X19_windows_server_path_through_mapped_root (pr : NodePath.Process)
    (ksep d d' e : ascii) (keySegs serverSegs localSegs sub : list string)
    (file : string) (others : PathMapping) :
  JS.is_alpha d = true -> JS.is_alpha d' = true -> JS.is_alpha e = true ->
  JS.lower_char d' = JS.lower_char d ->
  NodePath.isWinSep ksep = true ->
  forallb isNameSegment keySegs = true ->
  forallb isNameSegment serverSegs = true ->
  map JS.toLowerCase keySegs = map JS.toLowerCase serverSegs ->
  forallb isNameSegment localSegs = true ->
  forallb isNameSegment sub = true -> isNameSegment file = true ->
  firstStartsWithDots (sub ++ [file]) = false ->
  convertDebuggerPathToClient (node NodePath.Win32 pr)
    (UriString ("file:///" ++ drivePath "/" d (serverSegs ++ sub ++ [file])))
    (Some ((drivePath ksep d' keySegs, drivePath "\" e localSegs) :: others))
  = Some (drivePath "\" e (localSegs ++ sub ++ [file])).
Proof.
  intros Hd Hd' He Hdd Hks Hk Hs Hmap Hl Hsub Hfile Hdots.
  pose proof (forallb_name_plain _ Hk) as Pk.
  pose proof (forallb_name_plain _ Hs) as Ps.
  pose proof (forallb_name_plain _ Hl) as Pl.
  assert (Nx : forallb isNameSegment (sub ++ [file]) = true).
  { rewrite forallb_app, Hsub. cbn [forallb]. rewrite Hfile. reflexivity. }
  pose proof (forallb_name_plain _ Nx) as Px.
  assert (Nt : forallb isNameSegment (serverSegs ++ sub ++ [file]) = true)
    by (rewrite forallb_app, Hs, Nx; reflexivity).
  assert (Hne : (sub ++ [file])%list <> []) by (destruct sub; discriminate).
  destruct (fileUrl_drivePath d _ Hd Nt) as [Hu Hp].
  rewrite convertDebuggerPathToClient_first.
  cbn [parsedUri node url_parse decode].
  rewrite <- Hu, decode_pathname_fileUrl.
  2:{ generalize (drivePath_driveChars d _ Hd Nt).
      apply forallb_str_impl. intros c Hc.
      apply (isDrivePathChar_facts c Hc). }
  rewrite Hp. cbn [option_map].
  unfold serverToClientByFirstMatch, serverPathOf, serverRelative,
    firstMatchingEntry.
  assert (Hw : serverIsWindowsTest
                 (String "/" (drivePath "/" d (serverSegs ++ sub ++ [file])))
               = true).
  { unfold drivePath, serverIsWindowsTest. rewrite Hd. reflexivity. }
  rewrite Hw. cbn [JS.substr1 find fst].
  change (win32_relative (node NodePath.Win32 pr))
    with (NodePath.win32.relative pr).
  change (path_resolve (node NodePath.Win32 pr))
    with (NodePath.win32.resolve pr).
  rewrite (win32_relative_below pr ksep "/" d d' keySegs serverSegs
             (sub ++ [file]) Hd Hd' Hdd Hks eq_refl Pk Ps Hmap Px Hne).
  rewrite (startsWith_dots_join_backslash _ Px), Hdots. cbn [negb].
  change (JS.truthy (drivePath ksep d' keySegs)) with true.
  change (JS.truthy (drivePath "\" e localSegs)) with true.
  cbn [andb].
  rewrite (win32_relative_below pr ksep "/" d d' keySegs serverSegs
             (sub ++ [file]) Hd Hd' Hdd Hks eq_refl Pk Ps Hmap Px Hne).
  rewrite (win32_resolve_under pr "\" e localSegs (sub ++ [file]) He eq_refl Pl Px
             Hne).
  reflexivity.
Qed.

Lemma X19_witness :
  (JS.is_alpha "C" = true /\ JS.is_alpha "c" = true /\ JS.is_alpha "D" = true
   /\ JS.lower_char "c" = JS.lower_char "C"
   /\ NodePath.isWinSep "/" = true
   /\ forallb isNameSegment ["INETPUB"] = true
   /\ forallb isNameSegment ["inetpub"] = true
   /\ map JS.toLowerCase ["INETPUB"] = map JS.toLowerCase ["inetpub"]
   /\ forallb isNameSegment ["wamp"; "www"] = true
   /\ forallb isNameSegment ["site"] = true
   /\ isNameSegment "index.php" = true
   /\ firstStartsWithDots ["site"; "index.php"] = false)
  /\ convertDebuggerPathToClient (node NodePath.Win32 windowsProcess)
       (UriString "file:///C:/inetpub/site/index.php")
       (Some [("c:/INETPUB", "D:\wamp\www")])
     = Some "D:\wamp\www\site\index.php".
Proof.
  split; [repeat split; reflexivity|].
  exact (X19_windows_server_path_through_mapped_root windowsProcess
           "/" "C" "c" "D" ["INETPUB"] ["inetpub"] ["wamp"; "www"] ["site"]
           "index.php" []
           eq_refl eq_refl eq_refl eq_refl eq_refl eq_refl eq_refl eq_refl
           eq_refl eq_refl eq_refl eq_refl).
Defined.

(* ------------------------------------------------------------------ *)
(** ** File URIs whose path names a drive *)




























(* ------------------------------------------------------------------ *)
(** ** A Windows client and a POSIX server *)














(* ------------------------------------------------------------------ *)
(** ** The case of names on a Windows client *)




